(** * eagerx_tutorials: helper functions and the Pendulum object

    A shallow embedding of [eagerx_tutorials/helper.py] and
    [eagerx_tutorials/pendulum/objects.py].

    The Python code is glue around third-party libraries.  Every call that
    leaves the repository (subprocess, os, importlib, the gym environment,
    the RL model, OpenCV, IPython, the EAGERx graph) is modelled as an
    _oracle_ acting on an abstract external state, and is recorded, with its
    arguments and its result, in a chronological trace of events.  The
    control flow, the data flow and the exceptions that the repository's own
    statements raise are modelled as written. *)

From Stdlib Require Import ZArith String Ascii List Lia.
From stdpp Require Import base option gmap strings list pretty.

Open Scope string_scope.
Open Scope list_scope.
Open Scope Z_scope.

(** ** Python-level helpers *)

Module Py.

(** Exceptions that the modelled code raises or handles. *)
Inductive exn : Type :=
| CalledProcessError (returncode : Z) (cmd : list string) (output : string)
| IndexError
| ValueError (msg : string)
| UnicodeDecodeError
| FileNotFoundError (path : string).

(** [range(n)]: the integers [0 .. n-1]; empty when [n <= 0]. *)
Definition range (n : Z) : list Z := map Z.of_nat (seq 0 (Z.to_nat n)).

(** [needle in hay] on [str]. *)
Fixpoint contains (needle hay : string) : bool :=
  String.prefix needle hay ||
  match hay with
  | EmptyString => false
  | String _ rest => contains needle rest
  end.

(** [str(i)] for an [int]. *)
Definition str_int (i : Z) : string := pretty i.

(** Whether the string holds a NUL character. *)
Fixpoint has_nul (s : string) : bool :=
  match s with
  | EmptyString => false
  | String c rest => Ascii.eqb c zero || has_nul rest
  end.

Definition newline : string := String (ascii_of_nat 10) EmptyString.
Definition tab : string := String (ascii_of_nat 9) EmptyString.

(** [xs[-1]]: raises [IndexError] on the empty list. *)
Definition last_item {A} (xs : list A) : A + exn :=
  match last xs with
  | Some x => inl x
  | None => inr IndexError
  end.

(** Truthiness of an optional list argument: [None] and [[]] are falsy. *)
Definition truthy {A} (arg : option (list A)) : bool :=
  match arg with
  | None | Some [] => false
  | Some (_ :: _) => true
  end.

(** [arg if arg else default] for an optional list argument. *)
Definition if_else {A} (arg : option (list A)) (default : list A) : list A :=
  match arg with
  | Some l => if truthy arg then l else default
  | None => default
  end.

End Py.

(** ** Effects: external state, exceptions and a trace of events *)

Module Eff.

(** A computation reads the state [St], returns a value or raises, leaves a
    new state, and produces the events it performed, oldest first. *)
Definition M (Ev St A : Type) : Type := St -> (A + Py.exn) * St * list Ev.

Section Ops.
Context {Ev St : Type}.

Definition ret {A} (a : A) : M Ev St A := fun s => (inl a, s, []).

Definition bind {A B} (m : M Ev St A) (k : A -> M Ev St B) : M Ev St B :=
  fun s =>
    match m s with
    | (inl a, s1, t1) =>
        match k a s1 with
        | (r, s2, t2) => (r, s2, t1 ++ t2)
        end
    | (inr e, s1, t1) => (inr e, s1, t1)
    end.

Definition raise {A} (e : Py.exn) : M Ev St A := fun s => (inr e, s, []).

(** [try: m except Exception as e: h e] *)
Definition try_except {A} (m : M Ev St A) (h : Py.exn -> M Ev St A) : M Ev St A :=
  fun s =>
    match m s with
    | (inl a, s1, t1) => (inl a, s1, t1)
    | (inr e, s1, t1) =>
        match h e s1 with
        | (r, s2, t2) => (r, s2, t1 ++ t2)
        end
    end.

Definition emit (e : Ev) : M Ev St unit := fun s => (inl tt, s, [e]).

Definition get : M Ev St St := fun s => (inl s, s, []).
Definition modify (f : St -> St) : M Ev St unit := fun s => (inl tt, f s, []).

(** A pure value or an exception, lifted. *)
Definition lift {A} (r : A + Py.exn) : M Ev St A := fun s => (r, s, []).

(** [for x in xs: acc = body x acc] *)
Fixpoint for_in {X A} (xs : list X) (body : X -> A -> M Ev St A) (acc : A)
  : M Ev St A :=
  match xs with
  | [] => ret acc
  | x :: rest => bind (body x acc) (for_in rest body)
  end.

Definition result {A} (o : (A + Py.exn) * St * list Ev) : A + Py.exn := o.1.1.
Definition final {A} (o : (A + Py.exn) * St * list Ev) : St := o.1.2.
Definition trace {A} (o : (A + Py.exn) * St * list Ev) : list Ev := o.2.
End Ops.

#[global] Instance M_ret {Ev St} : MRet (M Ev St) := @ret Ev St.
#[global] Instance M_bind {Ev St} : MBind (M Ev St) :=
  fun A B k m => bind m k.

End Eff.

Import Eff.

(** ** helper.py *)

Module Helper.

(** *** run_command and setup_notebook: the notebook bootstrap *)

Inductive stream : Type := Stdout | Stderr.

(** The [stderr] argument of [subprocess.check_output]. *)
Inductive stderr_dest : Type := STDOUT | PIPE | DEVNULL.

(** The calls of the bootstrap that leave the process, with what they
    returned: [print], [subprocess.check_output] (with the exit status and
    the decoded output, or with the fact that the output did not decode),
    [os.system], an assignment to [os.environ], [importlib.reload], and an
    [import] in a [try]. *)
Inductive sh_event : Type :=
| PrintTo (file : stream) (text : string)
| CheckOutput (args : list string) (stderr : stderr_dest) (returncode : Z)
    (output : string)
| Undecodable (args : list string) (stderr : stderr_dest)
| OsSystem (cmd : string)
| SetEnv (key value : string)
| Reload (module : string)
| TryImport (module : string) (ok : bool).

(** [os.environ], and everything else outside the process. *)
Record world (Sys : Type) : Type := World {
  environ : gmap string string;
  sys : Sys
}.
Arguments World {Sys}.
Arguments environ {Sys}.
Arguments sys {Sys}.

Section Notebook.
(** The machine the notebook runs on. *)
Variable Sys : Type.

Abbreviation W := (world Sys).
Abbreviation Sh := (M sh_event W).

Definition on_sys (f : Sys -> Sys) : Sh unit :=
  modify (fun w => World (environ w) (f (sys w))).

Definition print (text : string) : Sh unit := emit (PrintTo Stdout text).
Definition print_stderr (text : string) : Sh unit := emit (PrintTo Stderr text).

(** [os.environ[key] = value] *)
Definition setenv (key value : string) : Sh unit :=
  modify (fun w => World (<[key := value]> (environ w)) (sys w)) ≫=
  fun _ => emit (SetEnv key value).

Section Subprocess.
(** The bytes that are captured from a command. *)
Variable Raw : Type.
(** Running [args] through the shell: exit status, captured bytes. *)
Variable spawn : list string -> stderr_dest -> Sys -> Z * Raw * Sys.
(** The captured bytes as text, as [universal_newlines=True] asks for;
    [None] when they do not decode. *)
Variable decode : Raw -> option string.

(** [subprocess.check_output(args, shell=True, stderr=stderr,
    universal_newlines=True)]. An argument that holds a NUL character is
    refused with [ValueError] before anything is run. Otherwise the command
    is run and its output is read as text: when the bytes do not decode,
    [UnicodeDecodeError] is raised, whatever the exit status; when they do,
    the text is returned when the exit status is 0, and otherwise
    [CalledProcessError] is raised, carrying the status, the arguments and
    the text. *)
Definition check_output (args : list string) (stderr : stderr_dest) : Sh string :=
  fun w =>
    if existsb Py.has_nul args
    then (inr (Py.ValueError "embedded null byte"), w, [])
    else
      match spawn args stderr (sys w) with
      | (rc, raw, s') =>
          let w' := World (environ w) s' in
          match decode raw with
          | None => (inr Py.UnicodeDecodeError, w', [Undecodable args stderr])
          | Some out =>
              let ev := [CheckOutput args stderr rc out] in
              if decide (rc = 0) then (inl out, w', ev)
              else (inr (Py.CalledProcessError rc args out), w', ev)
          end
      end.

(** helper.py, lines 15-38. *)
Definition error_message (returncode : Z) (cmd output : string) : string :=
  "ERROR " +:+ Py.str_int returncode +:+ ": " +:+ cmd +:+
  Py.newline +:+ Py.tab +:+ output.

Definition run_command (cmd : string) (stderr : stderr_dest) : Sh unit :=
  out ← try_except
           (check_output [cmd] stderr)
           (fun e =>
              match e with
              | Py.CalledProcessError returncode _ output =>
                  print_stderr (error_message returncode cmd output) ;;
                  raise e
              | _ => raise e
              end);
  print out.

End Subprocess.

(** Running one of the commands of [setup_notebook] through the shell: exit
    status and captured output. The commands are the fixed texts below; what
    is captured of them is what their [echo] prints, and what pip writes to
    the standard error in the last one: text, which decodes to itself. *)
Variable spawn : list string -> stderr_dest -> Sys -> Z * string * Sys.
(** [os.system cmd]. *)
Variable os_system : string -> Sys -> Sys.
(** [str(get_ipython())]. *)
Variable get_ipython : Sys -> string.
(** Whether [import module] succeeds (otherwise it raises ImportError). *)
Variable importable : string -> Sys -> bool.
(** [importlib.reload]. *)
Variable reload : string -> Sys -> Sys.

(** The shell commands of [setup_notebook], lines 58-80. *)
Definition cmd_display : string :=
  "echo 'Setting up virtual display for visualisation' && apt-get install ffmpeg freeglut3-dev xvfb >> /tmp/eagerx_xvfb.txt 2>&1".
Definition cmd_xvfb : string := "Xvfb :1 -screen 0 1024x768x24 &".
Definition cmd_gui_deps : string :=
  "echo 'Installing eagerx-gui dependencies' && pip install pyqt5 pyqtgraph >> /tmp/eagerx_gui_deps.txt 2>&1".
Definition cmd_gui_colab : string :=
  "echo 'Installing eagerx-gui' && pip install --ignore-requires-python --no-deps eagerx-gui >> /tmp/eagerx_gui.txt 2>&1".
Definition cmd_opencv : string :=
  "echo 'Installing opencv-python-headless' && pip uninstall -y opencv-python opencv-python-headless >> /tmp/opencv_uninstall.txt 2>&1 && pip install opencv-python-headless >> /tmp/opencv_uninstall.txt".
Definition cmd_gui_local : string :=
  "echo 'Installing eagerx-gui' && pip install eagerx-gui >> /tmp/eagerx_gui.txt 2>&1".

(** [try: import module except ImportError: handler] *)
Definition try_import (module : string) (handler : Sh unit) : Sh unit :=
  w ← get;
  let ok := importable module (sys w) in
  emit (TryImport module ok) ;;
  if ok then mret tt else handler.

(** helper.py, lines 41-82. *)
Definition setup_notebook : Sh unit :=
  w ← get;
  (if Py.contains "google.colab" (get_ipython (sys w)) then
     print "Running on CoLab." ;;
     setenv "EAGERX_COLAB" "1" ;;
     on_sys (reload "PIL.TiffTags") ;;
     emit (Reload "PIL.TiffTags") ;;
     try_import "eagerx_gui"
       (run_command string spawn Some cmd_display STDOUT ;;
        on_sys (os_system cmd_xvfb) ;;
        emit (OsSystem cmd_xvfb) ;;
        setenv "DISPLAY" ":1" ;;
        run_command string spawn Some cmd_gui_deps STDOUT ;;
        run_command string spawn Some cmd_gui_colab STDOUT ;;
        run_command string spawn Some cmd_opencv STDOUT)
   else
     print "Not running on CoLab." ;;
     try_import "eagerx_gui"
       (run_command string spawn Some cmd_gui_local STDOUT)) ;;
  setenv "EAGERX_RELOAD" "1".

(** *** What the bootstrap is to achieve *)

(** The notebook runs on Colab. *)
Definition colab (w : world Sys) : bool :=
  Py.contains "google.colab" (get_ipython (sys w)).

(** [import eagerx_gui] succeeds at the point where [setup_notebook] tries it. *)
Definition gui_importable (w : world Sys) : bool :=
  importable "eagerx_gui"
    (if colab w then reload "PIL.TiffTags" (sys w) else sys w).

(** The command [cmd] was run and exited with status 0. *)
Definition ran_ok (cmd : string) (tr : list sh_event) : Prop :=
  exists out, CheckOutput [cmd] STDOUT 0 out ∈ tr.

(** The four installation commands of the Colab branch were run and exited
    with status 0. *)
Definition installs_dependencies (tr : list sh_event) : Prop :=
  ran_ok cmd_display tr /\ ran_ok cmd_gui_deps tr /\
  ran_ok cmd_gui_colab tr /\ ran_ok cmd_opencv tr.

(** Xvfb was started on display :1 and DISPLAY was set to ":1". *)
Definition configures_display (tr : list sh_event) : Prop :=
  OsSystem cmd_xvfb ∈ tr /\ SetEnv "DISPLAY" ":1" ∈ tr.

Definition command_ok (e : sh_event) : Prop :=
  match e with
  | CheckOutput _ _ rc _ => rc = 0
  | _ => True
  end.

(** Every command of the run exited with status 0. *)
Definition commands_succeed (tr : list sh_event) : Prop := Forall command_ok tr.

(** What [setup_notebook] is to do from the world [w]: install the
    dependencies and configure the virtual display exactly on Colab without
    eagerx_gui, there leave DISPLAY at ":1" and EAGERX_COLAB at "1", and
    always return after setting EAGERX_RELOAD to "1" as its last action. *)
Definition bootstraps (w : world Sys) : Prop :=
  let o := setup_notebook w in
  (installs_dependencies (trace o) /\ configures_display (trace o) <->
   colab w = true /\ gui_importable w = false) /\
  (colab w = true -> gui_importable w = false ->
     environ (final o) !! "DISPLAY" = Some ":1" /\
     environ (final o) !! "EAGERX_COLAB" = Some "1") /\
  result o = inl tt /\
  last (trace o) = Some (SetEnv "EAGERX_RELOAD" "1") /\
  environ (final o) !! "EAGERX_RELOAD" = Some "1".

End Notebook.

(** *** record_video, lines 127-154 *)

(** The keyword arguments given to [VecVideoRecorder]. *)
Record recorder_config : Type := RecorderConfig {
  video_folder : string;
  record_video_trigger : Z -> bool;
  video_length : Z;
  name_prefix : string
}.

Section Recorder.
(** Observations, actions, the second component of [model.predict]'s result,
    and the reward, done and info components of a step. *)
Variables Obs Act Aux Rew Done Info : Type.
(** The state of the objects reachable from [env] and [model]. *)
Variable Env : Type.
(** [DummyVecEnv([lambda: env])] and [VecVideoRecorder(eval_env, ...)]. *)
Variable dummy_vec_env : Env -> Env.
Variable vec_video_recorder : recorder_config -> Env -> Env.
(** [eval_env.reset()], [model.predict(obs, deterministic=d)],
    [eval_env.step(action)], [eval_env.close()]. *)
Variable eval_env_reset : Env -> Obs * Env.
Variable model_predict : Obs -> bool -> Env -> Act * Aux * Env.
Variable eval_env_step : Act -> Env -> Obs * Rew * Done * Info * Env.
Variable eval_env_close : Env -> Env.

(** The calls of [record_video], with what they returned. *)
Inductive rv_event : Type :=
| RvDummyVecEnv
| RvVecVideoRecorder (config : recorder_config)
| RvReset (obs : Obs)
| RvPredict (obs : Obs) (deterministic : bool) (action : Act) (aux : Aux)
| RvStep (action : Act) (obs : Obs) (reward : Rew) (done : Done) (info : Info)
| RvClose.

Abbreviation Rv := (M rv_event Env).

Definition rv_reset : Rv Obs :=
  fun s => match eval_env_reset s with (obs, s') => (inl obs, s', [RvReset obs]) end.

Definition rv_predict (obs : Obs) (deterministic : bool) : Rv (Act * Aux) :=
  fun s =>
    match model_predict obs deterministic s with
    | (action, aux, s') => (inl (action, aux), s', [RvPredict obs deterministic action aux])
    end.

Definition rv_step (action : Act) : Rv (Obs * Rew * Done * Info) :=
  fun s =>
    match eval_env_step action s with
    | (obs, reward, done, info, s') =>
        (inl (obs, reward, done, info), s', [RvStep action obs reward done info])
    end.

(** One iteration of the loop, lines 150-151, on the loop-carried [obs]. *)
Definition record_step (_ : Z) (obs : Obs) : Rv Obs :=
  '(action, _) ← rv_predict obs true;
  '(obs, _, _, _) ← rv_step action;
  mret obs.

Definition record_video (video_length : Z) (prefix : string) (video_folder : string)
  : Rv unit :=
  modify dummy_vec_env ;; emit RvDummyVecEnv ;;
  let config :=
    RecorderConfig video_folder (fun step => bool_decide (step = 0)) video_length prefix in
  modify (vec_video_recorder config) ;; emit (RvVecVideoRecorder config) ;;
  obs ← rv_reset;
  for_in (Py.range video_length) record_step obs ;;
  modify eval_env_close ;; emit RvClose.

(** *** What the recording is to achieve *)

(** [rv_driven obs k tr]: [tr] is [k] iterations, each a [model.predict] on
    the previous observation with [deterministic=True] followed by a step of
    the recorder with the action it returned. *)
Inductive rv_driven : Obs -> nat -> list rv_event -> Prop :=
| rv_driven_done obs : rv_driven obs 0 []
| rv_driven_iter obs action aux obs' reward done info k tr :
  rv_driven obs' k tr ->
  rv_driven obs (S k)
    (RvPredict obs true action aux :: RvStep action obs' reward done info :: tr).

(** An event without the reward, done and info components of a step. *)
Inductive rv_call : Type :=
| CallDummyVecEnv
| CallVecVideoRecorder (config : recorder_config)
| CallReset (obs : Obs)
| CallPredict (obs : Obs) (deterministic : bool) (action : Act) (aux : Aux)
| CallStep (action : Act) (obs : Obs)
| CallClose.

Definition rv_forget (e : rv_event) : rv_call :=
  match e with
  | RvDummyVecEnv => CallDummyVecEnv
  | RvVecVideoRecorder config => CallVecVideoRecorder config
  | RvReset obs => CallReset obs
  | RvPredict obs deterministic action aux => CallPredict obs deterministic action aux
  | RvStep action obs _ _ _ => CallStep action obs
  | RvClose => CallClose
  end.

(** The observation and the state that a step leaves. *)
Definition obs_and_state (r : Obs * Rew * Done * Info * Env) : Obs * Env :=
  (r.1.1.1.1, r.2).

End Recorder.

Arguments RvDummyVecEnv {Obs Act Aux Rew Done Info}.
Arguments RvVecVideoRecorder {Obs Act Aux Rew Done Info} config.
Arguments RvReset {Obs Act Aux Rew Done Info} obs.
Arguments RvPredict {Obs Act Aux Rew Done Info} obs deterministic action aux.
Arguments RvStep {Obs Act Aux Rew Done Info} action obs reward done info.
Arguments RvClose {Obs Act Aux Rew Done Info}.
Arguments rv_driven {Obs Act Aux Rew Done Info} obs k tr.
Arguments rv_forget {Obs Act Aux Rew Done Info} e.
Arguments obs_and_state {Obs Rew Done Info Env} r.

(** *** evaluate, lines 197-242 *)

Section Evaluate.
Variables Obs Act Aux Rew Done Info : Type.
(** Rendered frames, the frame rate passed to the video writer, and the value
    [np.mean] returns. *)
Variables Img Rate Mean : Type.
(** The state of the objects reachable from [env] and [model]. *)
Variable Env : Type.
Variable env_reset : Env -> Obs * Env.
Variable model_predict : Obs -> bool -> Env -> Act * Aux * Env.
Variable env_step : Act -> Env -> Obs * Rew * Done * Info * Env.
Variable env_render : string -> Env -> Img * Env.
(** [img.shape] of an rgb_array frame: height, width, channels. *)
Variable img_shape : Img -> Z * Z * Z.
(** [0] as a reward, [+] on rewards, [np.mean], and [str] in f-strings. *)
Variable rzero : Rew.
Variable radd : Rew -> Rew -> Rew.
Variable np_mean : list Rew -> Mean.
Variable str_rew : Rew -> string.
Variable str_mean : Mean -> string.
(** [cv2.cvtColor(img, cv2.COLOR_RGB2BGR)] and [str(Path(a) / b)]. *)
Variable cvtColor_RGB2BGR : Img -> Img.
Variable path_div : string -> string -> string.
(** Whether [Path(path).read_bytes()] finds the file when it is called in
    the given state; it raises [FileNotFoundError] when it does not. Nothing
    in [evaluate] decides the answer: the file is the output of ffmpeg, whose
    exit status is not looked at. *)
Variable readable : string -> Env -> bool.
(** A sum of rewards divided by a count. *)
Variable rdiv : Rew -> Z -> Mean.

(** The calls of [evaluate] that leave the function, with what they
    returned. *)
Inductive ev_event : Type :=
| Makedirs (path : string) (exist_ok : bool)
| EvPrint (text : string)
| Tqdm (total : Z)
| EnvReset (obs : Obs)
| Predict (obs : Obs) (deterministic : bool) (action : Act) (aux : Aux)
| Step (action : Act) (obs : Obs) (reward : Rew) (done : Done) (info : Info)
| Render (mode : string) (img : Img)
| VideoWriter (filename fourcc : string) (fps : Rate) (size : Z * Z)
| WriterWrite (img : Img)
| WriterRelease
| EvOsSystem (cmd : string)
| ShowVideo (video_file video_folder : string)
| OsRemove (path : string).

Abbreviation Ev := (M ev_event Env).

Definition ev_print (text : string) : Ev unit := emit (EvPrint text).

Definition reset : Ev Obs :=
  fun s => match env_reset s with (obs, s') => (inl obs, s', [EnvReset obs]) end.

Definition predict (obs : Obs) (deterministic : bool) : Ev (Act * Aux) :=
  fun s =>
    match model_predict obs deterministic s with
    | (action, aux, s') => (inl (action, aux), s', [Predict obs deterministic action aux])
    end.

Definition step (action : Act) : Ev (Obs * Rew * Done * Info) :=
  fun s =>
    match env_step action s with
    | (obs, reward, done, info, s') =>
        (inl (obs, reward, done, info), s', [Step action obs reward done info])
    end.

Definition render (mode : string) : Ev Img :=
  fun s => match env_render mode s with (img, s') => (inl img, s', [Render mode img]) end.

(** [0 in img.shape] *)
Definition zero_in_shape (img : Img) : bool :=
  match img_shape img with
  | (height, width, channels) =>
      bool_decide (height = 0) || bool_decide (width = 0) || bool_decide (channels = 0)
  end.

(** One iteration of the inner loop, lines 209-215, on the loop-carried
    variables [obs], [episodic_reward] and [img_array]. *)
Definition episode_step (video_rate : option Rate) (_step : Z)
    (vars : Obs * Rew * list Img) : Ev (Obs * Rew * list Img) :=
  let '(obs, episodic_reward, img_array) := vars in
  '(action, _) ← predict obs true;
  '(obs, reward, done, info) ← step action;
  let episodic_reward := radd episodic_reward reward in
  match video_rate with
  | Some _ =>
      img ← render "rgb_array";
      if negb (zero_in_shape img)
      then mret (obs, episodic_reward, img_array ++ [img])
      else mret (obs, episodic_reward, img_array)
  | None => mret (obs, episodic_reward, img_array)
  end.

(** Lines 205-215: one episode up to the end of the inner loop; yields
    [episodic_reward] and [img_array]. *)
Definition run_episode (episode_length : Z) (video_rate : option Rate)
  : Ev (Rew * list Img) :=
  obs ← reset;
  emit (Tqdm episode_length) ;;
  '(_, episodic_reward, img_array) ←
    for_in (Py.range episode_length) (episode_step video_rate) (obs, rzero, []);
  mret (episodic_reward, img_array).

Definition start_message (i n_eval_episodes : Z) : string :=
  "Start evaluation episode " +:+ Py.str_int i +:+ " of " +:+ Py.str_int n_eval_episodes.

Definition showing_message (i : Z) (episodic_reward : Rew) : string :=
  "Showing episode " +:+ Py.str_int i +:+ " with episodic reward: " +:+
  str_rew episodic_reward.

Definition temp_mp4 (video_folder : string) : string := video_folder +:+ "/temp.mp4".

Definition ffmpeg_command (video_folder path video_prefix : string) (i : Z) : string :=
  "ffmpeg -y -i " +:+ video_folder +:+ "/temp.mp4 -vcodec libx264 -f mp4 " +:+ path +:+
  ".mp4 >> /tmp/ffmpeg_" +:+ video_prefix +:+ "_" +:+ Py.str_int i +:+ ".txt 2>&1".

(** helper.py, lines 157-177. [show_video] reads the file
    [Path(video_folder) / f"{video_file}.mp4"], which raises
    [FileNotFoundError] when the file is not there, and displays it in a
    video tag; the display is one event. *)
Definition show_video (video_file video_folder : string) : Ev unit :=
  let mp4 := path_div video_folder (video_file +:+ ".mp4") in
  s ← get;
  if readable mp4 s then emit (ShowVideo video_file video_folder)
  else raise (Py.FileNotFoundError mp4).

(** Lines 218-238: the body of [if video_rate is not None]. The exit status
    of ffmpeg is not looked at, and no [try] guards [show_video]: when it
    raises, [os.remove] is not reached. The calls on cv2, [os.system] and
    [os.remove] are events: they are taken to return. *)
Definition write_video (video_folder : string) (video_rate : Rate)
    (video_prefix : string) (i : Z) (episodic_reward : Rew) (img_array : list Img)
  : Ev unit :=
  let video_file := video_prefix +:+ "_" +:+ Py.str_int i in
  let path := path_div video_folder video_file in
  ev_print "Start video writer" ;;
  frame ← lift (Py.last_item img_array);
  let '(height, width, _) := img_shape frame in
  let size := (width, height) in
  let fourcc := "mp4v" in
  emit (VideoWriter (temp_mp4 video_folder) fourcc video_rate size) ;;
  for_in img_array (fun img _ => emit (WriterWrite (cvtColor_RGB2BGR img))) tt ;;
  emit WriterRelease ;;
  emit (EvOsSystem (ffmpeg_command video_folder path video_prefix i)) ;;
  ev_print (showing_message i episodic_reward) ;;
  show_video video_file video_folder ;;
  emit (OsRemove (temp_mp4 video_folder)).

(** Lines 203-240: the body of the loop over episodes, on the loop-carried
    list [episodic_rewards]. *)
Definition episode (n_eval_episodes episode_length : Z) (video_rate : option Rate)
    (video_prefix video_folder : string) (i : Z) (episodic_rewards : list Rew)
  : Ev (list Rew) :=
  ev_print (start_message i n_eval_episodes) ;;
  '(episodic_reward, img_array) ← run_episode episode_length video_rate;
  match video_rate with
  | Some rate => write_video video_folder rate video_prefix i episodic_reward img_array
  | None => mret tt
  end ;;
  mret (episodic_rewards ++ [episodic_reward]).

(** Lines 202-240: the loop over episodes; yields [episodic_rewards]. *)
Definition evaluate_episodes (n_eval_episodes episode_length : Z)
    (video_rate : option Rate) (video_prefix video_folder : string) : Ev (list Rew) :=
  for_in (Py.range n_eval_episodes)
    (episode n_eval_episodes episode_length video_rate video_prefix video_folder) [].

Definition finished_message (episodic_rewards : list Rew) : string :=
  "Finished evaluation with mean episodic reward: " +:+ str_mean (np_mean episodic_rewards).

Definition evaluate (n_eval_episodes episode_length : Z) (video_rate : option Rate)
    (video_prefix : string) : Ev unit :=
  let video_folder := "videos/" in
  emit (Makedirs video_folder true) ;;
  episodic_rewards ←
    evaluate_episodes n_eval_episodes episode_length video_rate video_prefix video_folder;
  ev_print (finished_message episodic_rewards).

(** *** What the evaluation is to achieve *)

(** Calls on the environment and the model that drive the episode. *)
Definition interaction (e : ev_event) : bool :=
  match e with
  | EnvReset _ | Predict _ _ _ _ | Step _ _ _ _ _ => true
  | _ => false
  end.

(** Console output. *)
Definition printing (e : ev_event) : bool :=
  match e with
  | EvPrint _ | Tqdm _ => true
  | _ => false
  end.

(** Rendering, and every call that creates, reads or removes a video file. *)
Definition video (e : ev_event) : bool :=
  match e with
  | Render _ _ | VideoWriter _ _ _ _ | WriterWrite _ | WriterRelease
  | EvOsSystem _ | ShowVideo _ _ | OsRemove _ => true
  | _ => false
  end.

(** The calls that create, write, convert, show or remove a video file. *)
Definition file_event (e : ev_event) : bool :=
  match e with
  | VideoWriter _ _ _ _ | WriterWrite _ | WriterRelease
  | EvOsSystem _ | ShowVideo _ _ | OsRemove _ => true
  | _ => false
  end.

(** The events of the inner loop: driving calls and renders. *)
Definition loop_event (e : ev_event) : Prop :=
  interaction e = true \/ exists img, e = Render "rgb_array" img.

(** [driven obs k tr]: [tr] is [k] iterations, each a [model.predict] on the
    current observation with [deterministic=True] followed by an [env.step]
    with the action it returned; the observation of the step is the current
    one of the next iteration. *)
Inductive driven : Obs -> nat -> list ev_event -> Prop :=
| driven_done obs : driven obs 0 []
| driven_iter obs action aux obs' reward done info k tr :
  driven obs' k tr ->
  driven obs (S k)
    (Predict obs true action aux :: Step action obs' reward done info :: tr).

(** The rewards that [env.step] returned, in order. *)
Definition step_rewards (tr : list ev_event) : list Rew :=
  omap (fun e => match e with Step _ _ reward _ _ => Some reward | _ => None end) tr.

(** The sum as the code accumulates it: from [0], adding on the right. *)
Definition total (rewards : list Rew) : Rew := fold_left radd rewards rzero.

(** An episode: its calls on the environment and the model, and the
    episodic reward reported for it. It resets once, is then driven for
    [episode_length] iterations, and reports the sum of the step rewards. *)
Definition episode_ok (episode_length : Z) (ep : list ev_event * Rew) : Prop :=
  exists obs steps,
    ep.1 = EnvReset obs :: steps /\
    driven obs (Z.to_nat episode_length) steps /\
    ep.2 = total (step_rewards steps).

(** The arithmetic mean: the sum divided by the count. *)
Definition arithmetic_mean (rewards : list Rew) : Mean :=
  rdiv (total rewards) (Z.of_nat (length rewards)).

(** [evaluate] runs [n_eval_episodes] straight-line episodes and reports the
    sum of the step rewards of each and, last, the arithmetic mean of the
    sums. *)
Definition straightline (n_eval_episodes episode_length : Z)
    (video_rate : option Rate) (video_prefix : string) (s : Env) : Prop :=
  let o := evaluate n_eval_episodes episode_length video_rate video_prefix s in
  result o = inl tt /\
  exists eps : list (list ev_event * Rew),
    length eps = Z.to_nat n_eval_episodes /\
    Forall (episode_ok episode_length) eps /\
    List.filter interaction (trace o) = concat (map fst eps) /\
    last (trace o) =
      Some (EvPrint ("Finished evaluation with mean episodic reward: " +:+
                     str_mean (arithmetic_mean (map snd eps)))) /\
    (forall i ep,
       video_rate <> None -> eps !! i = Some ep ->
       EvPrint (showing_message (Z.of_nat i) ep.2) ∈ trace o).

(** The [img_array] that each of the first [k] episodes ends its loop with. *)
Fixpoint buffered (k : nat) (episode_length : Z) (video_rate : option Rate) (s : Env)
  : list (list Img) :=
  match k with
  | O => []
  | S k' =>
      match run_episode episode_length video_rate s with
      | (inl (_, img_array), s', _) =>
          img_array :: buffered k' episode_length video_rate s'
      | (inr _, _, _) => []
      end
  end.

(** Every episode buffers at least one frame. *)
Definition every_episode_buffers (n_eval_episodes episode_length : Z)
    (video_rate : option Rate) (s : Env) : Prop :=
  Forall (fun img_array => img_array <> [])
    (buffered (Z.to_nat n_eval_episodes) episode_length video_rate s).

(** Whether [show_video] finds the file of each of the [k] episodes from
    episode [i] on; the file of an episode is looked for in the state that
    the loop of the episode leaves. *)
Fixpoint found (k : nat) (i : Z) (episode_length : Z) (video_rate : option Rate)
    (video_prefix : string) (s : Env) : list bool :=
  match k with
  | O => []
  | S k' =>
      match run_episode episode_length video_rate s with
      | (inl _, s', _) =>
          readable
            (path_div "videos/" ((video_prefix +:+ "_" +:+ Py.str_int i) +:+ ".mp4")) s'
          :: found k' (i + 1) episode_length video_rate video_prefix s'
      | (inr _, _, _) => []
      end
  end.

(** [show_video] finds the file of every episode. *)
Definition every_video_found (n_eval_episodes episode_length : Z)
    (video_rate : option Rate) (video_prefix : string) (s : Env) : Prop :=
  Forall (fun there => there = true)
    (found (Z.to_nat n_eval_episodes) 0 episode_length video_rate video_prefix s).

End Evaluate.

Arguments Makedirs {Obs Act Aux Rew Done Info Img Rate} path exist_ok.
Arguments EvPrint {Obs Act Aux Rew Done Info Img Rate} text.
Arguments Tqdm {Obs Act Aux Rew Done Info Img Rate} total.
Arguments EnvReset {Obs Act Aux Rew Done Info Img Rate} obs.
Arguments Predict {Obs Act Aux Rew Done Info Img Rate} obs deterministic action aux.
Arguments Step {Obs Act Aux Rew Done Info Img Rate} action obs reward done info.
Arguments Render {Obs Act Aux Rew Done Info Img Rate} mode img.
Arguments VideoWriter {Obs Act Aux Rew Done Info Img Rate} filename fourcc fps size.
Arguments WriterWrite {Obs Act Aux Rew Done Info Img Rate} img.
Arguments WriterRelease {Obs Act Aux Rew Done Info Img Rate}.
Arguments EvOsSystem {Obs Act Aux Rew Done Info Img Rate} cmd.
Arguments ShowVideo {Obs Act Aux Rew Done Info Img Rate} video_file video_folder.
Arguments OsRemove {Obs Act Aux Rew Done Info Img Rate} path.
Arguments interaction {Obs Act Aux Rew Done Info Img Rate} e.
Arguments printing {Obs Act Aux Rew Done Info Img Rate} e.
Arguments video {Obs Act Aux Rew Done Info Img Rate} e.
Arguments file_event {Obs Act Aux Rew Done Info Img Rate} e.
Arguments loop_event {Obs Act Aux Rew Done Info Img Rate} e.
Arguments driven {Obs Act Aux Rew Done Info Img Rate} obs k tr.
Arguments driven_done {Obs Act Aux Rew Done Info Img Rate} obs.
Arguments driven_iter {Obs Act Aux Rew Done Info Img Rate}
  obs action aux obs' reward done info k tr.
Arguments step_rewards {Obs Act Aux Rew Done Info Img Rate} tr.
Arguments total {Rew} rzero radd rewards.
Arguments episode_ok {Obs Act Aux Rew Done Info Img Rate} rzero radd episode_length ep.
Arguments showing_message {Rew} str_rew i episodic_reward.

End Helper.

(** ** helper.py: the functions around the bootstrap and the evaluation *)

(** ** Python strings *)

Module Str.

(** The double quote. *)
Definition quote : string := String (ascii_of_nat 34) EmptyString.

(** [s.lower()], on the letters of ASCII, which are the ones that a
    comparison with an ASCII suffix can see. *)
Definition lower_ascii (c : ascii) : ascii :=
  let n := nat_of_ascii c in
  if ((65 <=? n) && (n <=? 90))%nat then ascii_of_nat (n + 32) else c.

Fixpoint lower (s : string) : string :=
  match s with
  | EmptyString => EmptyString
  | String c rest => String (lower_ascii c) (lower rest)
  end.

(** [s.endswith(suffix)] *)
Definition endswith (s suffix : string) : bool :=
  let n := String.length s in
  let k := String.length suffix in
  (k <=? n)%nat && String.eqb (substring (n - k) k s) suffix.

End Str.

(** *** deprecated_setup_notebook, lines 85-124 *)

Module Deprecated.
Import Helper Str.

(** The exceptions of these lines. [UnboundLocalError] is a [NameError];
    [ResourceNotFound] is what [rospkg] raises for a stack it cannot find. *)
Inductive exn : Type :=
| ModuleNotFoundError (msg : string)
| NameError (name : string)
| ResourceNotFound (name : string).

(** The calls that leave the process: those of the bootstrap, and
    [site.addsitedir], [RosStack.get_path], [datetime.today().strftime],
    [Popen.terminate] and [subprocess.Popen]. *)
Inductive ros_event (Proc : Type) : Type :=
| Sh (e : sh_event)
| AddSiteDir (sitedir : string)
| GetPath (name : string) (path : option string)
| Strftime (format time : string)
| Terminate (process : Proc)
| Popen (args : list string) (process : Proc).
Arguments Sh {Proc}.
Arguments AddSiteDir {Proc}.
Arguments GetPath {Proc}.
Arguments Strftime {Proc}.
Arguments Terminate {Proc}.
Arguments Popen {Proc}.

(** Computations over the state [St] that raise an [exn]. *)
Definition R (Ev St A : Type) : Type := St -> (A + exn) * St * list Ev.

Section Ops.
Context {Ev St : Type}.

Definition ret {A} (a : A) : R Ev St A := fun s => (inl a, s, []).

Definition bind {A B} (m : R Ev St A) (k : A -> R Ev St B) : R Ev St B :=
  fun s =>
    match m s with
    | (inl a, s1, t1) =>
        match k a s1 with
        | (r, s2, t2) => (r, s2, t1 ++ t2)
        end
    | (inr e, s1, t1) => (inr e, s1, t1)
    end.

Definition raise {A} (e : exn) : R Ev St A := fun s => (inr e, s, []).

(** [try: m except ...: h e], where [h] raises again what it does not
    handle. *)
Definition try_except {A} (m : R Ev St A) (h : exn -> R Ev St A) : R Ev St A :=
  fun s =>
    match m s with
    | (inl a, s1, t1) => (inl a, s1, t1)
    | (inr e, s1, t1) =>
        match h e s1 with
        | (r, s2, t2) => (r, s2, t1 ++ t2)
        end
    end.

Definition emit (e : Ev) : R Ev St unit := fun s => (inl tt, s, [e]).
Definition get : R Ev St St := fun s => (inl s, s, []).
Definition modify (f : St -> St) : R Ev St unit := fun s => (inl tt, f s, []).

(** The value of a local variable, which is unbound before its first
    assignment. *)
Definition local_variable {A} (name : string) (value : option A) : R Ev St A :=
  match value with
  | Some v => ret v
  | None => raise (NameError name)
  end.

Definition outcome {A} (o : (A + exn) * St * list Ev) : A + exn := o.1.1.
Definition after {A} (o : (A + exn) * St * list Ev) : St := o.1.2.
Definition events {A} (o : (A + exn) * St * list Ev) : list Ev := o.2.
End Ops.

#[global] Instance R_ret {Ev St} : MRet (R Ev St) := @ret Ev St.
#[global] Instance R_bind {Ev St} : MBind (R Ev St) :=
  fun A B k m => bind m k.

Definition no_ros_message : string :=
  "No ROS version (noetic, melodic) available. Check if installed & sourced.".

Section Roscore.
(** The machine the notebook runs on, and the handle of a process. *)
Variables Sys Proc : Type.
(** [str(get_ipython())]. *)
Variable get_ipython : Sys -> string.
(** Whether [import module] succeeds (otherwise it raises
    ModuleNotFoundError). *)
Variable importable : string -> Sys -> bool.
(** [site.addsitedir(sitedir)]. *)
Variable addsitedir : string -> Sys -> Sys.
(** [rospkg.RosStack().get_path(name)]; [None] when it raises
    ResourceNotFound. *)
Variable get_path : string -> Sys -> option string.
(** [datetime.today().strftime(format)]. *)
Variable strftime : string -> Sys -> string.
(** [process.terminate()] and [subprocess.Popen(args)]. *)
Variable terminate : Proc -> Sys -> Sys.
Variable popen : list string -> Sys -> Proc * Sys.

Abbreviation W := (world Sys).
Abbreviation Ros := (R (ros_event Proc) W).

Definition on_sys (f : Sys -> Sys) : Ros unit :=
  modify (fun w => World (environ w) (f (sys w))).

Definition print (text : string) : Ros unit := emit (Sh (PrintTo Stdout text)).

(** [os.environ[key] = value] *)
Definition setenv (key value : string) : Ros unit :=
  modify (fun w => World (<[key := value]> (environ w)) (sys w)) ;;
  emit (Sh (SetEnv key value)).

Definition site_addsitedir (sitedir : string) : Ros unit :=
  on_sys (addsitedir sitedir) ;; emit (AddSiteDir sitedir).

(** [import module] *)
Definition import_module (module : string) : Ros unit :=
  w ← get;
  let ok := importable module (sys w) in
  emit (Sh (TryImport module ok)) ;;
  if ok then mret tt
  else raise (ModuleNotFoundError ("No module named '" +:+ module +:+ "'")).

(** [pkg.get_path(name)] *)
Definition pkg_get_path (name : string) : Ros string :=
  w ← get;
  let path := get_path name (sys w) in
  emit (GetPath name path) ;;
  match path with
  | Some p => mret p
  | None => raise (ResourceNotFound name)
  end.

(** Lines 101-110: the body of the [try]. *)
Definition find_ros : Ros unit :=
  import_module "rospy" ;; import_module "roslaunch" ;; import_module "rosparam" ;;
  import_module "rospkg" ;;
  path ← pkg_get_path "ros";
  ros_version ←
    (if Py.contains "noetic" path then mret "noetic"
     else
       path ← pkg_get_path "ros";
       if Py.contains "melodic" path then mret "melodic"
       else raise (ModuleNotFoundError no_ros_message));
  print ("ROS " +:+ ros_version +:+ " available.").

(** Lines 115-124: the body of the second [if], with the local variable
    [roscore] as it is on entry. *)
Definition start_roscore (roscore : option Proc) : Ros (option Proc) :=
  w ← get;
  let timestamp := strftime "%H:%M:%S" (sys w) in
  emit (Strftime "%H:%M:%S" timestamp) ;;
  try_except
    (process ← local_variable "roscore" roscore;
     on_sys (terminate process) ;;
     emit (Terminate process) ;;
     print ("Roscore restarted: " +:+ timestamp +:+ "."))
    (fun e =>
       match e with
       | NameError _ => print ("Roscore started: " +:+ timestamp +:+ ".")
       | _ => raise e
       end) ;;
  w ← get;
  let '(process, s) := popen ["bash"; "/root/roscore"] (sys w) in
  modify (fun w => World (environ w) s) ;;
  emit (Popen ["bash"; "/root/roscore"] process) ;;
  mret (Some process).

(** helper.py, lines 85-124. [roscore] is a local variable of the function,
    assigned on line 124 only. *)
Definition deprecated_setup_notebook : Ros unit :=
  let roscore : option Proc := None in
  w ← get;
  (if Py.contains "google.colab" (get_ipython (sys w)) then
     print "Running on CoLab." ;;
     setenv "EAGERX_COLAB" "1" ;;
     site_addsitedir "/opt/ros/melodic/lib/python2.7/dist-packages" ;;
     site_addsitedir "/usr/lib/python2.7/dist-packages" ;;
     setenv "ROS_PACKAGE_PATH" "/opt/ros/melodic/share/"
   else
     print "Not running on CoLab." ;;
     print ("Execute ROS commands as " +:+ quote +:+ "!..." +:+ quote +:+ ".")) ;;
  setenv "EAGERX_RELOAD" "1" ;;
  try_except find_ros
    (fun e =>
       match e with
       | ModuleNotFoundError _ => mret tt
       | _ => raise e
       end) ;;
  w ← get;
  if Py.contains "google.colab" (get_ipython (sys w)) then
    roscore ← start_roscore roscore;
    mret tt
  else mret tt.

(** *** What these lines do, seen from outside *)

(** The state in which the notebook is asked a second time where it runs. *)
Definition sys_at_second_check (w : world Sys) : Sys :=
  if Py.contains "google.colab" (get_ipython (sys w))
  then addsitedir "/usr/lib/python2.7/dist-packages"
         (addsitedir "/opt/ros/melodic/lib/python2.7/dist-packages" (sys w))
  else sys w.

(** The four imports of line 102 succeed. *)
Definition ros_importable (s : Sys) : bool :=
  importable "rospy" s && importable "roslaunch" s &&
  importable "rosparam" s && importable "rospkg" s.

(** The version that line 110 prints, if any. *)
Definition ros_version (s : Sys) : option string :=
  if ros_importable s then
    match get_path "ros" s with
    | Some path =>
        if Py.contains "noetic" path then Some "noetic"
        else if Py.contains "melodic" path then Some "melodic"
        else None
    | None => None
    end
  else None.

(** What was printed to the standard output, in order. *)
Definition printed (tr : list (ros_event Proc)) : list string :=
  omap (fun e => match e with Sh (PrintTo Stdout text) => Some text | _ => None end) tr.

(** The calls on processes, in order. *)
Definition on_process (e : ros_event Proc) : bool :=
  match e with
  | Terminate _ | Popen _ _ => true
  | _ => false
  end.

End Roscore.

Arguments printed {Proc} tr.
Arguments on_process {Proc} e.

End Deprecated.

(** *** show_svg, lines 180-194 *)

Module Display.
Import Str.

(** [ipythondisplay.HTML(data)] *)
Inductive html : Type := HTML (data : string).

(** The f-string of line 193. *)
Definition img_tag (width b64 : string) : string :=
  "<img width=" +:+ quote +:+ width +:+ quote +:+ " src=" +:+ quote +:+
  "data:image/svg+xml;base64," +:+ b64 +:+ quote +:+ " >".

(** Line 190: the name with the extension .svg, unless it has it already, in
    any case of letters. *)
Definition svg_name (svg_file : string) : string :=
  if endswith (lower svg_file) ".svg" then svg_file else svg_file +:+ ".svg".

(** What [show_svg] reads. *)
Inductive show_event : Type :=
| SvgData (file data : string).

Section Media.
(** Byte strings, and the state of the file system and the notebook. *)
Variables Bytes St : Type.
(** [ipythondisplay.SVG(file).data]. *)
Variable svg_data : string -> St -> string * St.
(** [base64.b64encode], [str.encode] and [bytes.decode]. *)
Variable b64encode : Bytes -> Bytes.
Variable encode : string -> Bytes.
Variable decode : string -> Bytes -> string.

Abbreviation Sv := (M show_event St).

(** helper.py, lines 180-194. *)
Definition show_svg (svg_file width : string) : Sv html :=
  let svg_file := svg_name svg_file in
  data ← (fun s => match svg_data svg_file s with
                   | (data, s') => (inl data, s', [SvgData svg_file data])
                   end);
  let svg := encode data in
  let b64 := decode "utf=8" (b64encode svg) in
  let text := img_tag width b64 in
  mret (HTML text).

End Media.

End Display.


(** ** Observations on traces *)

Module Observe.
Import Helper.

(** The commands run through [subprocess.check_output], with their exit
    status, in order. *)
Definition commands (tr : list sh_event) : list (list string * Z) :=
  omap (fun e => match e with
                 | CheckOutput args _ rc _ => Some (args, rc)
                 | _ => None
                 end) tr.

(** The commands of the two branches of [setup_notebook], in source order. *)
Definition colab_script : list (list string) :=
  [[cmd_display]; [cmd_gui_deps]; [cmd_gui_colab]; [cmd_opencv]].
Definition local_script : list (list string) := [[cmd_gui_local]].

End Observe.


(** ** Observations on the traces of [evaluate] *)

Module Frames.
Import Helper.

(** A run of ffmpeg that encodes [input] to [output] with libx264 and
    appends what it prints to [log]. *)
Definition encode_command (input output log : string) : string :=
  "ffmpeg -y -i " +:+ input +:+ " -vcodec libx264 -f mp4 " +:+ output +:+
  " >> " +:+ log +:+ " 2>&1".

Section Frames.
Variables Obs Act Aux Rew Done Info Img Rate : Type.

Abbreviation event := (ev_event Obs Act Aux Rew Done Info Img Rate).

(** The events of lines 219-235 of an episode: the writer is opened with the
    size of [frame], the frames are written, ffmpeg is run and the episode
    is announced. *)
Definition encoding (img_shape : Img -> Z * Z * Z) (str_rew : Rew -> string)
    (cvtColor_RGB2BGR : Img -> Img) (path_div : string -> string -> string)
    (video_folder : string) (video_rate : Rate) (video_prefix : string) (i : Z)
    (episodic_reward : Rew) (frame : Img) (img_array : list Img) : list event :=
  [EvPrint "Start video writer";
   VideoWriter (temp_mp4 video_folder) "mp4v" video_rate
     ((img_shape frame).1.2, (img_shape frame).1.1)] ++
  map (fun img => WriterWrite (cvtColor_RGB2BGR img)) img_array ++
  [WriterRelease;
   EvOsSystem
     (ffmpeg_command video_folder
        (path_div video_folder (video_prefix +:+ "_" +:+ Py.str_int i)) video_prefix i);
   EvPrint (showing_message str_rew i episodic_reward)].

(** The frames that [env.render] returned, in order. *)
Definition rendered (tr : list event) : list Img :=
  omap (fun e => match e with Render _ img => Some img | _ => None end) tr.

(** The frames handed to [out.write], in order. *)
Definition written (tr : list event) : list Img :=
  omap (fun e => match e with WriterWrite img => Some img | _ => None end) tr.

(** The calls of [show_video]: file and folder. *)
Definition shown (tr : list event) : list (string * string) :=
  omap (fun e => match e with ShowVideo f d => Some (f, d) | _ => None end) tr.

(** The files opened by [cv2.VideoWriter] and those removed by [os.remove]. *)
Definition opened (tr : list event) : list string :=
  omap (fun e => match e with VideoWriter f _ _ _ => Some f | _ => None end) tr.
Definition removed (tr : list event) : list string :=
  omap (fun e => match e with OsRemove f => Some f | _ => None end) tr.

(** Steps and renders, among the events. *)
Definition step_or_render (e : event) : bool :=
  match e with
  | Step _ _ _ _ _ | Render _ _ => true
  | _ => false
  end.

(** Each step is followed by one render of mode "rgb_array". *)
Inductive rendered_after_each_step : list event -> Prop :=
| rendered_nil : rendered_after_each_step []
| rendered_cons action obs reward done info img tr :
    rendered_after_each_step tr ->
    rendered_after_each_step
      (Step action obs reward done info :: Render "rgb_array" img :: tr).

(** A property of traces that holds of the empty trace and of a
    concatenation when it holds of the parts. *)
Definition compositional (P : list event -> Prop) : Prop :=
  P [] /\ forall t1 t2, P t1 -> P t2 -> P (t1 ++ t2).

End Frames.

Arguments rendered {Obs Act Aux Rew Done Info Img Rate} tr.
Arguments written {Obs Act Aux Rew Done Info Img Rate} tr.
Arguments shown {Obs Act Aux Rew Done Info Img Rate} tr.
Arguments opened {Obs Act Aux Rew Done Info Img Rate} tr.
Arguments removed {Obs Act Aux Rew Done Info Img Rate} tr.
Arguments step_or_render {Obs Act Aux Rew Done Info Img Rate} e.
Arguments rendered_after_each_step {Obs Act Aux Rew Done Info Img Rate} tr.
Arguments compositional {Obs Act Aux Rew Done Info Img Rate} P.
Arguments encoding {Obs Act Aux Rew Done Info Img Rate} img_shape str_rew
  cvtColor_RGB2BGR path_div video_folder video_rate video_prefix i episodic_reward
  frame img_array.

End Frames.

(** ** pendulum/objects.py *)

Module Pendulum.

(** ROS message types used in the registration. *)
Inductive msg_type : Type := Float32MultiArray | Image.

(** Numbers as the source writes them: an [int], a decimal [float] literal
    [digits / 10^scale], [math.pi], and unary minus. *)
Inductive number : Type :=
| Int (z : Z)
| Dec (digits : Z) (scale : nat)
| Pi
| Neg (x : number).

(** A bound of a space: one number for every component, or one per component. *)
Inductive bound : Type :=
| Scalar (x : number)
| Vector (xs : list number).

(** The arguments of a [SpaceConverter.make] call. *)
Record SpaceConverter : Type := SpaceConverter_make {
  converter_id : string;
  low : bound;
  high : bound;
  shape : option (list Z);
  dtype : string
}.

(** What the decorators of [agnostic] register, lines 20-23: keyword
    arguments, as dictionaries. *)
Definition registered_sensors : gmap string msg_type :=
  <["angle_sensor" := Float32MultiArray]> (<["image" := Image]> ∅).
Definition registered_actuators : gmap string msg_type :=
  <["voltage" := Float32MultiArray]> ∅.
Definition registered_engine_states : gmap string msg_type :=
  <["model_state" := Float32MultiArray]> ∅.
Definition registered_config : gmap string (list Z) :=
  <["render_shape" := [480; 480]]> ∅.

(** The attributes of a registered sensor, actuator or state that the code
    assigns; [None] is an attribute not assigned yet. *)
Record component : Type := Component {
  rate : option number;
  window : option Z;
  space_converter : option SpaceConverter
}.

(** [spec.sensors], [spec.actuators], [spec.states]: one attribute for each
    registered name. *)
Record sensors_view : Type := Sensors { angle_sensor : component; image : component }.
Record actuators_view : Type := Actuators { voltage : component }.
Record states_view : Type := States { model_state : component }.

(** [spec.config] *)
Record config_view : Type := Config {
  config_name : option string;
  config_sensors : option (list string);
  config_actuators : option (list string);
  config_states : option (list string);
  render_shape : list Z
}.

(** [spec.OdeBridge] *)
Record bridge_view : Type := Bridge {
  ode : option string;
  ode_params : option (list number);
  bridge_model_state : option string
}.

Record ObjectSpec : Type := MkObjectSpec {
  config : config_view;
  sensors : sensors_view;
  actuators : actuators_view;
  states : states_view;
  OdeBridge : bridge_view
}.

(** Attribute assignments. *)
Definition set_rate (r : number) (c : component) : component :=
  Component (Some r) (window c) (space_converter c).
Definition set_window (w : Z) (c : component) : component :=
  Component (rate c) (Some w) (space_converter c).
Definition set_space_converter (sc : SpaceConverter) (c : component) : component :=
  Component (rate c) (window c) (Some sc).

Definition on_angle_sensor (f : component -> component) (spec : ObjectSpec) : ObjectSpec :=
  MkObjectSpec (config spec)
    (Sensors (f (angle_sensor (sensors spec))) (image (sensors spec)))
    (actuators spec) (states spec) (OdeBridge spec).
Definition on_image (f : component -> component) (spec : ObjectSpec) : ObjectSpec :=
  MkObjectSpec (config spec)
    (Sensors (angle_sensor (sensors spec)) (f (image (sensors spec))))
    (actuators spec) (states spec) (OdeBridge spec).
Definition on_voltage (f : component -> component) (spec : ObjectSpec) : ObjectSpec :=
  MkObjectSpec (config spec) (sensors spec)
    (Actuators (f (voltage (actuators spec)))) (states spec) (OdeBridge spec).
Definition on_model_state (f : component -> component) (spec : ObjectSpec) : ObjectSpec :=
  MkObjectSpec (config spec) (sensors spec) (actuators spec)
    (States (f (model_state (states spec)))) (OdeBridge spec).
Definition on_config (f : config_view -> config_view) (spec : ObjectSpec) : ObjectSpec :=
  MkObjectSpec (f (config spec)) (sensors spec) (actuators spec) (states spec)
    (OdeBridge spec).
Definition on_bridge (f : bridge_view -> bridge_view) (spec : ObjectSpec) : ObjectSpec :=
  MkObjectSpec (config spec) (sensors spec) (actuators spec) (states spec)
    (f (OdeBridge spec)).

(** Lines 24-64. The spec object is mutated in place; the function returns
    it as it is left. *)
Definition agnostic (spec : ObjectSpec) (rate : number) : ObjectSpec :=
  let spec := on_angle_sensor (set_rate rate) spec in
  let spec :=
    on_angle_sensor
      (set_space_converter
         (SpaceConverter_make "Space_Float32MultiArray"
            (Vector [Int (-9999); Int (-9999)]) (Vector [Int 9999; Int 9999])
            None "float32")) spec in
  let spec := on_image (set_rate (Int 15)) spec in
  let spec :=
    on_image
      (set_space_converter
         (SpaceConverter_make "Space_Image" (Scalar (Int 0)) (Scalar (Int 255))
            (Some (render_shape (config spec))) "uint8")) spec in
  let spec := on_voltage (set_rate rate) spec in
  let spec := on_voltage (set_window 1) spec in
  let spec :=
    on_voltage
      (set_space_converter
         (SpaceConverter_make "Space_Float32MultiArray"
            (Vector [Int (-3)]) (Vector [Int 3]) None "float32")) spec in
  on_model_state
    (set_space_converter
       (SpaceConverter_make "Space_Float32MultiArray"
          (Vector [Neg Pi; Int (-9)]) (Vector [Pi; Int 9]) None "float32")) spec.

(** [Pendulum.initialize_spec(spec)] (EAGERx): gives the configuration its
    registered defaults. *)
Definition initialize_spec (spec : ObjectSpec) : ObjectSpec :=
  on_config
    (fun c =>
       Config (config_name c) (config_sensors c) (config_actuators c) (config_states c)
         (default (render_shape c) (registered_config !! "render_shape")))
    spec.

(** The default of the [rate] parameter of [spec]: [30.] *)
Definition default_rate : number := Dec 30 0.

(** Lines 68-92. An omitted keyword argument is [None]. *)
Definition spec (spec : ObjectSpec) (name : string)
    (actuators sensors states : option (list string))
    (rate : option number) (render_shape : option (list Z)) : ObjectSpec :=
  let rate := default default_rate rate in
  let spec := initialize_spec spec in
  let spec :=
    on_config (fun c =>
      Config (Some name) (config_sensors c) (config_actuators c) (config_states c)
        (Pendulum.render_shape c)) spec in
  let spec :=
    on_config (fun c =>
      Config (config_name c) (Some (Py.if_else sensors ["angle_sensor"]))
        (config_actuators c) (config_states c) (Pendulum.render_shape c)) spec in
  let spec :=
    on_config (fun c =>
      Config (config_name c) (config_sensors c)
        (Some (Py.if_else actuators ["voltage"])) (config_states c)
        (Pendulum.render_shape c)) spec in
  let spec :=
    on_config (fun c =>
      Config (config_name c) (config_sensors c) (config_actuators c)
        (Some (Py.if_else states ["model_state"])) (Pendulum.render_shape c)) spec in
  let spec :=
    on_config (fun c =>
      Config (config_name c) (config_sensors c) (config_actuators c) (config_states c)
        (Py.if_else render_shape [480; 480])) spec in
  agnostic spec rate.

(** *** The ODE bridge, lines 96-130 *)

Inductive kwarg : Type :=
| RenderFn (fn : string)
| DefaultAction (action : list Z).

(** The arguments of an [EngineNode.make] call. *)
Record engine_node : Type := EngineNode {
  node_id : string;
  node_name : string;
  node_rate : option number;
  process : Z;
  kwargs : list kwarg
}.

Inductive direction : Type := Inputs | Outputs.

(** [node.inputs.<port>] and [node.outputs.<port>]. *)
Record port : Type := Port {
  port_node : string;
  port_side : direction;
  port_name : string
}.

Definition outputs (n : engine_node) (p : string) : port := Port (node_name n) Outputs p.
Definition inputs (n : engine_node) (p : string) : port := Port (node_name n) Inputs p.

(** The keyword arguments of a [graph.connect] call. *)
Record connection : Type := Connect {
  source : option port;
  target : option port;
  sensor : option string;
  actuator : option string;
  skip : option bool
}.

(** The calls made on the [EngineGraph]. *)
Inductive graph_event : Type :=
| GraphAdd (nodes : list engine_node)
| GraphConnect (c : connection).

Abbreviation Br := (M graph_event ObjectSpec).

Definition ode_file : string := "eagerx_tutorials.pendulum.pendulum_ode/pendulum_ode".
Definition render_file : string :=
  "eagerx_tutorials.pendulum.pendulum_render/pendulum_render_fn".

(** [J, m, l, b, K, R], line 104. *)
Definition pendulum_ode_params : list number :=
  [Dec 189238 9; Dec 563641 7; Dec 437891 7; Dec 142205 9; Dec 502769 7; Dec 983536 5].

(** The spec is the state; the calls on the graph are the events. *)
Definition ode_bridge : Br unit :=
  modify (on_bridge (fun b => Bridge (Some ode_file) (ode_params b) (bridge_model_state b))) ;;
  modify (on_bridge (fun b => Bridge (ode b) (Some pendulum_ode_params) (bridge_model_state b))) ;;
  modify (on_bridge (fun b => Bridge (ode b) (ode_params b) (Some "OdeEngineState"))) ;;
  spec ← get;
  let obs :=
    EngineNode "OdeOutput" "angle_sensor" (rate (angle_sensor (sensors spec))) 2 [] in
  let image :=
    EngineNode "OdeRender" "image" (rate (Pendulum.image (sensors spec))) 2
      [RenderFn render_file] in
  let action :=
    EngineNode "OdeInput" "pendulum_actuator" (rate (voltage (actuators spec))) 2
      [DefaultAction [0]] in
  emit (GraphAdd [obs; image; action]) ;;
  emit (GraphConnect
          (Connect (Some (outputs obs "observation")) None (Some "angle_sensor") None None)) ;;
  emit (GraphConnect
          (Connect (Some (outputs obs "observation")) (Some (inputs image "observation"))
             None None None)) ;;
  emit (GraphConnect
          (Connect (Some (outputs action "action_applied"))
             (Some (inputs image "action_applied")) None None (Some true))) ;;
  emit (GraphConnect
          (Connect (Some (outputs image "image")) None (Some "image") None None)) ;;
  emit (GraphConnect
          (Connect None (Some (inputs action "action")) None (Some "voltage") None)).

(** The five [graph.connect] calls of [ode_bridge], in order. *)
Definition ode_bridge_connections : list connection :=
  [ Connect (Some (Port "angle_sensor" Outputs "observation")) None
      (Some "angle_sensor") None None;
    Connect (Some (Port "angle_sensor" Outputs "observation"))
      (Some (Port "image" Inputs "observation")) None None None;
    Connect (Some (Port "pendulum_actuator" Outputs "action_applied"))
      (Some (Port "image" Inputs "action_applied")) None None (Some true);
    Connect (Some (Port "image" Outputs "image")) None (Some "image") None None;
    Connect None (Some (Port "pendulum_actuator" Inputs "action")) None
      (Some "voltage") None ].

End Pendulum.

(** ** Concrete machines and environments, to run the definitions on *)

Module Examples.
Import Helper.

(** A machine on which every oracle is trivial but the shell. *)
Definition colab_shell : string := "<google.colab._shell.Shell object at 0x7f3a>".
Definition spawn_ok (args : list string) (stderr : stderr_dest) (s : unit)
  : Z * string * unit := (0, "", s).
Definition spawn_failing (args : list string) (stderr : stderr_dest) (s : unit)
  : Z * string * unit := (100, "E: Unable to locate package xvfb", s).
(** A shell whose commands exit with status 0 after printing the one byte
    0xFF, and the decoder of ASCII. *)
Definition spawn_bytes (args : list string) (stderr : stderr_dest) (s : unit)
  : Z * list Z * unit := (0, [255], s).
Definition spawn_text_bytes (args : list string) (stderr : stderr_dest) (s : unit)
  : Z * list Z * unit := (100, [69; 58; 32; 120], s).
Definition decode_ascii (raw : list Z) : option string :=
  if forallb (fun b => (0 <=? b) && (b <? 128)) raw
  then Some (string_of_list_ascii (map (fun b => ascii_of_nat (Z.to_nat b)) raw))
  else None.
Definition unchanged (arg : string) (s : unit) : unit := s.
Definition on_colab (s : unit) : string := colab_shell.
Definition not_importable (module : string) (s : unit) : bool := false.
Definition fresh : world unit := World ∅ tt.

Definition colab_setup (spawn : list string -> stderr_dest -> unit -> Z * string * unit)
  : M sh_event (world unit) unit :=
  setup_notebook unit spawn unchanged on_colab not_importable unchanged.
Definition colab_bootstraps
    (spawn : list string -> stderr_dest -> unit -> Z * string * unit) : Prop :=
  bootstraps unit spawn unchanged on_colab not_importable unchanged fresh.

(** A counting environment: the state counts the steps, the model answers
    the observation plus one, a step returns its action as observation and
    as reward, and frames are images by their shape. *)
Definition toy_reset (s : Z) : Z * Z := (0, 0).
Definition toy_predict (obs : Z) (deterministic : bool) (s : Z) : Z * unit * Z :=
  (obs + 1, tt, s).
Definition toy_step (action : Z) (s : Z) : Z * Z * bool * unit * Z :=
  (action, action, false, tt, s + 1).
Definition toy_render (mode : string) (s : Z) : Z * Z * Z * Z := ((64, 48, 3), s).
Definition toy_shape (img : Z * Z * Z) : Z * Z * Z := img.
Definition toy_mean (rewards : list Z) : Z :=
  fold_left Z.add rewards 0 / Z.of_nat (length rewards).
Definition toy_path_div (folder file : string) : string := folder +:+ file.

(** Every file that is looked for is there, or none is. *)
Definition toy_there (path : string) (s : Z) : bool := true.
Definition toy_missing (path : string) (s : Z) : bool := false.

Definition toy_evaluate (n_eval_episodes episode_length : Z) (video_rate : option Z)
    (video_prefix : string) : M (ev_event Z Z unit Z bool unit (Z * Z * Z) Z) Z unit :=
  evaluate Z Z unit Z bool unit (Z * Z * Z) Z Z Z toy_reset toy_predict toy_step
    toy_render toy_shape 0 Z.add toy_mean Py.str_int Py.str_int id toy_path_div
    toy_there n_eval_episodes episode_length video_rate video_prefix.
Definition toy_evaluate_missing (n_eval_episodes episode_length : Z)
    (video_rate : option Z) (video_prefix : string)
  : M (ev_event Z Z unit Z bool unit (Z * Z * Z) Z) Z unit :=
  evaluate Z Z unit Z bool unit (Z * Z * Z) Z Z Z toy_reset toy_predict toy_step
    toy_render toy_shape 0 Z.add toy_mean Py.str_int Py.str_int id toy_path_div
    toy_missing n_eval_episodes episode_length video_rate video_prefix.
Definition toy_straightline (n_eval_episodes episode_length : Z)
    (video_rate : option Z) (video_prefix : string) (s : Z) : Prop :=
  straightline Z Z unit Z bool unit (Z * Z * Z) Z Z Z toy_reset toy_predict toy_step
    toy_render toy_shape 0 Z.add toy_mean Py.str_int Py.str_int id toy_path_div
    toy_there Z.div n_eval_episodes episode_length video_rate video_prefix s.

(** The same environment behind a recorder, and a second recorder that
    reports no reward, done or info. *)
Definition toy_wrap (s : Z) : Z := s.
Definition toy_recorder (config : recorder_config) (s : Z) : Z := s.
Definition toy_silent_step (action : Z) (s : Z) : Z * unit * unit * unit * Z :=
  (action, tt, tt, tt, s + 1).
Definition toy_record_video (video_length : Z)
  : M (rv_event Z Z unit Z bool unit) Z unit :=
  record_video Z Z unit Z bool unit Z toy_wrap toy_recorder toy_reset toy_predict
    toy_step toy_wrap video_length "demo" "videos/".
Definition toy_silent_record_video (video_length : Z)
  : M (rv_event Z Z unit unit unit unit) Z unit :=
  record_video Z Z unit unit unit unit Z toy_wrap toy_recorder toy_reset toy_predict
    toy_silent_step toy_wrap video_length "demo" "videos/".

End Examples.

(** ** More machines to run the definitions on *)

Module Scenarios.
Import Helper Examples Deprecated Display.

(** A machine on which every module imports, and a notebook that does not
    run on Colab. *)
Definition importable_all (module : string) (s : unit) : bool := true.
Definition local_shell : string := "<ipykernel.zmqshell.ZMQInteractiveShell object>".
Definition off_colab (s : unit) : string := local_shell.

(** [setup_notebook] on Colab with eagerx_gui installed, where every command
    would fail. *)
Definition gui_setup : M sh_event (world unit) unit :=
  setup_notebook unit spawn_failing unchanged on_colab importable_all unchanged.

(** ROS noetic, a clock that stands at noon, and processes by number. *)
Definition noetic_path (name : string) (s : unit) : option string :=
  Some "/opt/ros/noetic/share/ros".
Definition no_stack (name : string) (s : unit) : option string := None.
Definition noon (format : string) (s : unit) : string := "12:00:00".
Definition toy_terminate (process : Z) (s : unit) : unit := s.
Definition toy_popen (args : list string) (s : unit) : Z * unit := (4242, s).

Definition toy_deprecated_setup (get_ipython : unit -> string)
    (importable : string -> unit -> bool) (get_path : string -> unit -> option string)
  : R (ros_event Z) (world unit) unit :=
  deprecated_setup_notebook unit Z get_ipython importable unchanged get_path noon
    toy_terminate toy_popen.

(** Files that hold their own name. *)
Definition toy_svg_data (file : string) (s : unit) : string * unit := (file, s).
Definition toy_decode (encoding : string) (data : string) : string := data.

Definition toy_show_svg (svg_file width : string) : M show_event unit html :=
  show_svg string unit toy_svg_data id id toy_decode svg_file width.

End Scenarios.

(** * Properties *)

(** ** The Pendulum declaration *)

Section PendulumFacts.
Import Pendulum.

Lemma registered_names :
  dom registered_sensors = ({["angle_sensor"; "image"]} : gset string) /\
  dom registered_actuators = ({["voltage"]} : gset string) /\
  dom registered_engine_states = ({["model_state"]} : gset string) /\
  dom registered_config = ({["render_shape"]} : gset string).
Proof.
  unfold registered_sensors, registered_actuators, registered_engine_states,
    registered_config.
  rewrite !dom_insert_L, !dom_empty_L. repeat split; set_solver.
Qed.

(** C3. The decorators of [agnostic] register exactly the sensors
    angle_sensor and image, the actuator voltage and the engine state
    model_state; after [agnostic] has run on any spec, the four spaces are:
    angle_sensor from -9999 to 9999 in each of its two components, voltage
    from -3 to 3, model_state from (-pi, -9) to (pi, 9), and image pixels
    from 0 to 255 in the shape [spec.config.render_shape], which [agnostic]
    leaves as it found it. *)
Theorem agnostic_registers_and_bounds (s : ObjectSpec) (r : number) :
  dom registered_sensors = ({["angle_sensor"; "image"]} : gset string) /\
  dom registered_actuators = ({["voltage"]} : gset string) /\
  dom registered_engine_states = ({["model_state"]} : gset string) /\
  space_converter (angle_sensor (sensors (agnostic s r))) =
    Some (SpaceConverter_make "Space_Float32MultiArray"
            (Vector [Int (-9999); Int (-9999)]) (Vector [Int 9999; Int 9999])
            None "float32") /\
  space_converter (voltage (actuators (agnostic s r))) =
    Some (SpaceConverter_make "Space_Float32MultiArray"
            (Vector [Int (-3)]) (Vector [Int 3]) None "float32") /\
  space_converter (model_state (states (agnostic s r))) =
    Some (SpaceConverter_make "Space_Float32MultiArray"
            (Vector [Neg Pi; Int (-9)]) (Vector [Pi; Int 9]) None "float32") /\
  space_converter (image (sensors (agnostic s r))) =
    Some (SpaceConverter_make "Space_Image" (Scalar (Int 0)) (Scalar (Int 255))
            (Some (render_shape (config (agnostic s r)))) "uint8") /\
  config (agnostic s r) = config s.
Proof.
  destruct registered_names as (Hs & Ha & He & _).
  repeat split; assumption || reflexivity.
Qed.

(** C4. For every [rate] argument of [Pendulum.spec], 30.0 when it is
    omitted, the angle_sensor rate and the voltage rate are that rate, the
    voltage window is 1, and the image rate is 15 whatever the argument; the
    same holds of [agnostic] for the rate it is given. *)
Theorem spec_rates (s : ObjectSpec) (name : string)
    (acts sens sts : option (list string)) (r : option number)
    (shape : option (list Z)) :
  let given := match r with Some x => x | None => Dec 30 0 end in
  let s' := spec s name acts sens sts r shape in
  rate (angle_sensor (sensors s')) = Some given /\
  rate (voltage (actuators s')) = Some given /\
  window (voltage (actuators s')) = Some 1 /\
  rate (image (sensors s')) = Some (Int 15) /\
  (forall s0 x,
     rate (angle_sensor (sensors (agnostic s0 x))) = Some x /\
     rate (voltage (actuators (agnostic s0 x))) = Some x /\
     window (voltage (actuators (agnostic s0 x))) = Some 1 /\
     rate (image (sensors (agnostic s0 x))) = Some (Int 15)).
Proof.
  destruct r; cbn; repeat split; reflexivity.
Qed.

(** C9. In [Pendulum.spec] a falsy argument selects the default: [None] or
    the empty list for sensors, actuators, states gives ["angle_sensor"],
    ["voltage"], ["model_state"], and for render_shape gives [480, 480]; a
    non-empty list is kept; so none of the three lists is ever empty. *)
Theorem spec_falsy_defaults (s : ObjectSpec) (name : string)
    (acts sens sts : option (list string)) (r : option number)
    (shape : option (list Z)) :
  let c := config (spec s name acts sens sts r shape) in
  (config_sensors c =
     Some (match sens with Some (x :: l) => x :: l | _ => ["angle_sensor"] end)) /\
  (config_actuators c =
     Some (match acts with Some (x :: l) => x :: l | _ => ["voltage"] end)) /\
  (config_states c =
     Some (match sts with Some (x :: l) => x :: l | _ => ["model_state"] end)) /\
  (render_shape c = match shape with Some (x :: l) => x :: l | _ => [480; 480] end) /\
  (forall l, config_sensors c = Some l -> l <> []) /\
  (forall l, config_actuators c = Some l -> l <> []) /\
  (forall l, config_states c = Some l -> l <> []) /\
  (config_sensors c <> None /\ config_actuators c <> None /\ config_states c <> None).
Proof.
  cbn.
  destruct sens as [[|? ?]|], acts as [[|? ?]|], sts as [[|? ?]|], shape as [[|? ?]|];
    cbn; repeat split; try reflexivity; try discriminate;
    intros ? [= <-]; discriminate.
Qed.

(** C5. On every spec, [ode_bridge] returns normally after the same calls on
    the graph, which it never reads: one [add] of three nodes, an OdeOutput node angle_sensor, an
    OdeRender node image and an OdeInput node pendulum_actuator (their rates
    are read from the spec), then the five connections of
    [ode_bridge_connections]; it leaves the spec with the ODE function, the
    six ODE parameters and the OdeEngineState set, and otherwise unchanged. *)
Theorem ode_bridge_static_wiring (s : ObjectSpec) :
  exists obs image action,
    ode_bridge s =
      (inl tt,
       on_bridge (fun _ => Bridge (Some ode_file) (Some pendulum_ode_params)
                             (Some "OdeEngineState")) s,
       GraphAdd [obs; image; action] :: map GraphConnect ode_bridge_connections) /\
    (node_id obs, node_name obs) = ("OdeOutput", "angle_sensor") /\
    (node_id image, node_name image) = ("OdeRender", "image") /\
    (node_id action, node_name action) = ("OdeInput", "pendulum_actuator") /\
    node_rate obs = rate (angle_sensor (sensors s)) /\
    node_rate image = rate (Pendulum.image (sensors s)) /\
    node_rate action = rate (voltage (actuators s)) /\
    length ode_bridge_connections = 5%nat /\
    length pendulum_ode_params = 6%nat.
Proof.
  do 3 eexists. split; [reflexivity|]. repeat split.
Qed.

End PendulumFacts.

(** ** Python helpers *)

Section PyFacts.

Lemma prefix_app (x rest : string) : String.prefix x (x +:+ rest) = true.
Proof.
  induction x as [|c x IH]; simpl.
  - now destruct rest.
  - destruct (Ascii.ascii_dec c c); [exact IH | congruence].
Qed.

Lemma contains_prefix (x rest : string) : Py.contains x (x +:+ rest) = true.
Proof.
  replace (Py.contains x (x +:+ rest))
    with (String.prefix x (x +:+ rest) ||
          match x +:+ rest with
          | EmptyString => false
          | String _ tl => Py.contains x tl
          end) by (destruct (x +:+ rest); reflexivity).
  now rewrite prefix_app.
Qed.

Lemma contains_skip (x before rest : string) :
  Py.contains x rest = true -> Py.contains x (before +:+ rest) = true.
Proof.
  intros H. induction before as [|c b IH]; simpl; [exact H|].
  rewrite IH. apply orb_true_r.
Qed.

Lemma contains_self (x : string) : Py.contains x x = true.
Proof.
  pose proof (contains_prefix x "") as H.
  replace (x +:+ "") with x in H; [exact H|].
  clear. induction x as [|c x IH]; [reflexivity|].
  change (String c x = String c (x +:+ "")). now rewrite <- IH.
Qed.

Lemma range_length (n : Z) : length (Py.range n) = Z.to_nat n.
Proof. unfold Py.range. now rewrite length_map, length_seq. Qed.

Lemma range_lookup (n : Z) (k : nat) (i : Z) :
  Py.range n !! k = Some i -> i = Z.of_nat k.
Proof.
  unfold Py.range. rewrite list_lookup_fmap.
  destruct (seq 0 (Z.to_nat n) !! k) as [j|] eqn:E; [|discriminate].
  apply lookup_seq in E. destruct E as [-> _]. cbn. now intros [= <-].
Qed.

End PyFacts.

(** ** run_command *)

Section SubprocessFacts.
Import Helper.
Variables Sys Raw : Type.
Variable spawn : list string -> stderr_dest -> Sys -> Z * Raw * Sys.
Variable decode : Raw -> option string.

Abbreviation check_output := (Helper.check_output Sys Raw spawn decode).
Abbreviation run_command := (Helper.run_command Sys Raw spawn decode).

(** The run of [run_command], case by case. *)
Lemma run_command_cases (cmd : string) (stderr : stderr_dest) (w : world Sys) :
  run_command cmd stderr w =
    if Py.has_nul cmd then (inr (Py.ValueError "embedded null byte"), w, [])
    else
      match spawn [cmd] stderr (sys w) with
      | (rc, raw, s') =>
          match decode raw with
          | None =>
              (inr Py.UnicodeDecodeError, World (environ w) s',
               [Undecodable [cmd] stderr])
          | Some out =>
              if decide (rc = 0)
              then (inl tt, World (environ w) s',
                    [CheckOutput [cmd] stderr rc out; PrintTo Stdout out])
              else (inr (Py.CalledProcessError rc [cmd] out), World (environ w) s',
                    [CheckOutput [cmd] stderr rc out;
                     PrintTo Stderr (error_message rc cmd out)])
          end
      end.
Proof.
  unfold Helper.run_command, Helper.check_output, mbind, M_bind, bind, try_except.
  cbn [existsb]. rewrite orb_false_r.
  destruct (Py.has_nul cmd); [reflexivity|].
  destruct (spawn [cmd] stderr (sys w)) as [[rc raw] s'].
  destruct (decode raw) as [out|]; [|reflexivity].
  destruct (decide (rc = 0)); reflexivity.
Qed.

Ltac sorted :=
  split; intros;
  repeat match goal with
         | H : _ /\ _ |- _ => destruct H
         | H : exists _, _ |- _ => destruct H
         | H : _ \/ _ |- _ => destruct H
         end;
  try discriminate; try congruence; try contradiction; eauto 8.

(** C10, as amended. [run_command] raises [CalledProcessError] exactly when
    the command is run, its captured output decodes as text and its exit
    status is not zero. Then it has printed to stderr one diagnostic, which
    contains the return code, the command and the captured output, and the
    exception it raises is the [CalledProcessError] that [check_output]
    raised. It returns [None], after printing the captured output, exactly
    when the output decodes and the status is zero. It raises in two more
    cases, without a diagnostic: [UnicodeDecodeError] when the captured
    output does not decode, whatever the status, and [ValueError] when the
    command holds a NUL character, before anything is run. *)
Theorem run_command_reraises_failure (cmd : string) (stderr : stderr_dest)
    (w : world Sys) :
  let rc := (spawn [cmd] stderr (sys w)).1.1 in
  let raw := (spawn [cmd] stderr (sys w)).1.2 in
  let w' := World (environ w) (spawn [cmd] stderr (sys w)).2 in
  let o := run_command cmd stderr w in
  ((exists returncode args output,
      result o = inr (Py.CalledProcessError returncode args output)) <->
   Py.has_nul cmd = false /\ decode raw <> None /\ rc <> 0) /\
  (result o = inl tt <-> Py.has_nul cmd = false /\ decode raw <> None /\ rc = 0) /\
  ((exists e, result o = inr e) <->
   Py.has_nul cmd = true \/ decode raw = None \/ rc <> 0) /\
  (Py.has_nul cmd = false ->
   forall out,
     decode raw = Some out ->
     (rc <> 0 ->
        o = (inr (Py.CalledProcessError rc [cmd] out), w',
             [CheckOutput [cmd] stderr rc out;
              PrintTo Stderr (error_message rc cmd out)]) /\
        result (check_output [cmd] stderr w) =
          inr (Py.CalledProcessError rc [cmd] out) /\
        Py.contains (Py.str_int rc) (error_message rc cmd out) = true /\
        Py.contains cmd (error_message rc cmd out) = true /\
        Py.contains out (error_message rc cmd out) = true) /\
     (rc = 0 ->
        o = (inl tt, w', [CheckOutput [cmd] stderr rc out; PrintTo Stdout out]))) /\
  (Py.has_nul cmd = false -> decode raw = None ->
   o = (inr Py.UnicodeDecodeError, w', [Undecodable [cmd] stderr])) /\
  (Py.has_nul cmd = true ->
   o = (inr (Py.ValueError "embedded null byte"), w, [])).
Proof.
  cbv zeta. rewrite run_command_cases. unfold Helper.check_output, result.
  cbn [existsb]. rewrite orb_false_r.
  destruct (Py.has_nul cmd).
  { cbn. split; [sorted|]. split; [sorted|]. split; [sorted|].
    split; [discriminate|]. split; [discriminate|]. reflexivity. }
  destruct (spawn [cmd] stderr (sys w)) as [[rc raw] s']; cbn.
  destruct (decode raw) as [out|]; cbn.
  - destruct (decide (rc = 0)) as [Hz|Hnz]; cbn.
    + split; [sorted|]. split; [sorted|]. split; [sorted|].
      split; [|split; [discriminate|discriminate]].
      intros _ out' [= <-]. split; [contradiction|reflexivity].
    + split; [sorted|]. split; [sorted|]. split; [sorted|].
      split; [|split; [discriminate|discriminate]].
      intros _ out' [= <-]. split; [|contradiction].
      intros _. split; [reflexivity|]. split; [reflexivity|]. split; [|split].
      * apply contains_skip, contains_prefix.
      * do 3 apply contains_skip. apply contains_prefix.
      * do 6 apply contains_skip. apply contains_self.
  - split; [sorted|]. split; [sorted|]. split; [sorted|].
    split; [discriminate|]. split; [reflexivity|discriminate].
Qed.

End SubprocessFacts.

(** ** setup_notebook *)

Section NotebookFacts.
Import Helper.
Variable Sys : Type.
Variable spawn : list string -> stderr_dest -> Sys -> Z * string * Sys.
Variable os_system : string -> Sys -> Sys.
Variable get_ipython : Sys -> string.
Variable importable : string -> Sys -> bool.
Variable reload : string -> Sys -> Sys.

Abbreviation setup_notebook :=
  (Helper.setup_notebook Sys spawn os_system get_ipython importable reload).

(** [run_command] on a command without a NUL character whose output is
    text, as [setup_notebook] runs it. *)
Lemma run_command_run (cmd : string) (stderr : stderr_dest) (w : world Sys) :
  Py.has_nul cmd = false ->
  Helper.run_command Sys string spawn Some cmd stderr w =
    match spawn [cmd] stderr (sys w) with
    | (rc, out, s') =>
        if decide (rc = 0)
        then (inl tt, World (environ w) s',
              [CheckOutput [cmd] stderr rc out; PrintTo Stdout out])
        else (inr (Py.CalledProcessError rc [cmd] out), World (environ w) s',
              [CheckOutput [cmd] stderr rc out;
               PrintTo Stderr (error_message rc cmd out)])
    end.
Proof.
  intros Hnul. rewrite run_command_cases, Hnul. reflexivity.
Qed.

Abbreviation bootstraps :=
  (Helper.bootstraps Sys spawn os_system get_ipython importable reload).
Abbreviation colab := (Helper.colab Sys get_ipython).
Abbreviation gui_importable := (Helper.gui_importable Sys get_ipython importable reload).

(** Case analysis on the run of [setup_notebook]: Colab or not, eagerx_gui
    importable or not, and the exit status of each command in turn. *)
Ltac run_notebook :=
  unfold Helper.bootstraps, installs_dependencies, configures_display, ran_ok,
    commands_succeed, Helper.gui_importable, Helper.colab;
  unfold Helper.setup_notebook, try_import, setenv, on_sys, print, emit, modify, get,
    mbind, M_bind, mret, M_ret, bind, ret;
  destruct (Py.contains "google.colab" _); cbn [sys environ];
  destruct (importable _ _);
  repeat (rewrite run_command_run by reflexivity; cbn [sys environ];
          destruct (spawn _ _ _) as [[? ?] ?]; destruct (decide (_ = 0)));
  cbn; unfold result, final, trace; cbn.

Ltac in_trace :=
  repeat first [ apply list_elem_of_here | apply list_elem_of_further ].

Ltac not_in_trace H :=
  repeat (apply elem_of_cons in H; destruct H as [H|H]; [discriminate H|]);
  apply elem_of_nil in H; destruct H.

Ltac display_iff :=
  split;
  [ intros (_ & H & _); first [ by split | exfalso; not_in_trace H ]
  | intros [? ?];
    first [ discriminate
          | repeat split; first [ eexists; in_trace | in_trace ] ] ].

Lemma setup_notebook_succeeds (w : world Sys) :
  commands_succeed (trace (setup_notebook w)) ->
  bootstraps w.
Proof.
  run_notebook.
  all: rewrite ?Forall_cons; cbn; intros Hok; subst.
  all: try tauto.
  all: split; [display_iff|].
  all: repeat split; try done; try (simplify_map_eq; done).
Qed.

Lemma display_only_on_colab (w : world Sys) :
  configures_display (trace (setup_notebook w)) ->
  colab w = true /\ gui_importable w = false.
Proof.
  run_notebook.
  all: intros (H & _); first [ by split | exfalso; not_in_trace H ].
Qed.

Lemma setup_notebook_returns_iff (w : world Sys) :
  result (setup_notebook w) = inl tt <-> commands_succeed (trace (setup_notebook w)).
Proof.
  run_notebook.
  all: rewrite ?Forall_cons; cbn.
  all: split; [intros H; try discriminate H; subst; rewrite ?Forall_nil; tauto|].
  all: try reflexivity.
  all: intros H; exfalso; tauto.
Qed.

Lemma setup_notebook_raises (w : world Sys) (e : Py.exn) :
  result (setup_notebook w) = inr e ->
  (exists rc cmd out,
     rc <> 0 /\ e = Py.CalledProcessError rc [cmd] out /\
     CheckOutput [cmd] STDOUT rc out ∈ trace (setup_notebook w)) /\
  SetEnv "EAGERX_RELOAD" "1" ∉ trace (setup_notebook w).
Proof.
  run_notebook.
  all: intros H; try discriminate H; injection H as <-.
  all: split; [do 3 eexists; split; [eassumption|]; split; [reflexivity|in_trace]|].
  all: intros H; not_in_trace H.
Qed.

(** C7, as amended. When every command that [setup_notebook] runs exits
    with status 0, it installs the dependencies and configures the virtual
    display (display packages, Xvfb on display :1, DISPLAY set to ":1")
    exactly when it runs on Colab and eagerx_gui is not importable, in that
    case leaves DISPLAY at ":1" and EAGERX_COLAB at "1", and on every path
    returns after setting EAGERX_RELOAD to "1" as its last action. In any
    case the virtual display is configured only on Colab without
    eagerx_gui. The function returns exactly when no command fails;
    otherwise it raises the [CalledProcessError] of the failing command and
    does not set EAGERX_RELOAD. *)
Theorem setup_notebook_bootstraps (w : world Sys) :
  let o := setup_notebook w in
  (commands_succeed (trace o) -> bootstraps w) /\
  (configures_display (trace o) -> colab w = true /\ gui_importable w = false) /\
  (result o = inl tt <-> commands_succeed (trace o)) /\
  (forall e,
     result o = inr e ->
     (exists rc cmd out,
        rc <> 0 /\ e = Py.CalledProcessError rc [cmd] out /\
        CheckOutput [cmd] STDOUT rc out ∈ trace o) /\
     SetEnv "EAGERX_RELOAD" "1" ∉ trace o).
Proof.
  cbv zeta. split; [|split; [|split]].
  - apply setup_notebook_succeeds.
  - apply display_only_on_colab.
  - apply setup_notebook_returns_iff.
  - apply setup_notebook_raises.
Qed.

End NotebookFacts.

(** ** record_video *)

Section RecorderStep.
Import Helper.
Variables Obs Act Aux Rew Done Info : Type.
Variable Env : Type.
Variable model_predict : Obs -> bool -> Env -> Act * Aux * Env.
Variable eval_env_step : Act -> Env -> Obs * Rew * Done * Info * Env.

Abbreviation record_step :=
  (Helper.record_step Obs Act Aux Rew Done Info Env model_predict eval_env_step).

Lemma record_step_run (k : Z) (obs : Obs) (s : Env) :
  record_step k obs s =
    match model_predict obs true s with
    | (action, aux, s1) =>
        match eval_env_step action s1 with
        | (obs', reward, done, info, s2) =>
            (inl obs', s2,
             [RvPredict obs true action aux; RvStep action obs' reward done info])
        end
    end.
Proof.
  unfold Helper.record_step, rv_predict, rv_step, mbind, M_bind, mret, M_ret, bind, ret.
  destruct (model_predict obs true s) as [[action aux] s1].
  destruct (eval_env_step action s1) as [[[[obs' reward] done] info] s2].
  reflexivity.
Qed.

End RecorderStep.

Section RecorderFacts.
Import Helper.
Variables Obs Act Aux Rew Done Info : Type.
Variable Env : Type.
Variable dummy_vec_env : Env -> Env.
Variable vec_video_recorder : recorder_config -> Env -> Env.
Variable eval_env_reset : Env -> Obs * Env.
Variable model_predict : Obs -> bool -> Env -> Act * Aux * Env.
Variable eval_env_step : Act -> Env -> Obs * Rew * Done * Info * Env.
Variable eval_env_close : Env -> Env.

Abbreviation record_step :=
  (Helper.record_step Obs Act Aux Rew Done Info Env model_predict eval_env_step).

(** The loop of [record_video] never raises and is a straight run of
    predict-then-step iterations. *)
Lemma rv_loop_run (xs : list Z) :
  forall obs s,
  exists obs' s' tr,
    for_in xs record_step obs s = (inl obs', s', tr) /\
    rv_driven obs (length xs) tr.
Proof.
  induction xs as [|x xs IH]; intros obs s.
  - exists obs, s, []. split; [reflexivity | constructor].
  - cbn [for_in]. unfold bind at 1. rewrite record_step_run.
    destruct (model_predict obs true s) as [[action aux] s1].
    destruct (eval_env_step action s1) as [[[[obs1 reward] done] info] s2].
    destruct (IH obs1 s2) as (obs' & s' & tr & -> & Hd).
    eexists obs', s', _. split; [reflexivity|].
    cbn. now constructor.
Qed.

Abbreviation record_video :=
  (Helper.record_video Obs Act Aux Rew Done Info Env dummy_vec_env vec_video_recorder
     eval_env_reset model_predict eval_env_step eval_env_close).

Lemma record_video_run (N : Z) (prefix folder : string) (s : Env) :
  let config := RecorderConfig folder (fun step => bool_decide (step = 0)) N prefix in
  exists obs0 steps s',
    record_video N prefix folder s =
      (inl tt, s',
       [RvDummyVecEnv; RvVecVideoRecorder config; RvReset obs0] ++ steps ++ [RvClose]) /\
    rv_driven obs0 (Z.to_nat N) steps.
Proof.
  cbv zeta.
  unfold Helper.record_video, rv_reset, mbind, M_bind, bind, modify, emit.
  destruct (eval_env_reset _) as [obs0 s0].
  destruct (rv_loop_run (Py.range N) obs0 s0) as (obs' & s' & tr & Hrun & Hd).
  rewrite range_length in Hd. rewrite Hrun.
  exists obs0, tr, (eval_env_close s'). split; [|exact Hd].
  cbn. rewrite ?app_nil_r. reflexivity.
Qed.

(** Two recorders whose steps agree on the observation and on the state
    they leave are driven through the same calls, whatever reward, done and
    info they report. *)
Lemma rv_loop_forget (Rew2 Done2 Info2 : Type)
    (step2 : Act -> Env -> Obs * Rew2 * Done2 * Info2 * Env) (xs : list Z) :
  (forall a s, obs_and_state (eval_env_step a s) = obs_and_state (step2 a s)) ->
  forall obs s,
  exists obs' s' tr tr2,
    for_in xs record_step obs s = (inl obs', s', tr) /\
    for_in xs (Helper.record_step Obs Act Aux Rew2 Done2 Info2 Env model_predict step2) obs s =
      (inl obs', s', tr2) /\
    map rv_forget tr = map rv_forget tr2.
Proof.
  intros Hagree. induction xs as [|x xs IH]; intros obs s.
  - exists obs, s, [], []. repeat split; reflexivity.
  - cbn [for_in]. unfold bind. rewrite !record_step_run.
    destruct (model_predict obs true s) as [[action aux] s1].
    pose proof (Hagree action s1) as Ha. unfold obs_and_state in Ha.
    destruct (eval_env_step action s1) as [[[[obs1 reward] done] info] s2].
    destruct (step2 action s1) as [[[[obs1' reward'] done'] info'] s2'].
    cbn in Ha. injection Ha as <- <-.
    destruct (IH obs1 s2) as (obs' & s' & tr & tr2 & -> & -> & Hf).
    eexists obs', s', _, _. split; [reflexivity|]. split; [reflexivity|].
    cbn. now rewrite Hf.
Qed.

(** C2. For every environment, model and [video_length], [record_video]
    wraps the environment in a DummyVecEnv and a VecVideoRecorder whose
    trigger holds exactly at step 0 and whose length is [video_length],
    resets it once, drives it for exactly [video_length] iterations, each a
    [model.predict] with [deterministic=True] on the previous observation
    followed by a step with the returned action, closes the recorder and
    returns. The reward, done and info of a step are discarded: recorders
    that agree on observations and states are driven through the same calls
    to the same final state. *)
Theorem record_video_drives_recorder (N : Z) (prefix folder : string) (s : Env) :
  let config := RecorderConfig folder (fun step => bool_decide (step = 0)) N prefix in
  let o := record_video N prefix folder s in
  (exists obs0 steps,
     result o = inl tt /\
     trace o =
       [RvDummyVecEnv; RvVecVideoRecorder config; RvReset obs0] ++ steps ++ [RvClose] /\
     rv_driven obs0 (Z.to_nat N) steps) /\
  (forall step, record_video_trigger config step = true <-> step = 0) /\
  Helper.video_length config = N /\
  (forall (Rew2 Done2 Info2 : Type)
          (step2 : Act -> Env -> Obs * Rew2 * Done2 * Info2 * Env),
     (forall a s0, obs_and_state (eval_env_step a s0) = obs_and_state (step2 a s0)) ->
     let o2 :=
       Helper.record_video Obs Act Aux Rew2 Done2 Info2 Env dummy_vec_env vec_video_recorder
         eval_env_reset model_predict step2 eval_env_close N prefix folder s in
     map rv_forget (trace o) = map rv_forget (trace o2) /\
     final o = final o2 /\ result o2 = inl tt).
Proof.
  cbv zeta. split; [|split; [|split]].
  - destruct (record_video_run N prefix folder s) as (obs0 & steps & s' & -> & Hd).
    exists obs0, steps. auto.
  - intros step. cbn. apply bool_decide_eq_true.
  - reflexivity.
  - intros Rew2 Done2 Info2 step2 Hagree.
    unfold Helper.record_video, rv_reset, mbind, M_bind, bind, modify, emit.
    destruct (eval_env_reset _) as [obs0 s0].
    destruct (rv_loop_forget Rew2 Done2 Info2 step2 (Py.range N) Hagree obs0 s0)
      as (obs' & s' & tr & tr2 & -> & -> & Hf).
    unfold trace, final, result. cbn. rewrite ?app_nil_r, !map_app, Hf. auto.
Qed.

End RecorderFacts.

(** ** evaluate, when show_video finds its file *)

Section EvaluateFacts.
Import Helper.
Variables Obs Act Aux Rew Done Info Img Rate Mean : Type.
Variable Env : Type.
Variable env_reset : Env -> Obs * Env.
Variable model_predict : Obs -> bool -> Env -> Act * Aux * Env.
Variable env_step : Act -> Env -> Obs * Rew * Done * Info * Env.
Variable env_render : string -> Env -> Img * Env.
Variable img_shape : Img -> Z * Z * Z.
Variable rzero : Rew.
Variable radd : Rew -> Rew -> Rew.
Variable np_mean : list Rew -> Mean.
Variable str_rew : Rew -> string.
Variable str_mean : Mean -> string.
Variable cvtColor_RGB2BGR : Img -> Img.
Variable path_div : string -> string -> string.

(** In this section [show_video] finds every file it looks for:
    [write_video], [episode] and [evaluate] are taken at the oracle that
    answers [true]. The sections that follow are about every run. *)
Abbreviation event := (ev_event Obs Act Aux Rew Done Info Img Rate).
Abbreviation episode_step :=
  (Helper.episode_step Obs Act Aux Rew Done Info Img Rate Env model_predict env_step
     env_render img_shape radd).
Abbreviation run_episode :=
  (Helper.run_episode Obs Act Aux Rew Done Info Img Rate Env env_reset model_predict
     env_step env_render img_shape rzero radd).
Abbreviation write_video :=
  (Helper.write_video Obs Act Aux Rew Done Info Img Rate Env img_shape str_rew
     cvtColor_RGB2BGR path_div (fun _ _ => true)).
Abbreviation episode :=
  (Helper.episode Obs Act Aux Rew Done Info Img Rate Env env_reset model_predict
     env_step env_render img_shape rzero radd str_rew cvtColor_RGB2BGR path_div
     (fun _ _ => true)).
Abbreviation evaluate_episodes :=
  (Helper.evaluate_episodes Obs Act Aux Rew Done Info Img Rate Env env_reset model_predict
     env_step env_render img_shape rzero radd str_rew cvtColor_RGB2BGR path_div
     (fun _ _ => true)).
Abbreviation evaluate :=
  (Helper.evaluate Obs Act Aux Rew Done Info Img Rate Mean Env env_reset model_predict
     env_step env_render img_shape rzero radd np_mean str_rew str_mean
     cvtColor_RGB2BGR path_div (fun _ _ => true)).
Abbreviation buffered :=
  (Helper.buffered Obs Act Aux Rew Done Info Img Rate Env env_reset model_predict
     env_step env_render img_shape rzero radd).
Abbreviation every_episode_buffers :=
  (Helper.every_episode_buffers Obs Act Aux Rew Done Info Img Rate Env env_reset
     model_predict env_step env_render img_shape rzero radd).
Abbreviation zero_in_shape := (Helper.zero_in_shape Img img_shape).

(** One iteration of the inner loop, run. *)
Lemma episode_step_run (vr : option Rate) (k : Z) (obs : Obs) (r : Rew)
    (frames : list Img) (s : Env) :
  episode_step vr k (obs, r, frames) s =
    match model_predict obs true s with
    | (action, aux, s1) =>
        match env_step action s1 with
        | (obs', reward, done, info, s2) =>
            match vr with
            | None =>
                (inl (obs', radd r reward, frames), s2,
                 [Predict obs true action aux; Step action obs' reward done info])
            | Some _ =>
                match env_render "rgb_array" s2 with
                | (img, s3) =>
                    (inl (obs', radd r reward,
                          if zero_in_shape img then frames else frames ++ [img]),
                     s3,
                     [Predict obs true action aux; Step action obs' reward done info;
                      Render "rgb_array" img])
                end
            end
        end
    end.
Proof.
  unfold Helper.episode_step, predict, step, render, mbind, M_bind, mret, M_ret, bind, ret.
  destruct (model_predict obs true s) as [[action aux] s1].
  destruct (env_step action s1) as [[[[obs' reward] done] info] s2].
  destruct vr as [rate|]; [|reflexivity].
  destruct (env_render "rgb_array" s2) as [img s3].
  destruct (zero_in_shape img); reflexivity.
Qed.

Lemma step_rewards_filter (tr : list event) :
  step_rewards (List.filter interaction tr) = step_rewards tr.
Proof.
  induction tr as [|e tr IH]; [reflexivity|].
  destruct e; cbn; unfold step_rewards in IH; cbn in IH; now rewrite ?IH.
Qed.

(** The inner loop never raises; its trace is the driving calls, with a
    render after each step in video mode; the reward it accumulates is the
    sum of the step rewards. *)
Lemma loop_run (vr : option Rate) (xs : list Z) :
  forall obs r frames s,
  exists obs' frames' s' tr,
    for_in xs (episode_step vr) (obs, r, frames) s =
      (inl (obs', fold_left radd (step_rewards tr) r, frames'), s', tr) /\
    driven obs (length xs) (List.filter interaction tr) /\
    Forall loop_event tr /\
    (vr = None -> frames' = frames /\ List.filter interaction tr = tr).
Proof.
  induction xs as [|x xs IH]; intros obs r frames s.
  - exists obs, frames, s, []. cbn. repeat split; auto. constructor.
  - cbn [for_in]. unfold bind at 1. rewrite episode_step_run.
    destruct (model_predict obs true s) as [[action aux] s1].
    destruct (env_step action s1) as [[[[obs1 reward] done] info] s2].
    destruct vr as [rate|].
    + destruct (env_render "rgb_array" s2) as [img s3].
      destruct (IH obs1 (radd r reward)
                  (if zero_in_shape img then frames else frames ++ [img]) s3)
        as (obs' & frames' & s' & tr & -> & Hd & Hev & _).
      exists obs', frames', s',
        (Predict obs true action aux :: Step action obs1 reward done info ::
         Render "rgb_array" img :: tr).
      split; [reflexivity|].
      cbn. repeat split.
      * now constructor.
      * apply Forall_cons; split; [now left|].
        apply Forall_cons; split; [now left|].
        apply Forall_cons; split; [right; eauto | exact Hev].
      * discriminate.
      * discriminate.
    + destruct (IH obs1 (radd r reward) frames s2)
        as (obs' & frames' & s' & tr & -> & Hd & Hev & Hn).
      destruct (Hn eq_refl) as [-> Hf].
      exists obs', frames, s',
        (Predict obs true action aux :: Step action obs1 reward done info :: tr).
      split; [reflexivity|].
      cbn. repeat split.
      * now constructor.
      * apply Forall_cons; split; [now left|].
        apply Forall_cons; split; [now left | exact Hev].
      * now rewrite Hf.
Qed.

(** Lines 205-215 never raise. *)
Lemma run_episode_run (L : Z) (vr : option Rate) (s : Env) :
  exists obs frames s' tr,
    run_episode L vr s =
      (inl (total rzero radd (step_rewards tr), frames), s',
       EnvReset obs :: Tqdm L :: tr) /\
    driven obs (Z.to_nat L) (List.filter interaction tr) /\
    Forall loop_event tr /\
    (vr = None -> frames = [] /\ List.filter interaction tr = tr).
Proof.
  unfold Helper.run_episode, reset, mbind, M_bind, bind, emit.
  destruct (env_reset s) as [obs s0].
  destruct (loop_run vr (Py.range L) obs rzero [] s0)
    as (obs' & frames & s' & tr & Hrun & Hd & Hev & Hn).
  rewrite Hrun, range_length in *.
  exists obs, frames, s', tr. cbn. rewrite app_nil_r. auto.
Qed.

Lemma writer_loop_run (frames : list Img) (s : Env) :
  for_in frames
    (fun img (_ : unit) => emit (WriterWrite (cvtColor_RGB2BGR img) : event)) tt s =
  (inl tt, s, map (fun img => WriterWrite (cvtColor_RGB2BGR img)) frames).
Proof.
  induction frames as [|img frames IH]; [reflexivity|].
  cbn [for_in]. unfold bind, emit at 1. now rewrite IH.
Qed.

(** With no frame, [img_array[-1]] raises right after the first print. *)
Lemma write_video_empty (folder : string) (rate : Rate) (prefix : string) (i : Z)
    (r : Rew) (s : Env) :
  write_video folder rate prefix i r [] s =
    (inr Py.IndexError, s, [EvPrint "Start video writer"]).
Proof. reflexivity. Qed.

(** With a frame, the video is written and shown, and the state of the
    environment is not touched. *)
Lemma write_video_frames (folder : string) (rate : Rate) (prefix : string) (i : Z)
    (r : Rew) (frames : list Img) (s : Env) :
  frames <> [] ->
  exists tr,
    write_video folder rate prefix i r frames s =
      (inl tt, s, EvPrint "Start video writer" :: tr) /\
    List.filter interaction tr = [] /\
    EvPrint (showing_message str_rew i r) ∈ tr.
Proof.
  intros Hne.
  unfold Helper.write_video, ev_print, lift, Py.last_item, mbind, M_bind, bind, emit.
  destruct (last frames) as [frame|] eqn:Hlast;
    [|apply last_None in Hlast; contradiction].
  destruct (img_shape frame) as [[height width] channels].
  rewrite writer_loop_run. cbn.
  eexists. split; [reflexivity|]. split.
  - cbn [List.filter interaction]. rewrite List.filter_app. cbn. rewrite app_nil_r.
    clear. induction frames as [|? ? IH]; [reflexivity | exact IH].
  - apply list_elem_of_further, elem_of_app. right.
    do 2 apply list_elem_of_further. apply list_elem_of_here.
Qed.

(** One pass through the body of the loop over episodes. *)
Lemma episode_run (n L : Z) (vr : option Rate) (prefix folder : string) (i : Z)
    (rews : list Rew) (s : Env) :
  exists obs frames s' tr,
    run_episode L vr s =
      (inl (total rzero radd (step_rewards tr), frames), s',
       EnvReset obs :: Tqdm L :: tr) /\
    driven obs (Z.to_nat L) (List.filter interaction tr) /\
    Forall loop_event tr /\
    (vr = None -> List.filter interaction tr = tr) /\
    match vr with
    | None =>
        episode n L vr prefix folder i rews s =
          (inl (rews ++ [total rzero radd (step_rewards tr)]), s',
           EvPrint (start_message i n) :: EnvReset obs :: Tqdm L :: tr)
    | Some rate =>
        match frames with
        | [] =>
            episode n L vr prefix folder i rews s =
              (inr Py.IndexError, s',
               EvPrint (start_message i n) :: EnvReset obs :: Tqdm L :: tr ++
               [EvPrint "Start video writer"])
        | _ :: _ =>
            exists vtr,
              episode n L vr prefix folder i rews s =
                (inl (rews ++ [total rzero radd (step_rewards tr)]), s',
                 EvPrint (start_message i n) :: EnvReset obs :: Tqdm L :: tr ++
                 EvPrint "Start video writer" :: vtr) /\
              List.filter interaction vtr = [] /\
              EvPrint (showing_message str_rew i (total rzero radd (step_rewards tr)))
                ∈ vtr
        end
    end.
Proof.
  destruct (run_episode_run L vr s) as (obs & frames & s' & tr & Hrun & Hd & Hev & Hn).
  exists obs, frames, s', tr.
  split; [exact Hrun|]. split; [exact Hd|]. split; [exact Hev|].
  split; [intros E; now apply Hn|].
  unfold Helper.episode, ev_print, mbind, M_bind, mret, M_ret, bind, ret, emit.
  rewrite Hrun.
  destruct vr as [rate|].
  - destruct frames as [|f frames].
    + rewrite write_video_empty. reflexivity.
    + destruct (write_video_frames folder rate prefix i
                  (total rzero radd (step_rewards tr)) (f :: frames) s')
        as (vtr & Hw & Hf & Hin); [discriminate|].
      exists vtr. rewrite Hw. cbn. rewrite app_nil_r. auto.
  - cbn. now rewrite !app_nil_r.
Qed.

Lemma buffered_succ (k : nat) (L : Z) (vr : option Rate) (s : Env) (r : Rew)
    (frames : list Img) (s' : Env) (tr : list event) :
  run_episode L vr s = (inl (r, frames), s', tr) ->
  buffered (S k) L vr s = frames :: buffered k L vr s'.
Proof. intros H. cbn. now rewrite H. Qed.

(** The loop over episodes when no episode is short of a frame. *)
Lemma episodes_run (n L : Z) (vr : option Rate) (prefix folder : string) :
  forall (idx : list Z) (rews : list Rew) (s : Env),
    vr = None \/ Forall (fun f => f <> []) (buffered (length idx) L vr s) ->
    exists eps s' tr,
      for_in idx (episode n L vr prefix folder) rews s =
        (inl (rews ++ map snd eps), s', tr) /\
      length eps = length idx /\
      Forall (episode_ok rzero radd L) eps /\
      List.filter interaction tr = concat (map fst eps) /\
      (vr = None -> Forall (fun e => printing e = true \/ interaction e = true) tr) /\
      (forall k ep,
         vr <> None -> eps !! k = Some ep ->
         exists i, idx !! k = Some i /\
                   EvPrint (showing_message str_rew i ep.2) ∈ tr).
Proof.
  induction idx as [|i idx IH]; intros rews s Hpre.
  - exists [], s, []. cbn. rewrite app_nil_r.
    repeat split; auto. intros ? ? _ H. discriminate H.
  - destruct (episode_run n L vr prefix folder i rews s)
      as (obs & frames & s1 & tr & Hrun & Hd & Hev & Hn & Hep).
    cbn [length] in Hpre. rewrite (buffered_succ _ _ _ _ _ _ _ _ Hrun) in Hpre.
    set (r := total rzero radd (step_rewards tr)) in *.
    set (ep := (EnvReset obs :: List.filter interaction tr, r) : list event * Rew).
    assert (Hok : episode_ok rzero radd L ep).
    { exists obs, (List.filter interaction tr). cbn.
      repeat split; [exact Hd|]. subst r. now rewrite step_rewards_filter. }
    cbn [for_in]. unfold bind at 1.
    destruct vr as [rate|].
    + destruct Hpre as [Hpre|Hpre]; [discriminate|].
      apply Forall_cons in Hpre. destruct Hpre as [Hne Hpre].
      destruct frames as [|f frames]; [contradiction|].
      destruct Hep as (vtr & -> & Hvf & Hin).
      destruct (IH (rews ++ [r]) s1 (or_intror Hpre))
        as (eps & s' & tr' & -> & Hlen & Hall & Hfil & _ & Hshow).
      eexists (ep :: eps), s', _. split.
      { cbn [map snd ep]. now rewrite <- app_assoc. }
      split; [cbn; now rewrite Hlen|].
      split; [now apply Forall_cons|].
      split.
      { cbn [List.filter interaction app]. rewrite !List.filter_app.
        cbn [List.filter interaction]. rewrite Hvf, Hfil, app_nil_r. reflexivity. }
      split; [discriminate|].
      intros k ep' Hv Hk. destruct k as [|k].
      * cbn in Hk. injection Hk as <-. exists i. split; [reflexivity|].
        cbn [snd ep].
        do 3 apply list_elem_of_further. rewrite !elem_of_app.
        left. right. now apply list_elem_of_further.
      * cbn in Hk. destruct (Hshow k ep' Hv Hk) as (j & Hj & Hinj).
        exists j. split; [exact Hj|].
        rewrite app_comm_cons, elem_of_app. right. exact Hinj.
    + rewrite Hep.
      destruct (IH (rews ++ [r]) s1 (or_introl eq_refl))
        as (eps & s' & tr' & -> & Hlen & Hall & Hfil & Hpi & _).
      eexists (ep :: eps), s', _. split.
      { cbn [map snd ep]. now rewrite <- app_assoc. }
      split; [cbn; now rewrite Hlen|].
      split; [now apply Forall_cons|].
      split.
      { cbn [List.filter interaction app]. rewrite !List.filter_app, Hfil.
        reflexivity. }
      split; [|intros ? ? Hv; now destruct Hv].
      intros _. cbn [app].
      apply Forall_cons; split; [now left|].
      apply Forall_cons; split; [now right|].
      apply Forall_cons; split; [now left|].
      apply Forall_app; split; [|now apply Hpi].
      rewrite <- (Hn eq_refl). clear.
      induction tr as [|e tr IHt]; [constructor|].
      cbn. destruct (interaction e) eqn:E; [|exact IHt].
      apply Forall_cons; split; [now right | exact IHt].
Qed.

Lemma evaluate_run (n L : Z) (vr : option Rate) (prefix : string) (s : Env) :
  evaluate n L vr prefix s =
    match for_in (Py.range n) (episode n L vr prefix "videos/") [] s with
    | (inl rews, s', tr) =>
        (inl tt, s',
         Makedirs "videos/" true :: tr ++
         [EvPrint (finished_message Rew Mean np_mean str_mean rews)])
    | (inr e, s', tr) => (inr e, s', Makedirs "videos/" true :: tr)
    end.
Proof.
  unfold Helper.evaluate, Helper.evaluate_episodes, ev_print, mbind, M_bind, bind, emit.
  destruct (for_in _ _ _ _) as [[[rews|e] s'] tr]; reflexivity.
Qed.

(** The loop over episodes when an episode is short of a frame. *)
Lemma episodes_fail (n L : Z) (rate : Rate) (prefix folder : string) :
  forall (idx : list Z) (rews : list Rew) (s : Env),
    Exists (fun f => f = []) (buffered (length idx) L (Some rate) s) ->
    exists s' before i obs tr,
      for_in idx (episode n L (Some rate) prefix folder) rews s =
        (inr Py.IndexError, s',
         before ++ EvPrint (start_message i n) :: EnvReset obs :: Tqdm L :: tr ++
         [EvPrint "Start video writer"]) /\
      Forall loop_event tr /\
      (head (buffered (length idx) L (Some rate) s) = Some [] -> before = []).
Proof.
  induction idx as [|i idx IH]; intros rews s Hex.
  - cbn in Hex. now apply Exists_nil in Hex.
  - destruct (episode_run n L (Some rate) prefix folder i rews s)
      as (obs & frames & s1 & tr & Hrun & Hd & Hev & _ & Hep).
    cbn [length] in *. rewrite (buffered_succ _ _ _ _ _ _ _ _ Hrun) in *.
    cbn [for_in]. unfold bind at 1.
    destruct frames as [|f frames].
    + rewrite Hep. exists s1, [], i, obs, tr. auto.
    + apply Exists_cons in Hex. destruct Hex as [Hex|Hex]; [discriminate|].
      destruct Hep as (vtr & -> & _ & _).
      destruct (IH (rews ++ [total rzero radd (step_rewards tr)]) s1 Hex)
        as (s' & before & j & obs' & tr' & -> & Hev' & _).
      eexists s', _, j, obs', tr'. split; [|split; [exact Hev'|discriminate]].
      rewrite app_assoc. reflexivity.
Qed.

Lemma loop_event_no_file (tr : list event) :
  Forall loop_event tr -> Forall (fun e => file_event e = false) tr.
Proof.
  intros H. eapply Forall_impl; [exact H|].
  intros e [He|[img ->]]; [|reflexivity].
  now destruct e.
Qed.

Lemma buffers_dec (l : list (list Img)) :
  Forall (fun f => f <> []) l \/ Exists (fun f => f = []) l.
Proof.
  induction l as [|f l [IH|IH]].
  - left. constructor.
  - destruct f as [|x f].
    + right. now apply Exists_cons_hd.
    + left. now apply Forall_cons.
  - right. now apply Exists_cons_tl.
Qed.

(** Whenever [video_rate] is [None] or every episode buffers at least one
    frame, [evaluate] returns normally after [n_eval_episodes] episodes,
    each driven straight through, and prints what [np.mean] makes of the
    sums of their rewards. *)
Lemma evaluate_found_straightline (n L : Z) (vr : option Rate) (prefix : string)
    (s : Env) :
  vr = None \/ every_episode_buffers n L vr s ->
  let o := evaluate n L vr prefix s in
  result o = inl tt /\
  exists eps : list (list event * Rew),
    length eps = Z.to_nat n /\
    Forall (episode_ok rzero radd L) eps /\
    List.filter interaction (trace o) = concat (map fst eps) /\
    last (trace o) =
      Some (EvPrint (finished_message Rew Mean np_mean str_mean (map snd eps))) /\
    (forall i ep,
       vr <> None -> eps !! i = Some ep ->
       EvPrint (showing_message str_rew (Z.of_nat i) ep.2) ∈ trace o).
Proof.
  intros Hpre. unfold Helper.every_episode_buffers in Hpre.
  rewrite <- range_length in Hpre.
  destruct (episodes_run n L vr prefix "videos/" (Py.range n) [] s Hpre)
    as (eps & s' & tr & Hrun & Hlen & Hall & Hfil & _ & Hshow).
  cbv zeta. rewrite evaluate_run, Hrun. unfold result, trace. cbn [fst snd].
  split; [reflexivity|].
  exists eps. rewrite range_length in Hlen.
  split; [exact Hlen|]. split; [exact Hall|]. split.
  { cbn [List.filter interaction]. rewrite List.filter_app. cbn. now rewrite app_nil_r. }
  split.
  { rewrite app_comm_cons, last_snoc. reflexivity. }
  intros k ep Hv Hk. destruct (Hshow k ep Hv Hk) as (i & Hi & Hin).
  apply range_lookup in Hi. subst i.
  apply list_elem_of_further, elem_of_app. now left.
Qed.

(** A loop without iterations, or whose renders all have a zero-sized
    dimension, buffers nothing. *)
Lemma loop_no_frames (vr : option Rate) (xs : list Z) :
  xs = [] \/ (forall mode s, zero_in_shape (env_render mode s).1 = true) ->
  forall obs r frames s obs' r' frames' s' tr,
    for_in xs (episode_step vr) (obs, r, frames) s =
      (inl (obs', r', frames'), s', tr) ->
    frames' = frames.
Proof.
  intros [->|Hz].
  - cbn. unfold ret. intros. congruence.
  - induction xs as [|x xs IH]; intros obs r frames s obs' r' frames' s' tr.
    + cbn. unfold ret. congruence.
    + cbn [for_in]. unfold bind at 1. rewrite episode_step_run.
      destruct (model_predict obs true s) as [[action aux] s1].
      destruct (env_step action s1) as [[[[obs1 reward] done] info] s2].
      destruct vr as [rate|].
      * pose proof (Hz "rgb_array" s2) as Hz2.
        destruct (env_render "rgb_array" s2) as [img s3]. cbn in Hz2. rewrite Hz2.
        destruct (for_in xs _ _ s3) as [[[[[o1 r1] f1]|e] s4] tr1] eqn:E;
          [|discriminate].
        intros [= <- <- <- <- <-]. eapply IH, E.
      * destruct (for_in xs _ _ s2) as [[[[[o1 r1] f1]|e] s4] tr1] eqn:E;
          [|discriminate].
        intros [= <- <- <- <- <-]. eapply IH, E.
Qed.

Lemma run_episode_no_frames (L : Z) (vr : option Rate) (s : Env) :
  L <= 0 \/ (forall mode s, zero_in_shape (env_render mode s).1 = true) ->
  exists r s' tr, run_episode L vr s = (inl (r, []), s', tr).
Proof.
  intros Hc.
  destruct (run_episode_run L vr s) as (obs & frames & s' & tr & Hrun & _).
  assert (frames = []) as ->; [|eauto].
  revert Hrun.
  unfold Helper.run_episode, reset, mbind, M_bind, bind, emit.
  destruct (env_reset s) as [obs0 s0].
  destruct (for_in _ _ _ s0) as [[[[[o1 r1] f1]|e] s4] tr1] eqn:E; [|discriminate].
  intros [= _ <- _ _ _].
  eapply (loop_no_frames vr (Py.range L)); [|exact E].
  destruct Hc as [HL|Hz]; [left|now right].
  unfold Py.range. now replace (Z.to_nat L) with 0%nat by lia.
Qed.


(** When rendering leaves the environment and the model as they are, the
    loop of video mode and the loop of the other mode go through the same
    states and accumulate the same reward. *)
Lemma loop_render_pure (rate : Rate) (xs : list Z) :
  (forall mode s, (env_render mode s).2 = s) ->
  forall obs r frames frames0 s,
  exists obs' r' frames' s' tr,
    for_in xs (episode_step (Some rate)) (obs, r, frames) s =
      (inl (obs', r', frames'), s', tr) /\
    for_in xs (episode_step None) (obs, r, frames0) s =
      (inl (obs', r', frames0), s', List.filter interaction tr).
Proof.
  intros Hpure. induction xs as [|x xs IH]; intros obs r frames frames0 s.
  - exists obs, r, frames, s, []. split; reflexivity.
  - cbn [for_in]. unfold bind. rewrite !episode_step_run.
    destruct (model_predict obs true s) as [[action aux] s1].
    destruct (env_step action s1) as [[[[obs1 reward] done] info] s2].
    pose proof (Hpure "rgb_array" s2) as Hp.
    destruct (env_render "rgb_array" s2) as [img s3]. cbn in Hp. subst s3.
    destruct (IH obs1 (radd r reward)
                (if zero_in_shape img then frames else frames ++ [img]) frames0 s2)
      as (obs' & r' & frames' & s' & tr & -> & ->).
    eexists obs', r', frames', s', _. split; reflexivity.
Qed.

Lemma run_episode_render_pure (L : Z) (rate : Rate) (s : Env) :
  (forall mode s, (env_render mode s).2 = s) ->
  exists r frames s' obs tr,
    run_episode L (Some rate) s = (inl (r, frames), s', EnvReset obs :: Tqdm L :: tr) /\
    run_episode L None s =
      (inl (r, []), s', EnvReset obs :: Tqdm L :: List.filter interaction tr).
Proof.
  intros Hpure.
  unfold Helper.run_episode, reset, mbind, M_bind, bind, emit.
  destruct (env_reset s) as [obs s0].
  destruct (loop_render_pure rate (Py.range L) Hpure obs rzero [] [] s0)
    as (obs' & r' & frames' & s' & tr & -> & ->).
  exists r', frames', s', obs, tr. cbn. rewrite !app_nil_r. split; reflexivity.
Qed.

Lemma episodes_render_pure (n L : Z) (rate : Rate) (prefix folder : string) :
  (forall mode s, (env_render mode s).2 = s) ->
  forall (idx : list Z) (rews rews' : list Rew) (s s' : Env) (tr : list event),
    for_in idx (episode n L (Some rate) prefix folder) rews s = (inl rews', s', tr) ->
    exists tr0,
      for_in idx (episode n L None prefix folder) rews s = (inl rews', s', tr0) /\
      List.filter interaction tr0 = List.filter interaction tr.
Proof.
  intros Hpure. induction idx as [|i idx IH]; intros rews rews' s s' tr.
  - cbn. unfold ret. intros [= <- <- <-]. exists []. split; reflexivity.
  - cbn [for_in]. unfold bind.
    destruct (run_episode_render_pure L rate s Hpure)
      as (r & frames & s1 & obs & ltr & Hv & Hn).
    destruct (episode_run n L (Some rate) prefix folder i rews s)
      as (obs1 & frames1 & s1' & tr1 & Hrun1 & _ & _ & _ & Hep1).
    destruct (episode_run n L None prefix folder i rews s)
      as (obs2 & frames2 & s2' & tr2 & Hrun2 & _ & _ & _ & Hep2).
    rewrite Hv in Hrun1. injection Hrun1 as -> <- <- <- <-.
    rewrite Hn in Hrun2. injection Hrun2 as Hr <- <- <- <-.
    rewrite Hep2.
    destruct frames as [|f frames].
    + rewrite Hep1. discriminate.
    + destruct Hep1 as (vtr & -> & Hvf & _).
      rewrite <- Hr.
      destruct (for_in idx _ (rews ++ [total rzero radd (step_rewards ltr)]) s1)
        as [[[rews1|e] s3] tr3] eqn:E; [|discriminate].
      intros [= <- <- <-].
      destruct (IH _ _ _ _ _ E) as (tr0 & -> & Hf).
      eexists. split; [reflexivity|].
      cbn [List.filter interaction app]. rewrite !List.filter_app.
      cbn [List.filter interaction]. rewrite Hvf, Hf, app_nil_r.
      clear. f_equal. f_equal.
      induction ltr as [|e l IHl]; [reflexivity|].
      cbn. destruct (interaction e) eqn:Ei; cbn; rewrite ?Ei; now rewrite ?IHl.
Qed.

Lemma quiet_no_video (tr : list event) :
  Forall (fun e => printing e = true \/ interaction e = true) tr ->
  Forall (fun e => video e = false) tr.
Proof.
  intros H. eapply Forall_impl; [exact H|].
  intros e [He|He]; now destruct e.
Qed.

(** The run without video, and the run with video beside it. *)
Lemma evaluate_found_gating (n L : Z) (prefix : string) (s : Env) :
  let o := evaluate n L None prefix s in
  result o = inl tt /\
  (exists tr,
     trace o = Makedirs "videos/" true :: tr /\
     Forall (fun e => printing e = true \/ interaction e = true) tr) /\
  Forall (fun e => video e = false) (trace o) /\
  (forall vr s0,
     exists r img_array s1 tr,
       run_episode L vr s0 = (inl (r, img_array), s1, tr) /\
       r = total rzero radd (step_rewards tr)) /\
  ((forall mode s0, (env_render mode s0).2 = s0) ->
   forall rate,
     let v := evaluate n L (Some rate) prefix s in
     result v = inl tt ->
     final v = final o /\
     List.filter interaction (trace v) = List.filter interaction (trace o) /\
     last (trace v) = last (trace o)).
Proof.
  cbv zeta.
  destruct (episodes_run n L None prefix "videos/" (Py.range n) [] s
              (or_introl eq_refl))
    as (eps & s' & tr & Hrun & _ & _ & _ & Hq & _).
  specialize (Hq eq_refl).
  rewrite !evaluate_run, Hrun. unfold result, trace, final. cbn [fst snd].
  split; [reflexivity|]. split; [|split; [|split]].
  - eexists. split; [reflexivity|].
    apply Forall_app. split; [exact Hq|]. repeat constructor.
  - apply Forall_cons. split; [reflexivity|].
    apply Forall_app. split; [now apply quiet_no_video|]. now repeat constructor.
  - intros vr s0.
    destruct (run_episode_run L vr s0) as (obs & frames & s1 & tr1 & Hr & _).
    eexists _, frames, s1, _. split; [exact Hr|]. reflexivity.
  - intros Hpure rate. rewrite evaluate_run.
    destruct (for_in (Py.range n) (episode n L (Some rate) prefix "videos/") [] s)
      as [[[rews|e] s2] trv] eqn:E; [|discriminate].
    intros _.
    destruct (episodes_render_pure n L rate prefix "videos/" Hpure _ _ _ _ _ _ E)
      as (tr0 & Hrun0 & Hf).
    rewrite Hrun in Hrun0. injection Hrun0 as <- <- <-.
    unfold final, trace. cbn [fst snd app].
    split; [reflexivity|]. split.
    + cbn [List.filter interaction]. rewrite !List.filter_app, Hf. reflexivity.
    + now rewrite !app_comm_cons, !last_snoc.
Qed.

End EvaluateFacts.

(** ** evaluate: the run of each part, whether the file is found or not *)

Section EvaluateRuns.
Import Helper Frames.
Variables Obs Act Aux Rew Done Info Img Rate Mean : Type.
Variable Env : Type.
Variable env_reset : Env -> Obs * Env.
Variable model_predict : Obs -> bool -> Env -> Act * Aux * Env.
Variable env_step : Act -> Env -> Obs * Rew * Done * Info * Env.
Variable env_render : string -> Env -> Img * Env.
Variable img_shape : Img -> Z * Z * Z.
Variable rzero : Rew.
Variable radd : Rew -> Rew -> Rew.
Variable np_mean : list Rew -> Mean.
Variable str_rew : Rew -> string.
Variable str_mean : Mean -> string.
Variable cvtColor_RGB2BGR : Img -> Img.
Variable path_div : string -> string -> string.
Variable readable : string -> Env -> bool.

Abbreviation event := (ev_event Obs Act Aux Rew Done Info Img Rate).
Abbreviation episode_step :=
  (Helper.episode_step Obs Act Aux Rew Done Info Img Rate Env model_predict env_step
     env_render img_shape radd).
Abbreviation run_episode :=
  (Helper.run_episode Obs Act Aux Rew Done Info Img Rate Env env_reset model_predict
     env_step env_render img_shape rzero radd).
Abbreviation write_video :=
  (Helper.write_video Obs Act Aux Rew Done Info Img Rate Env img_shape str_rew
     cvtColor_RGB2BGR path_div readable).
Abbreviation episode :=
  (Helper.episode Obs Act Aux Rew Done Info Img Rate Env env_reset model_predict
     env_step env_render img_shape rzero radd str_rew cvtColor_RGB2BGR path_div
     readable).
Abbreviation evaluate :=
  (Helper.evaluate Obs Act Aux Rew Done Info Img Rate Mean Env env_reset model_predict
     env_step env_render img_shape rzero radd np_mean str_rew str_mean
     cvtColor_RGB2BGR path_div readable).
Abbreviation zero_in_shape := (Helper.zero_in_shape Img img_shape).

(** The frames kept by [if 0 not in img.shape]. *)
Abbreviation kept := (List.filter (fun img => negb (zero_in_shape img))).

Abbreviation encoding :=
  (@Frames.encoding Obs Act Aux Rew Done Info Img Rate img_shape str_rew
     cvtColor_RGB2BGR path_div).

Lemma for_in_trace {X A} (P : list event -> Prop)
    (body : X -> A -> M event Env A) (xs : list X) :
  compositional P ->
  (forall x a s, P (trace (body x a s))) ->
  forall a s, P (trace (for_in xs body a s)).
Proof.
  intros [Hnil Happ] Hbody. induction xs as [|x xs IH]; intros a s.
  - exact Hnil.
  - cbn [for_in]. unfold bind.
    pose proof (Hbody x a s) as H1.
    destruct (body x a s) as [[[a1|e] s1] t1]; [|exact H1].
    pose proof (IH a1 s1) as H2.
    destruct (for_in xs body a1 s1) as [[r2 s2] t2].
    apply Happ; assumption.
Qed.

(** The exact run of lines 218-238: [IndexError] without a frame;
    [FileNotFoundError] from [show_video] when the file is not there, before
    the temporary file is removed; and otherwise a return. The state is
    left as it is. *)
Lemma write_video_run (folder : string) (rate : Rate) (prefix : string) (i : Z)
    (r : Rew) (frames : list Img) (s : Env) :
  write_video folder rate prefix i r frames s =
    match last frames with
    | None => (inr Py.IndexError, s, [EvPrint "Start video writer"])
    | Some frame =>
        if readable (path_div folder ((prefix +:+ "_" +:+ Py.str_int i) +:+ ".mp4")) s
        then (inl tt, s,
              encoding folder rate prefix i r frame frames ++
              [ShowVideo (prefix +:+ "_" +:+ Py.str_int i) folder;
               OsRemove (temp_mp4 folder)])
        else (inr (Py.FileNotFoundError
                     (path_div folder ((prefix +:+ "_" +:+ Py.str_int i) +:+ ".mp4"))),
              s, encoding folder rate prefix i r frame frames)
    end.
Proof.
  pose proof (writer_loop_run Obs Act Aux Rew Done Info Img Rate Env
                cvtColor_RGB2BGR frames s) as Hw.
  unfold Helper.write_video, Helper.show_video, Frames.encoding, ev_print, lift,
    Py.last_item, mbind, M_bind, bind, emit, get, raise in *.
  destruct (last frames) as [frame|]; [|reflexivity].
  destruct (img_shape frame) as [[height width] channels].
  rewrite Hw. cbn [fst snd].
  destruct (readable _ s); cbn; rewrite <- ?app_assoc; reflexivity.
Qed.

(** The exact run of the body of the loop over episodes. *)
Lemma episode_eq (n L : Z) (vr : option Rate) (prefix folder : string) (i : Z)
    (rews : list Rew) (s : Env) :
  episode n L vr prefix folder i rews s =
    match run_episode L vr s with
    | (inl (r, frames), s', tr) =>
        match vr with
        | None => (inl (rews ++ [r]), s', EvPrint (start_message i n) :: tr)
        | Some rate =>
            match write_video folder rate prefix i r frames s' with
            | (inl _, s'', vtr) =>
                (inl (rews ++ [r]), s'', EvPrint (start_message i n) :: tr ++ vtr)
            | (inr e, s'', vtr) =>
                (inr e, s'', EvPrint (start_message i n) :: tr ++ vtr)
            end
        end
    | (inr e, s', tr) => (inr e, s', EvPrint (start_message i n) :: tr)
    end.
Proof.
  unfold Helper.episode, ev_print, mbind, M_bind, mret, M_ret, bind, ret, emit.
  destruct (run_episode L vr s) as [[[[r frames]|e] s'] tr]; [|reflexivity].
  destruct vr as [rate|].
  - destruct (write_video folder rate prefix i r frames s') as [[[[]|e] s''] vtr];
      cbn; now rewrite ?app_nil_r.
  - cbn. now rewrite !app_nil_r.
Qed.

(** The inner loop buffers the rendered frames that have no zero-sized
    dimension, in order, after those it started with. *)
Lemma loop_buffers (vr : option Rate) (xs : list Z) :
  forall obs r frames s obs' r' frames' s' tr,
    for_in xs (episode_step vr) (obs, r, frames) s = (inl (obs', r', frames'), s', tr) ->
    frames' = frames ++ kept (rendered tr).
Proof.
  induction xs as [|x xs IH]; intros obs r frames s obs' r' frames' s' tr.
  - cbn. unfold ret. intros [= <- <- <- <- <-]. cbn. now rewrite app_nil_r.
  - cbn [for_in]. unfold bind at 1. rewrite episode_step_run.
    destruct (model_predict obs true s) as [[action aux] s1].
    destruct (env_step action s1) as [[[[obs1 reward] done] info] s2].
    destruct vr as [rate|].
    + destruct (env_render "rgb_array" s2) as [img s3].
      destruct (for_in xs _ _ s3) as [[[[[o1 r1] f1]|e] s4] tr1] eqn:E; [|discriminate].
      intros [= <- <- <- <- <-]. apply IH in E. subst f1.
      cbn. destruct (zero_in_shape img); cbn; [reflexivity|].
      now rewrite <- app_assoc.
    + destruct (for_in xs _ _ s2) as [[[[[o1 r1] f1]|e] s4] tr1] eqn:E; [|discriminate].
      intros [= <- <- <- <- <-]. apply IH in E. subst f1. reflexivity.
Qed.

Lemma loop_event_projections (tr : list event) :
  Forall loop_event tr ->
  written tr = [] /\ shown tr = [] /\ opened tr = [] /\ removed tr = [].
Proof.
  induction 1 as [|e tr He _ IH]; [repeat split|].
  destruct He as [He|[img ->]]; [destruct e; try discriminate He|]; exact IH.
Qed.

Lemma run_episode_buffers (L : Z) (vr : option Rate) (s : Env) :
  exists r frames s' tr,
    run_episode L vr s = (inl (r, frames), s', tr) /\
    frames = kept (rendered tr) /\
    written tr = [] /\ shown tr = [] /\ opened tr = [] /\ removed tr = [].
Proof.
  destruct (run_episode_run Obs Act Aux Rew Done Info Img Rate Env env_reset
              model_predict env_step env_render img_shape rzero radd L vr s)
    as (obs & frames & s' & tr & Hrun & _ & Hev & _).
  exists (total rzero radd (step_rewards tr)), frames, s', (EnvReset obs :: Tqdm L :: tr).
  split; [exact Hrun|]. split; [|cbn; now apply loop_event_projections].
  revert Hrun.
  unfold Helper.run_episode, reset, mbind, M_bind, bind, emit.
  destruct (env_reset s) as [obs0 s0].
  destruct (for_in _ _ _ s0) as [[[[[o1 r1] f1]|e] s4] tr1] eqn:E; [|discriminate].
  apply loop_buffers in E. cbn. rewrite app_nil_r. intros [= _ <- _ _ <-]. exact E.
Qed.

(** What one pass through the body of the loop over episodes does. *)
Lemma episode_shape (n L : Z) (vr : option Rate) (prefix folder : string) (i : Z)
    (rews : list Rew) (s : Env) :
  exists r frames s' tr,
    run_episode L vr s = (inl (r, frames), s', tr) /\
    frames = kept (rendered tr) /\
    written tr = [] /\ shown tr = [] /\ opened tr = [] /\ removed tr = [] /\
    episode n L vr prefix folder i rews s =
      match vr with
      | None => (inl (rews ++ [r]), s', [EvPrint (start_message i n)] ++ tr)
      | Some rate =>
          match last frames with
          | None =>
              (inr Py.IndexError, s',
               [EvPrint (start_message i n)] ++ tr ++ [EvPrint "Start video writer"])
          | Some frame =>
              if readable
                   (path_div folder ((prefix +:+ "_" +:+ Py.str_int i) +:+ ".mp4")) s'
              then (inl (rews ++ [r]), s',
                    [EvPrint (start_message i n)] ++ tr ++
                    encoding folder rate prefix i r frame frames ++
                    [ShowVideo (prefix +:+ "_" +:+ Py.str_int i) folder;
                     OsRemove (temp_mp4 folder)])
              else (inr (Py.FileNotFoundError
                           (path_div folder
                              ((prefix +:+ "_" +:+ Py.str_int i) +:+ ".mp4"))),
                    s',
                    [EvPrint (start_message i n)] ++ tr ++
                    encoding folder rate prefix i r frame frames)
          end
      end.
Proof.
  destruct (run_episode_buffers L vr s)
    as (r & frames & s' & tr & Hrun & Hk & Hw & Hs & Ho & Hr).
  exists r, frames, s', tr. repeat (split; [assumption|]).
  rewrite episode_eq, Hrun. destruct vr as [rate|]; [|reflexivity].
  rewrite write_video_run. destruct (last frames); [|reflexivity].
  destruct (readable _ s'); reflexivity.
Qed.

(** Without video, nothing is rendered. *)
Lemma run_episode_quiet (L : Z) (s : Env) :
  rendered (trace (run_episode L None s)) = [].
Proof.
  destruct (run_episode_run Obs Act Aux Rew Done Info Img Rate Env env_reset
              model_predict env_step env_render img_shape rzero radd L None s)
    as (obs & frames & s' & tr & -> & _ & _ & Hn).
  destruct (Hn eq_refl) as [_ Hf]. unfold trace. cbn. rewrite <- Hf.
  clear. induction tr as [|e tr IH]; [reflexivity|].
  destruct e; cbn; exact IH.
Qed.

(** [evaluate] in terms of its loop over episodes. *)
Lemma evaluate_eq (n L : Z) (vr : option Rate) (prefix : string) (s : Env) :
  evaluate n L vr prefix s =
    match for_in (Py.range n) (episode n L vr prefix "videos/") [] s with
    | (inl rews, s', tr) =>
        (inl tt, s',
         Makedirs "videos/" true :: tr ++
         [EvPrint (finished_message Rew Mean np_mean str_mean rews)])
    | (inr e, s', tr) => (inr e, s', Makedirs "videos/" true :: tr)
    end.
Proof.
  unfold Helper.evaluate, Helper.evaluate_episodes, ev_print, mbind, M_bind, bind, emit.
  destruct (for_in _ _ _ _) as [[[rews|e] s'] tr]; reflexivity.
Qed.

(** A property of traces that is compositional holds of the trace of
    [evaluate] when it holds of the events around the loop and of the trace
    of each pass through the loop over episodes. *)
Lemma evaluate_trace_ind (P : list event -> Prop) (n L : Z) (vr : option Rate)
    (prefix : string) (s : Env) :
  compositional P ->
  P [Makedirs "videos/" true] ->
  (forall text, P [EvPrint text]) ->
  (forall i rews s0, P (trace (episode n L vr prefix "videos/" i rews s0))) ->
  P (trace (evaluate n L vr prefix s)).
Proof.
  intros Hc Hm Hp He. rewrite evaluate_eq.
  pose proof (for_in_trace P (episode n L vr prefix "videos/") (Py.range n) Hc He [] s)
    as Hloop.
  destruct (for_in _ _ _ s) as [[[rews|e] s'] tr]; unfold trace in *; cbn [snd] in *.
  - change (Makedirs "videos/" true :: tr ++ ?v)
      with ([Makedirs "videos/" true] ++ tr ++ v).
    apply Hc; [exact Hm|]. apply Hc; [exact Hloop | apply Hp].
  - change (Makedirs "videos/" true :: tr) with ([Makedirs "videos/" true] ++ tr).
    apply Hc; [exact Hm | exact Hloop].
Qed.

Lemma projections_app (t1 t2 : list event) :
  rendered (t1 ++ t2) = rendered t1 ++ rendered t2 /\
  written (t1 ++ t2) = written t1 ++ written t2 /\
  shown (t1 ++ t2) = shown t1 ++ shown t2 /\
  opened (t1 ++ t2) = opened t1 ++ opened t2 /\
  removed (t1 ++ t2) = removed t1 ++ removed t2.
Proof. repeat split; apply omap_app. Qed.

(** What the events of the encoding hold. *)
Lemma encoding_projections (folder : string) (rate : Rate) (prefix : string) (i : Z)
    (r : Rew) (frame : Img) (frames : list Img) :
  rendered (encoding folder rate prefix i r frame frames) = [] /\
  written (encoding folder rate prefix i r frame frames) =
    map cvtColor_RGB2BGR frames /\
  shown (encoding folder rate prefix i r frame frames) = [] /\
  opened (encoding folder rate prefix i r frame frames) = [temp_mp4 folder] /\
  removed (encoding folder rate prefix i r frame frames) = [] /\
  List.filter step_or_render (encoding folder rate prefix i r frame frames) = [].
Proof.
  assert (H : forall fs : list Img,
             rendered (map (fun img => WriterWrite (cvtColor_RGB2BGR img) : event) fs) = [] /\
             written (map (fun img => WriterWrite (cvtColor_RGB2BGR img) : event) fs) =
               map cvtColor_RGB2BGR fs /\
             shown (map (fun img => WriterWrite (cvtColor_RGB2BGR img) : event) fs) = [] /\
             opened (map (fun img => WriterWrite (cvtColor_RGB2BGR img) : event) fs) = [] /\
             removed (map (fun img => WriterWrite (cvtColor_RGB2BGR img) : event) fs) = [] /\
             List.filter step_or_render
               (map (fun img => WriterWrite (cvtColor_RGB2BGR img) : event) fs) = []).
  { induction fs as [|f fs (I1 & I2 & I3 & I4 & I5 & I6)]; [repeat split|].
    cbn. unfold written, rendered, shown, opened, removed in *.
    rewrite I1, I2, I3, I4, I5, I6. repeat split. }
  destruct (H frames) as (H1 & H2 & H3 & H4 & H5 & H6).
  unfold Frames.encoding.
  rewrite List.filter_app, List.filter_app, H6.
  rewrite !(proj1 (projections_app _ _)),
    !(proj1 (proj2 (projections_app _ _))),
    !(proj1 (proj2 (proj2 (projections_app _ _)))),
    !(proj1 (proj2 (proj2 (proj2 (projections_app _ _))))),
    !(proj2 (proj2 (proj2 (proj2 (projections_app _ _))))),
    H1, H2, H3, H4, H5.
  cbn. rewrite ?app_nil_r. repeat split.
Qed.

End EvaluateRuns.
(** ** evaluate: frames, videos and temporary files *)

Section EvaluateMore.
Import Helper Frames.
Variables Obs Act Aux Rew Done Info Img Rate Mean : Type.
Variable Env : Type.
Variable env_reset : Env -> Obs * Env.
Variable model_predict : Obs -> bool -> Env -> Act * Aux * Env.
Variable env_step : Act -> Env -> Obs * Rew * Done * Info * Env.
Variable env_render : string -> Env -> Img * Env.
Variable img_shape : Img -> Z * Z * Z.
Variable rzero : Rew.
Variable radd : Rew -> Rew -> Rew.
Variable np_mean : list Rew -> Mean.
Variable str_rew : Rew -> string.
Variable str_mean : Mean -> string.
Variable cvtColor_RGB2BGR : Img -> Img.
Variable path_div : string -> string -> string.
Variable readable : string -> Env -> bool.
Variable rdiv : Rew -> Z -> Mean.

Abbreviation event := (ev_event Obs Act Aux Rew Done Info Img Rate).
Abbreviation episode_step :=
  (Helper.episode_step Obs Act Aux Rew Done Info Img Rate Env model_predict env_step
     env_render img_shape radd).
Abbreviation run_episode :=
  (Helper.run_episode Obs Act Aux Rew Done Info Img Rate Env env_reset model_predict
     env_step env_render img_shape rzero radd).
Abbreviation episode :=
  (Helper.episode Obs Act Aux Rew Done Info Img Rate Env env_reset model_predict
     env_step env_render img_shape rzero radd str_rew cvtColor_RGB2BGR path_div
     readable).
Abbreviation evaluate :=
  (Helper.evaluate Obs Act Aux Rew Done Info Img Rate Mean Env env_reset model_predict
     env_step env_render img_shape rzero radd np_mean str_rew str_mean
     cvtColor_RGB2BGR path_div readable).
Abbreviation straightline :=
  (Helper.straightline Obs Act Aux Rew Done Info Img Rate Mean Env env_reset model_predict
     env_step env_render img_shape rzero radd np_mean str_rew str_mean
     cvtColor_RGB2BGR path_div readable rdiv).
Abbreviation arithmetic_mean := (Helper.arithmetic_mean Rew Mean rzero radd rdiv).
Abbreviation buffered :=
  (Helper.buffered Obs Act Aux Rew Done Info Img Rate Env env_reset model_predict
     env_step env_render img_shape rzero radd).
Abbreviation every_episode_buffers :=
  (Helper.every_episode_buffers Obs Act Aux Rew Done Info Img Rate Env env_reset
     model_predict env_step env_render img_shape rzero radd).
Abbreviation found :=
  (Helper.found Obs Act Aux Rew Done Info Img Rate Env env_reset model_predict
     env_step env_render img_shape rzero radd path_div readable).
Abbreviation every_video_found :=
  (Helper.every_video_found Obs Act Aux Rew Done Info Img Rate Env env_reset
     model_predict env_step env_render img_shape rzero radd path_div readable).
Abbreviation zero_in_shape := (Helper.zero_in_shape Img img_shape).

(** The frames kept by [if 0 not in img.shape]. *)
Abbreviation kept := (List.filter (fun img => negb (zero_in_shape img))).
Abbreviation encoding :=
  (@Frames.encoding Obs Act Aux Rew Done Info Img Rate img_shape str_rew
     cvtColor_RGB2BGR path_div).

(** The same functions when every file that is looked for is there. *)
Abbreviation episode_found :=
  (Helper.episode Obs Act Aux Rew Done Info Img Rate Env env_reset model_predict
     env_step env_render img_shape rzero radd str_rew cvtColor_RGB2BGR path_div
     (fun _ _ => true)).
Abbreviation evaluate_found :=
  (Helper.evaluate Obs Act Aux Rew Done Info Img Rate Mean Env env_reset model_predict
     env_step env_render img_shape rzero radd np_mean str_rew str_mean
     cvtColor_RGB2BGR path_div (fun _ _ => true)).

(** The lemmas on the runs, at the functions of this section. *)
Abbreviation shape :=
  (episode_shape Obs Act Aux Rew Done Info Img Rate Env env_reset model_predict env_step
     env_render img_shape rzero radd str_rew cvtColor_RGB2BGR path_div).
Abbreviation unfolded :=
  (evaluate_eq Obs Act Aux Rew Done Info Img Rate Mean Env env_reset model_predict
     env_step env_render img_shape rzero radd np_mean str_rew str_mean
     cvtColor_RGB2BGR path_div).
Abbreviation by_episodes :=
  (evaluate_trace_ind Obs Act Aux Rew Done Info Img Rate Mean Env env_reset
     model_predict env_step env_render img_shape rzero radd np_mean str_rew str_mean
     cvtColor_RGB2BGR path_div readable).
Abbreviation pass_eq :=
  (episode_eq Obs Act Aux Rew Done Info Img Rate Env env_reset model_predict env_step
     env_render img_shape rzero radd str_rew cvtColor_RGB2BGR path_div).
Abbreviation video_run :=
  (write_video_run Obs Act Aux Rew Done Info Img Rate Env img_shape str_rew
     cvtColor_RGB2BGR path_div).
Abbreviation split_app := (projections_app Obs Act Aux Rew Done Info Img Rate).
Abbreviation of_encoding :=
  (encoding_projections Obs Act Aux Rew Done Info Img Rate img_shape str_rew
     cvtColor_RGB2BGR path_div).

Ltac project :=
  repeat (rewrite (proj1 (split_app _ _)) ||
          rewrite (proj1 (proj2 (split_app _ _))) ||
          rewrite (proj1 (proj2 (proj2 (split_app _ _)))) ||
          rewrite (proj1 (proj2 (proj2 (proj2 (split_app _ _))))) ||
          rewrite (proj2 (proj2 (proj2 (proj2 (split_app _ _)))))).

(** The four ways through the body of the loop over episodes: a video that
    is shown, a video whose file is missing, no frame, and no video. *)
Ltac pass n L vr prefix i rews s0 :=
  destruct (shape readable n L vr prefix "videos/" i rews s0)
    as (r & frames & s' & tr & Hrun & Hk & Hw & Hs & Ho & Hr & ->);
  destruct vr as [rate|];
  [ destruct (last frames) as [frame|] eqn:El;
    [ destruct (of_encoding "videos/" rate prefix i r frame frames)
        as (Er & Ew & Es & Eo & Erm & Esr);
      destruct (readable _ s') eqn:Eread | ] | ].

(** The frames written to the video are the rendered frames that have no
    zero-sized dimension, converted from RGB to BGR, each once and in the
    order of rendering: on every run of [evaluate], in either mode, whether
    it returns or raises. *)
Theorem evaluate_writes_kept_frames (n L : Z) (vr : option Rate) (prefix : string)
    (s : Env) :
  let tr := trace (evaluate n L vr prefix s) in
  written tr = map cvtColor_RGB2BGR (kept (rendered tr)).
Proof.
  cbv zeta.
  apply (by_episodes
           (fun tr => written tr = map cvtColor_RGB2BGR (kept (rendered tr)))).
  - split; [reflexivity|]. intros t1 t2 H1 H2. project.
    now rewrite List.filter_app, map_app, H1, H2.
  - reflexivity.
  - reflexivity.
  - intros i rews s0. pass n L vr prefix i rews s0;
      unfold trace; cbn [snd]; project; rewrite !List.filter_app, Hw, <- Hk.
    + rewrite Er, Ew. cbn. now rewrite !app_nil_r.
    + rewrite Er, Ew. cbn. now rewrite !app_nil_r.
    + apply last_None in El. now rewrite El.
    + pose proof (run_episode_quiet Obs Act Aux Rew Done Info Img Rate Env env_reset
                    model_predict env_step env_render img_shape rzero radd L s0) as Hq.
      rewrite Hrun in Hq. unfold trace in Hq. cbn [snd] in Hq.
      rewrite Hk, Hq. reflexivity.
Qed.

Lemma opened_elem (tr : list event) (f fourcc : string) (fps : Rate) (size : Z * Z) :
  VideoWriter f fourcc fps size ∈ tr -> f ∈ opened tr.
Proof.
  intros H. unfold opened. apply list_elem_of_omap.
  exists (VideoWriter f fourcc fps size). now split.
Qed.

(** Over the loop on episodes: each video shown has its temporary file
    removed, and the one file opened and not removed is that of the episode
    whose video [show_video] did not find. *)
Lemma episodes_files (n L : Z) (vr : option Rate) (prefix : string) (idx : list Z) :
  forall (rews : list Rew) (s : Env),
    let o := for_in idx (episode n L vr prefix "videos/") rews s in
    removed (trace o) = map (fun _ => "videos//temp.mp4") (shown (trace o)) /\
    opened (trace o) =
      removed (trace o) ++
      match result o with
      | inr (Py.FileNotFoundError _) => ["videos//temp.mp4"]
      | _ => []
      end.
Proof.
  cbv zeta. induction idx as [|i idx IH]; intros rews s; [split; reflexivity|].
  cbn [for_in]. unfold bind.
  pass n L vr prefix i rews s.
  - specialize (IH (rews ++ [r]) s').
    destruct (for_in idx _ _ s') as [[res s''] tr'].
    unfold result, trace in *; cbn [fst snd] in *. destruct IH as [IH1 IH2].
    project. rewrite Hr, Ho, Hs, Es, Eo, Erm, IH1, IH2. cbn. rewrite IH1.
    split; reflexivity.
  - unfold result, trace; cbn [fst snd]. project. rewrite Hr, Ho, Hs, Es, Eo, Erm.
    split; reflexivity.
  - unfold result, trace; cbn [fst snd]. project. rewrite Hr, Ho, Hs.
    split; reflexivity.
  - specialize (IH (rews ++ [r]) s').
    destruct (for_in idx _ _ s') as [[res s''] tr'].
    unfold result, trace in *; cbn [fst snd] in *. destruct IH as [IH1 IH2].
    project. rewrite Hr, Ho, Hs, IH1, IH2. cbn. rewrite IH1.
    split; reflexivity.
Qed.

(** The temporary file of the video writer. [os.remove] is the last
    statement of an episode, after [show_video], and nothing guards it: on
    every run of [evaluate] what was removed is videos//temp.mp4 once for
    each video shown, and what [cv2.VideoWriter] opened is what was removed,
    followed by one more videos//temp.mp4, left behind, exactly when the run
    ends with the [FileNotFoundError] of [show_video]. So a run that returns
    has removed what it opened. A writer is opened only in video mode, with
    the codec mp4v, at [video_rate] frames per second, and its size is the
    (width, height) of a frame that was rendered with no zero-sized
    dimension. *)
Theorem evaluate_temp_file_lifecycle (n L : Z) (vr : option Rate) (prefix : string)
    (s : Env) :
  let o := evaluate n L vr prefix s in
  let tr := trace o in
  removed tr = map (fun _ => "videos//temp.mp4") (shown tr) /\
  opened tr =
    removed tr ++
    match result o with
    | inr (Py.FileNotFoundError _) => ["videos//temp.mp4"]
    | _ => []
    end /\
  (result o = inl tt -> removed tr = opened tr) /\
  ((exists path, result o = inr (Py.FileNotFoundError path)) ->
   opened tr = removed tr ++ ["videos//temp.mp4"]) /\
  forall file fourcc fps size,
    VideoWriter file fourcc fps size ∈ tr ->
    vr = Some fps /\ fourcc = "mp4v" /\
    exists img,
      img ∈ rendered tr /\ zero_in_shape img = false /\
      size = ((img_shape img).1.2, (img_shape img).1.1).
Proof.
  cbv zeta.
  assert (Hfiles :
    removed (trace (evaluate n L vr prefix s)) =
      map (fun _ => "videos//temp.mp4") (shown (trace (evaluate n L vr prefix s))) /\
    opened (trace (evaluate n L vr prefix s)) =
      removed (trace (evaluate n L vr prefix s)) ++
      match result (evaluate n L vr prefix s) with
      | inr (Py.FileNotFoundError _) => ["videos//temp.mp4"]
      | _ => []
      end).
  { rewrite unfolded.
    pose proof (episodes_files n L vr prefix (Py.range n) [] s) as H. cbv zeta in H.
    destruct (for_in _ _ _ s) as [[[rews|e] s'] tr];
      unfold result, trace in *; cbn [fst snd] in *; destruct H as [H1 H2].
    - change (Makedirs "videos/" true :: tr ++ ?v)
        with ([Makedirs "videos/" true] ++ tr ++ v).
      project. rewrite H2. cbn. rewrite !app_nil_r. split; [exact H1 | reflexivity].
    - change (Makedirs "videos/" true :: tr) with ([Makedirs "videos/" true] ++ tr).
      project. rewrite H2. cbn. split; [exact H1 | reflexivity]. }
  destruct Hfiles as [Hrem Hop].
  split; [exact Hrem|]. split; [exact Hop|].
  split; [intros Hres; rewrite Hop, Hres; now rewrite app_nil_r|].
  split; [intros [path Hres]; rewrite Hop, Hres; reflexivity|].
  clear Hrem Hop.
  apply (by_episodes
           (fun tr =>
              forall file fourcc fps size,
                VideoWriter file fourcc fps size ∈ tr ->
                vr = Some fps /\ fourcc = "mp4v" /\
                exists img,
                  img ∈ rendered tr /\ zero_in_shape img = false /\
                  size = ((img_shape img).1.2, (img_shape img).1.1))).
  - split; [intros ? ? ? ? H; inversion H|].
    intros t1 t2 V1 V2. project.
    intros file fourcc fps size [H|H]%elem_of_app;
      [destruct (V1 _ _ _ _ H) as (? & ? & img & Hi & ? & ?)
      |destruct (V2 _ _ _ _ H) as (? & ? & img & Hi & ? & ?)];
      (split; [assumption|]; split; [assumption|]; exists img;
       split; [apply elem_of_app; auto | auto]).
  - intros ? ? ? ? H. apply list_elem_of_singleton in H. discriminate H.
  - intros text ? ? ? ? H. apply list_elem_of_singleton in H. discriminate H.
  - intros i rews s0.
    assert (Hwriter : forall (tr : list event) r frames rate frame tail,
               opened tr = [] -> frames = kept (rendered tr) ->
               last frames = Some frame ->
               (forall file fourcc fps size,
                  ~ (VideoWriter file fourcc fps size : event) ∈ tail) ->
               forall file fourcc fps size,
                 VideoWriter file fourcc fps size ∈
                   [EvPrint (start_message i n)] ++ tr ++
                   encoding "videos/" rate prefix i r frame frames ++ tail ->
                 Some rate = Some fps /\ fourcc = "mp4v" /\
                 exists img,
                   img ∈ rendered
                           ([EvPrint (start_message i n)] ++ tr ++
                            encoding "videos/" rate prefix i r frame frames ++ tail) /\
                   zero_in_shape img = false /\
                   size = ((img_shape img).1.2, (img_shape img).1.1)).
    { intros tr r frames rate frame tail Ho Hk El Htail file fourcc fps size H.
      apply elem_of_app in H. destruct H as [H|H];
        [apply list_elem_of_singleton in H; discriminate H|].
      apply elem_of_app in H. destruct H as [H|H];
        [apply opened_elem in H; rewrite Ho in H; inversion H|].
      apply elem_of_app in H. destruct H as [H|H]; [|now apply Htail in H].
      assert (Hv : (VideoWriter file fourcc fps size : event) =
                   VideoWriter (temp_mp4 "videos/") "mp4v" rate
                     ((img_shape frame).1.2, (img_shape frame).1.1)).
      { unfold Frames.encoding in H. cbn in H.
        apply elem_of_cons in H. destruct H as [H|H]; [discriminate H|].
        apply elem_of_cons in H. destruct H as [H|H]; [exact H|].
        apply elem_of_app in H. destruct H as [H|H].
        - apply list_elem_of_fmap in H. destruct H as (img & H & _). discriminate H.
        - repeat (apply elem_of_cons in H; destruct H as [H|H]; [discriminate H|]).
          inversion H. }
      injection Hv as -> -> -> ->.
      split; [reflexivity|]. split; [reflexivity|]. exists frame.
      assert (Hin : frame ∈ frames).
      { apply last_Some in El. destruct El as (l' & ->). apply elem_of_app. right.
        apply list_elem_of_singleton. reflexivity. }
      rewrite Hk in Hin. apply list_elem_of_In, List.filter_In in Hin.
      destruct Hin as [Hin Hz]. apply list_elem_of_In in Hin.
      split.
      { project. apply elem_of_app; right; apply elem_of_app; now left. }
      split; [|reflexivity].
      destruct (zero_in_shape frame); [discriminate Hz | reflexivity]. }
    pass n L vr prefix i rews s0; unfold trace; cbn [snd].
    + apply Hwriter; try assumption.
      intros ? ? ? ? H.
      repeat (apply elem_of_cons in H; destruct H as [H|H]; [discriminate H|]).
      inversion H.
    + intros file fourcc fps size H.
      rewrite <- (app_nil_r (encoding _ _ _ _ _ _ _)) in H.
      rewrite <- (app_nil_r (encoding _ _ _ _ _ _ _)).
      revert H. apply Hwriter; try assumption.
      intros ? ? ? ? H. inversion H.
    + intros file fourcc fps size H.
      apply elem_of_app in H. destruct H as [H|H];
        [apply list_elem_of_singleton in H; discriminate H|].
      apply elem_of_app in H. destruct H as [H|H];
        [apply opened_elem in H; rewrite Ho in H; inversion H|].
      apply list_elem_of_singleton in H. discriminate H.
    + intros file fourcc fps size H.
      apply elem_of_app in H. destruct H as [H|H];
        [apply list_elem_of_singleton in H; discriminate H|].
      apply opened_elem in H. rewrite Ho in H. inversion H.
Qed.

(** Without video the loop over episodes returns. *)
Lemma episodes_quiet_return (n L : Z) (prefix : string) (idx : list Z) :
  forall (rews : list Rew) (s : Env),
    exists rews' s' tr,
      for_in idx (episode n L None prefix "videos/") rews s = (inl rews', s', tr) /\
      shown tr = [].
Proof.
  induction idx as [|i idx IH]; intros rews s.
  - exists rews, s, []. split; reflexivity.
  - cbn [for_in]. unfold bind.
    destruct (shape readable n L None prefix "videos/" i rews s)
      as (r & frames & s' & tr & _ & _ & _ & Hs & _ & _ & ->).
    destruct (IH (rews ++ [r]) s') as (rews' & s'' & tr' & -> & Hs').
    eexists _, _, _. split; [reflexivity|]. project. now rewrite Hs, Hs'.
Qed.

(** The loop over episodes shows the videos of the episodes it completes,
    named by [video_prefix] and the index of the episode. *)
Lemma episodes_shown (n L : Z) (vr : option Rate) (prefix : string) (idx : list Z) :
  forall (rews : list Rew) (s : Env),
    let o := for_in idx (episode n L vr prefix "videos/") rews s in
    let videos := map (fun i => (prefix +:+ "_" +:+ Py.str_int i, "videos/")) idx in
    match result o with
    | inl _ => vr <> None -> shown (trace o) = videos
    | inr _ =>
        exists k, (k < length idx)%nat /\ shown (trace o) = take k videos
    end.
Proof.
  cbv zeta. destruct vr as [rate|].
  - induction idx as [|i idx IH]; intros rews s; [intros _; reflexivity|].
    cbn [for_in]. unfold bind.
    destruct (shape readable n L (Some rate) prefix "videos/" i rews s)
      as (r & frames & s' & tr & _ & _ & _ & Hs & _ & _ & ->).
    destruct (last frames) as [frame|].
    + destruct (of_encoding "videos/" rate prefix i r frame frames)
        as (_ & _ & Es & _).
      destruct (readable _ s').
      * specialize (IH (rews ++ [r]) s').
        destruct (for_in idx _ _ s') as [[[rews'|e] s''] tr'];
          unfold result, trace in *; cbn [fst snd] in *; project; rewrite Hs, Es.
        -- intros Hv. cbn. now rewrite (IH Hv).
        -- destruct IH as (k & Hk & ->). exists (S k).
           split; [cbn; lia | reflexivity].
      * unfold result, trace; cbn [fst snd]. project. rewrite Hs, Es.
        exists 0%nat. split; [cbn; lia | reflexivity].
    + unfold result, trace; cbn [fst snd]. project. rewrite Hs.
      exists 0%nat. split; [cbn; lia | reflexivity].
  - intros rews s.
    destruct (episodes_quiet_return n L prefix idx rews s) as (rews' & s' & tr & -> & _).
    unfold result. cbn [fst]. intros Hv. contradiction.
Qed.

(** In video mode a run of [evaluate] that returns has shown one video per
    episode, in the order of the episodes, each named [video_prefix], an
    underscore and the index of the episode, in the folder videos/. A run
    that raises has shown the videos of the episodes before the failing one,
    fewer than [n_eval_episodes]. *)
Theorem evaluate_shows_each_episode (n L : Z) (vr : option Rate) (prefix : string)
    (s : Env) :
  let o := evaluate n L vr prefix s in
  let videos :=
    map (fun i => (prefix +:+ "_" +:+ Py.str_int i, "videos/")) (Py.range n) in
  (forall rate, vr = Some rate -> result o = inl tt -> shown (trace o) = videos) /\
  (forall e, result o = inr e ->
     exists k, (k < Z.to_nat n)%nat /\ shown (trace o) = take k videos).
Proof.
  cbv zeta. rewrite unfolded.
  pose proof (episodes_shown n L vr prefix (Py.range n) [] s) as H. cbv zeta in H.
  destruct (for_in _ _ _ s) as [[[rews|e] s'] tr];
    unfold result, trace in *; cbn [fst snd] in *.
  - split; [|discriminate]. intros rate -> _.
    change (Makedirs "videos/" true :: tr ++ ?v)
      with ([Makedirs "videos/" true] ++ tr ++ v).
    project. rewrite H by discriminate. cbn. now rewrite app_nil_r.
  - split; [discriminate|]. intros e' _.
    destruct H as (k & Hk & H). rewrite range_length in Hk.
    exists k. split; [exact Hk|]. exact H.
Qed.

(** With [n_eval_episodes <= 0] the loop over episodes has no iteration:
    [evaluate] creates the folder, prints the mean of the empty list of
    rewards and returns, in either mode, without a call on the environment
    or the model. *)
Theorem evaluate_no_episodes (n L : Z) (vr : option Rate) (prefix : string) (s : Env) :
  n <= 0 ->
  evaluate n L vr prefix s =
    (inl tt, s,
     [Makedirs "videos/" true;
      EvPrint (finished_message Rew Mean np_mean str_mean [])]).
Proof.
  intros Hn. rewrite unfolded. unfold Py.range.
  replace (Z.to_nat n) with 0%nat by lia. reflexivity.
Qed.

Lemma rendered_after_app (t1 t2 : list event) :
  rendered_after_each_step t1 -> rendered_after_each_step t2 ->
  rendered_after_each_step (t1 ++ t2).
Proof. induction 1; intros H2; [exact H2|]. cbn. constructor. auto. Qed.

(** In video mode every [env.step] is followed by one
    [env.render("rgb_array")] before the next step, and nothing is rendered
    otherwise: steps and renders alternate over the whole run. *)
Theorem evaluate_renders_after_each_step (n L : Z) (rate : Rate) (prefix : string)
    (s : Env) :
  rendered_after_each_step
    (List.filter step_or_render (trace (evaluate n L (Some rate) prefix s))).
Proof.
  set (P := fun tr : list event =>
              rendered_after_each_step (List.filter step_or_render tr)).
  assert (Hc : compositional P).
  { split; [constructor|]. unfold P. intros t1 t2 H1 H2.
    rewrite List.filter_app. now apply rendered_after_app. }
  apply (by_episodes P); [exact Hc | constructor | constructor |].
  intros i rews s0.
  assert (Hrun : P (trace (run_episode L (Some rate) s0))).
  { unfold Helper.run_episode, reset, mbind, M_bind, bind, emit.
    destruct (env_reset s0) as [obs s1].
    pose proof (for_in_trace Obs Act Aux Rew Done Info Img Rate Env P
                  (episode_step (Some rate)) (Py.range L) Hc) as Hloop.
    specialize (Hloop ltac:(
      intros x [[o r] f] s2; rewrite episode_step_run;
      destruct (model_predict o true s2) as [[action aux] s3];
      destruct (env_step action s3) as [[[[obs' reward] done] info] s4];
      destruct (env_render "rgb_array" s4) as [img s5];
      unfold P, trace; cbn; repeat constructor) (obs, rzero, []) s1).
    destruct (for_in _ _ _ s1) as [[[[[o1 r1] f1]|e] s2] tr]; unfold trace in *;
      cbn in *; rewrite ?app_nil_r; exact Hloop. }
  destruct (shape readable n L (Some rate) prefix "videos/" i rews s0)
    as (r & frames & s' & tr & Hr & _ & _ & _ & _ & _ & ->).
  rewrite Hr in Hrun. unfold trace in Hrun. cbn [snd] in Hrun.
  assert (Henc : forall frame,
             P (encoding "videos/" rate prefix i r frame frames)).
  { intros frame. unfold P.
    destruct (of_encoding "videos/" rate prefix i r frame frames)
      as (_ & _ & _ & _ & _ & ->). constructor. }
  destruct (last frames) as [frame|]; [destruct (readable _ s')|];
    unfold trace; cbn [snd];
    (apply Hc; [constructor|]); (apply Hc; [exact Hrun|]).
  - apply Hc; [apply Henc | constructor].
  - apply Henc.
  - constructor.
Qed.

Lemma append_assoc (a b c : string) : (a +:+ b) +:+ c = a +:+ b +:+ c.
Proof.
  induction a as [|x a IH]; [reflexivity|].
  change (String x a +:+ b) with (String x (a +:+ b)).
  change (String x ?u +:+ ?v) with (String x (u +:+ v)). now rewrite IH.
Qed.

(** The command of line 231, as the command of [encode_command]. *)
Lemma ffmpeg_command_encodes (prefix : string) (i : Z) :
  path_div "videos/" ((prefix +:+ "_" +:+ Py.str_int i) +:+ ".mp4") =
  path_div "videos/" (prefix +:+ "_" +:+ Py.str_int i) +:+ ".mp4" ->
  ffmpeg_command "videos/" (path_div "videos/" (prefix +:+ "_" +:+ Py.str_int i))
    prefix i =
  encode_command "videos//temp.mp4"
    (path_div "videos/" ((prefix +:+ "_" +:+ Py.str_int i) +:+ ".mp4"))
    ("/tmp/ffmpeg_" +:+ (prefix +:+ "_" +:+ Py.str_int i) +:+ ".txt").
Proof.
  intros ->. unfold ffmpeg_command, encode_command.
  rewrite !append_assoc. reflexivity.
Qed.

(** When the loop over episodes ends with the [FileNotFoundError] of
    [show_video], the last two events are the ffmpeg command whose text
    names the missing file as its output, and the announcing print. *)
Lemma episodes_missing (n L : Z) (vr : option Rate) (prefix : string) (idx : list Z) :
  (forall i,
     path_div "videos/" ((prefix +:+ "_" +:+ Py.str_int i) +:+ ".mp4") =
     path_div "videos/" (prefix +:+ "_" +:+ Py.str_int i) +:+ ".mp4") ->
  forall (rews : list Rew) (s : Env) (path : string),
    let o := for_in idx (episode n L vr prefix "videos/") rews s in
    result o = inr (Py.FileNotFoundError path) ->
    exists before file text,
      path = path_div "videos/" (file +:+ ".mp4") /\
      trace o =
        before ++
        [EvOsSystem
           (encode_command "videos//temp.mp4" path ("/tmp/ffmpeg_" +:+ file +:+ ".txt"));
         EvPrint text].
Proof.
  intros Hpath. cbv zeta. induction idx as [|i idx IH]; intros rews s path;
    [discriminate|].
  cbn [for_in]. unfold bind.
  pass n L vr prefix i rews s.
  - specialize (IH (rews ++ [r]) s' path).
    destruct (for_in idx _ _ s') as [[res s''] tr'].
    unfold result, trace in *; cbn [fst snd] in *. intros Hres.
    destruct (IH Hres) as (before & file & text & Hp & ->).
    match goal with
    | |- exists _ _ _, _ /\ ?t1 ++ _ = _ => exists (t1 ++ before), file, text
    end.
    split; [exact Hp | apply app_assoc].
  - unfold result, trace; cbn [fst snd]. intros [= <-].
    eexists (([EvPrint (start_message i n)] ++ tr ++
              [EvPrint "Start video writer";
               VideoWriter (temp_mp4 "videos/") "mp4v" rate
                 ((img_shape frame).1.2, (img_shape frame).1.1)] ++
              map (fun img => WriterWrite (cvtColor_RGB2BGR img)) frames) ++
             [WriterRelease]),
      (prefix +:+ "_" +:+ Py.str_int i), (showing_message str_rew i r).
    split; [reflexivity|].
    unfold Frames.encoding. rewrite (ffmpeg_command_encodes prefix i (Hpath i)).
    rewrite <- !app_assoc. reflexivity.
  - unfold result; cbn [fst]. discriminate.
  - specialize (IH (rews ++ [r]) s' path).
    destruct (for_in idx _ _ s') as [[res s''] tr'].
    unfold result, trace in *; cbn [fst snd] in *. intros Hres.
    destruct (IH Hres) as (before & file & text & Hp & ->).
    match goal with
    | |- exists _ _ _, _ /\ ?t1 ++ _ = _ => exists (t1 ++ before), file, text
    end.
    split; [exact Hp | apply app_assoc].
Qed.

(** [evaluate] and [show_video] agree on the text of the path: when joining
    the folder with a name and then appending .mp4 gives the path that
    joining the folder with the name followed by .mp4 gives, each call of
    [show_video] comes right after the call of [os.system] whose command
    text is ffmpeg encoding videos//temp.mp4 with, as the text of its
    output, the path that [show_video] opens, and as the text of its log
    /tmp/ffmpeg_ followed by the name of the video and .txt, and after the
    print that announces the episode. A run that ends with the
    [FileNotFoundError] of [show_video] ends with such a command, naming the
    missing path, and the print. The command is one unquoted string: this is
    about its text, not about what a shell makes of it, and the exit status
    of the command is not looked at. *)
Theorem evaluate_shows_encoded_video (n L : Z) (vr : option Rate) (prefix : string)
    (s : Env) :
  (forall i,
     path_div "videos/" ((prefix +:+ "_" +:+ Py.str_int i) +:+ ".mp4") =
     path_div "videos/" (prefix +:+ "_" +:+ Py.str_int i) +:+ ".mp4") ->
  let o := evaluate n L vr prefix s in
  (forall file folder,
     ShowVideo file folder ∈ trace o ->
     exists before text after,
       trace o =
         before ++
         [EvOsSystem
            (encode_command "videos//temp.mp4" (path_div folder (file +:+ ".mp4"))
               ("/tmp/ffmpeg_" +:+ file +:+ ".txt"));
          EvPrint text;
          ShowVideo file folder] ++ after) /\
  (forall path,
     result o = inr (Py.FileNotFoundError path) ->
     exists before file text,
       path = path_div "videos/" (file +:+ ".mp4") /\
       trace o =
         before ++
         [EvOsSystem
            (encode_command "videos//temp.mp4" path ("/tmp/ffmpeg_" +:+ file +:+ ".txt"));
          EvPrint text]).
Proof.
  intros Hpath. cbv zeta. split.
  - apply (by_episodes
             (fun tr =>
                forall file folder,
                  ShowVideo file folder ∈ tr ->
                  exists before text after,
                    tr =
                      before ++
                      [EvOsSystem
                         (encode_command "videos//temp.mp4"
                            (path_div folder (file +:+ ".mp4"))
                            ("/tmp/ffmpeg_" +:+ file +:+ ".txt"));
                       EvPrint text;
                       ShowVideo file folder] ++ after)).
    + split; [intros ? ? H; inversion H|].
      intros t1 t2 H1 H2 file folder [H|H]%elem_of_app.
      * destruct (H1 _ _ H) as (before & text & after & ->).
        exists before, text, (after ++ t2). now rewrite <- !app_assoc.
      * destruct (H2 _ _ H) as (before & text & after & ->).
        exists (t1 ++ before), text, after. now rewrite <- !app_assoc.
    + intros ? ? H. apply list_elem_of_singleton in H. discriminate H.
    + intros text ? ? H. apply list_elem_of_singleton in H. discriminate H.
    + intros i rews s0 file folder.
      assert (Hshown : forall tr : list event,
                 ShowVideo file folder ∈ tr -> (file, folder) ∈ shown tr).
      { intros tr0 H. unfold shown. apply list_elem_of_omap.
        exists (ShowVideo file folder). now split. }
      pass n L vr prefix i rews s0; unfold trace; cbn [snd]; intros H.
      * apply Hshown in H. revert H. project. rewrite Hs, Es. cbn.
        intros H. apply list_elem_of_singleton in H. injection H as -> ->.
        eexists (([EvPrint (start_message i n)] ++ tr ++
                  [EvPrint "Start video writer";
                   VideoWriter (temp_mp4 "videos/") "mp4v" rate
                     ((img_shape frame).1.2, (img_shape frame).1.1)] ++
                  map (fun img => WriterWrite (cvtColor_RGB2BGR img)) frames) ++
                 [WriterRelease]),
          (showing_message str_rew i r), [OsRemove (temp_mp4 "videos/")].
        unfold Frames.encoding. rewrite (ffmpeg_command_encodes prefix i (Hpath i)).
        rewrite <- !app_assoc. reflexivity.
      * apply Hshown in H. revert H. project. rewrite Hs, Es. cbn.
        intros H. inversion H.
      * apply Hshown in H. revert H. project. rewrite Hs. cbn.
        intros H. inversion H.
      * apply Hshown in H. revert H. project. rewrite Hs. cbn.
        intros H. inversion H.
  - intros path. rewrite unfolded.
    pose proof (episodes_missing n L vr prefix (Py.range n) Hpath [] s path) as H.
    cbv zeta in H.
    destruct (for_in _ _ _ s) as [[[rews|e] s'] tr];
      unfold result, trace in *; cbn [fst snd] in *; [discriminate|].
    intros [= ->]. destruct (H eq_refl) as (before & file & text & Hp & ->).
    exists (Makedirs "videos/" true :: before), file, text.
    split; [exact Hp | reflexivity].
Qed.

(** *** From the run in which every file is found to every run *)

(** One pass through the loop over episodes is the pass that finds its file,
    when the file is there after the steps of the episode. *)
Lemma episode_found_same (n L : Z) (vr : option Rate) (prefix : string) (i : Z)
    (rews : list Rew) (s : Env) :
  vr = None \/
  readable (path_div "videos/" ((prefix +:+ "_" +:+ Py.str_int i) +:+ ".mp4"))
    (final (run_episode L vr s)) = true ->
  episode n L vr prefix "videos/" i rews s =
  episode_found n L vr prefix "videos/" i rews s.
Proof.
  intros H. rewrite (pass_eq readable), (pass_eq (fun _ _ => true)).
  unfold final in H.
  destruct (run_episode L vr s) as [[[[r frames]|e] s'] tr]; [|reflexivity].
  destruct vr as [rate|]; [|reflexivity].
  destruct H as [H|H]; [discriminate H|]. cbn [fst snd] in H.
  rewrite (video_run readable), (video_run (fun _ _ => true)).
  destruct (last frames) as [frame|]; [|reflexivity].
  rewrite H. reflexivity.
Qed.

(** A pass that returns is the pass that finds its file. *)
Lemma episode_returns_found (n L : Z) (vr : option Rate) (prefix : string) (i : Z)
    (rews rews' : list Rew) (s s' : Env) (tr : list event) :
  episode n L vr prefix "videos/" i rews s = (inl rews', s', tr) ->
  episode_found n L vr prefix "videos/" i rews s = (inl rews', s', tr).
Proof.
  rewrite (pass_eq readable), (pass_eq (fun _ _ => true)).
  destruct (run_episode L vr s) as [[[[r frames]|e] s1] tr1]; [|discriminate].
  destruct vr as [rate|]; [|exact (fun H => H)].
  rewrite (video_run readable), (video_run (fun _ _ => true)).
  destruct (last frames) as [frame|]; [|discriminate].
  destruct (readable _ s1); [exact (fun H => H) | discriminate].
Qed.

(** The state after a pass that finds its file is the state after the steps
    of the episode. *)
Lemma episode_found_final (n L : Z) (vr : option Rate) (prefix : string) (i : Z)
    (rews : list Rew) (s : Env) :
  final (episode_found n L vr prefix "videos/" i rews s) = final (run_episode L vr s).
Proof.
  rewrite (pass_eq (fun _ _ => true)). unfold final.
  destruct (run_episode L vr s) as [[[[r frames]|e] s1] tr1]; [|reflexivity].
  destruct vr as [rate|]; [|reflexivity].
  rewrite (video_run (fun _ _ => true)).
  destruct (last frames) as [frame|]; reflexivity.
Qed.

Lemma episodes_found_same (n L : Z) (vr : option Rate) (prefix : string) (k : nat) :
  forall (a : nat) (rews : list Rew) (s : Env),
    vr = None \/
    Forall (fun there => there = true) (found k (Z.of_nat a) L vr prefix s) ->
    for_in (map Z.of_nat (seq a k)) (episode n L vr prefix "videos/") rews s =
    for_in (map Z.of_nat (seq a k)) (episode_found n L vr prefix "videos/") rews s.
Proof.
  induction k as [|k IH]; intros a rews s H; [reflexivity|].
  cbn [seq map for_in]. unfold bind.
  pose proof (episode_found_final n L vr prefix (Z.of_nat a) rews s) as Hfin.
  destruct (run_episode_buffers Obs Act Aux Rew Done Info Img Rate Env env_reset
              model_predict env_step env_render img_shape rzero radd L vr s)
    as (r & frames & s' & tr & Hrun & _).
  assert (Hpre :
            (vr = None \/
             readable
               (path_div "videos/"
                  ((prefix +:+ "_" +:+ Py.str_int (Z.of_nat a)) +:+ ".mp4"))
               (final (run_episode L vr s)) = true) /\
            (vr = None \/
             Forall (fun there => there = true)
               (found k (Z.of_nat (S a)) L vr prefix s'))).
  { destruct H as [H|H]; [split; now left|].
    cbn [Helper.found] in H. rewrite Hrun in H. apply Forall_cons in H.
    destruct H as [H1 H2]. split; right.
    - rewrite Hrun. exact H1.
    - replace (Z.of_nat (S a)) with (Z.of_nat a + 1) by lia. exact H2. }
  destruct Hpre as [Hhead Htail].
  rewrite (episode_found_same n L vr prefix (Z.of_nat a) rews s Hhead).
  rewrite Hrun in Hfin. unfold final in Hfin.
  destruct (episode_found n L vr prefix "videos/" (Z.of_nat a) rews s)
    as [[[rews1|e] s1] tr1]; [|reflexivity].
  cbn [fst snd] in Hfin. subst s1.
  rewrite (IH (S a) rews1 s' Htail). reflexivity.
Qed.

Lemma episodes_return_found (n L : Z) (vr : option Rate) (prefix : string)
    (idx : list Z) :
  forall (rews rews' : list Rew) (s s' : Env) (tr : list event),
    for_in idx (episode n L vr prefix "videos/") rews s = (inl rews', s', tr) ->
    for_in idx (episode_found n L vr prefix "videos/") rews s = (inl rews', s', tr).
Proof.
  induction idx as [|i idx IH]; intros rews rews' s s' tr; [exact (fun H => H)|].
  cbn [for_in]. unfold bind.
  destruct (episode n L vr prefix "videos/" i rews s) as [[[rews1|e] s1] tr1] eqn:E;
    [|discriminate].
  rewrite (episode_returns_found _ _ _ _ _ _ _ _ _ _ E).
  destruct (for_in idx (episode n L vr prefix "videos/") rews1 s1)
    as [[[rews2|e] s2] tr2] eqn:E2; [|discriminate].
  rewrite (IH _ _ _ _ _ E2). exact (fun H => H).
Qed.

(** [evaluate] is the run in which every file is found, without video and
    when [show_video] finds the file of every episode. *)
Lemma evaluate_found_same (n L : Z) (vr : option Rate) (prefix : string) (s : Env) :
  vr = None \/ every_video_found n L vr prefix s ->
  evaluate n L vr prefix s = evaluate_found n L vr prefix s.
Proof.
  intros H. rewrite (unfolded readable), (unfolded (fun _ _ => true)).
  unfold Py.range.
  rewrite (episodes_found_same n L vr prefix (Z.to_nat n) 0 [] s H). reflexivity.
Qed.

(** A run of [evaluate] that returns is the run in which every file is
    found. *)
Lemma evaluate_returns_found (n L : Z) (vr : option Rate) (prefix : string) (s : Env) :
  result (evaluate n L vr prefix s) = inl tt ->
  evaluate n L vr prefix s = evaluate_found n L vr prefix s.
Proof.
  rewrite (unfolded readable), (unfolded (fun _ _ => true)).
  destruct (for_in (Py.range n) (episode n L vr prefix "videos/") [] s)
    as [[[rews|e] s'] tr] eqn:E; [|discriminate].
  intros _. rewrite (episodes_return_found _ _ _ _ _ _ _ _ _ _ E). reflexivity.
Qed.


(** C6. With [video_rate = None], [evaluate] returns normally and its
    events are the creation of the folder videos/ followed only by console
    output and by the calls that drive the environment and the model: no
    render, and no call that creates, writes, shows or removes a video file.
    In both modes the reward of an episode is the sum, from [0], of the
    rewards its steps returned. When rendering leaves the state of the
    environment and the model as it is, a run in video mode that returns
    normally makes the same driving calls, ends in the same state and prints
    the same mean as the run with [video_rate = None]. *)
Theorem evaluate_video_gating (n L : Z) (prefix : string) (s : Env) :
  let o := evaluate n L None prefix s in
  result o = inl tt /\
  (exists tr,
     trace o = Makedirs "videos/" true :: tr /\
     Forall (fun e => printing e = true \/ interaction e = true) tr) /\
  Forall (fun e => video e = false) (trace o) /\
  (forall vr s0,
     exists r img_array s1 tr,
       run_episode L vr s0 = (inl (r, img_array), s1, tr) /\
       r = total rzero radd (step_rewards tr)) /\
  ((forall mode s0, (env_render mode s0).2 = s0) ->
   forall rate,
     let v := evaluate n L (Some rate) prefix s in
     result v = inl tt ->
     final v = final o /\
     List.filter interaction (trace v) = List.filter interaction (trace o) /\
     last (trace v) = last (trace o)).
Proof.
  cbv zeta. rewrite (evaluate_found_same n L None prefix s) by now left.
  destruct (evaluate_found_gating Obs Act Aux Rew Done Info Img Rate Mean Env
              env_reset model_predict env_step env_render img_shape rzero radd
              np_mean str_rew str_mean cvtColor_RGB2BGR path_div n L prefix s)
    as (H1 & H2 & H3 & H4 & H5).
  split; [exact H1|]. split; [exact H2|]. split; [exact H3|]. split; [exact H4|].
  intros Hpure rate Hres.
  pose proof (evaluate_returns_found _ _ _ _ _ Hres) as E. rewrite E in Hres |- *.
  exact (H5 Hpure rate Hres).
Qed.

(** A loop over episodes that returns in video mode has found the file of
    every episode. *)
Lemma episodes_return_all_found (n L : Z) (rate : Rate) (prefix : string) (k : nat) :
  forall (a : nat) (rews rews' : list Rew) (s s' : Env) (tr : list event),
    for_in (map Z.of_nat (seq a k)) (episode n L (Some rate) prefix "videos/") rews s =
      (inl rews', s', tr) ->
    Forall (fun there => there = true) (found k (Z.of_nat a) L (Some rate) prefix s).
Proof.
  induction k as [|k IH]; intros a rews rews' s s' tr; [constructor|].
  cbn [seq map for_in Helper.found]. unfold bind. rewrite (pass_eq readable).
  destruct (run_episode L (Some rate) s) as [[[[r frames]|e] s1] tr1]; [|discriminate].
  rewrite (video_run readable).
  destruct (last frames) as [frame|]; [|discriminate].
  destruct (readable _ s1); [|discriminate].
  destruct (for_in (map Z.of_nat (seq (S a) k)) _ _ s1) as [[[rews2|e] s2] tr2] eqn:E;
    [|discriminate].
  intros _. apply Forall_cons. split; [reflexivity|].
  replace (Z.of_nat a + 1) with (Z.of_nat (S a)) by lia.
  exact (IH _ _ _ _ _ _ E).
Qed.

(** The loop over episodes raises nothing but the [IndexError] of
    [img_array[-1]] and the [FileNotFoundError] of [show_video]. *)
Lemma episodes_raise (n L : Z) (vr : option Rate) (prefix : string) (idx : list Z) :
  forall (rews : list Rew) (s : Env) (e : Py.exn),
    result (for_in idx (episode n L vr prefix "videos/") rews s) = inr e ->
    e = Py.IndexError \/ exists path, e = Py.FileNotFoundError path.
Proof.
  induction idx as [|i idx IH]; intros rews s e; [discriminate|].
  cbn [for_in]. unfold bind.
  pass n L vr prefix i rews s.
  - specialize (IH (rews ++ [r]) s' e).
    destruct (for_in idx _ _ s') as [[res s''] tr']. exact IH.
  - unfold result; cbn [fst]. intros [= <-]. right. eexists. reflexivity.
  - unfold result; cbn [fst]. intros [= <-]. now left.
  - specialize (IH (rews ++ [r]) s' e).
    destruct (for_in idx _ _ s') as [[res s''] tr']. exact IH.
Qed.

(** How [evaluate] ends in video mode, on every run. It returns normally
    exactly when every episode buffers at least one frame and [show_video]
    finds the encoded file of every episode. It raises nothing but the
    [IndexError] of [img_array[-1]] and the [FileNotFoundError] of
    [show_video]. When there is an episode to run and [episode_length] is not
    positive, or every rendered frame has a zero-sized dimension, it raises
    [IndexError] before any event on a video file, whether files would be
    found or not. *)
Theorem evaluate_video_outcomes (n L : Z) (rate : Rate) (prefix : string) (s : Env) :
  let o := evaluate n L (Some rate) prefix s in
  (result o = inl tt <->
   every_episode_buffers n L (Some rate) s /\
   every_video_found n L (Some rate) prefix s) /\
  (forall e,
     result o = inr e ->
     e = Py.IndexError \/ exists path, e = Py.FileNotFoundError path) /\
  (0 < n ->
   L <= 0 \/ (forall mode s', zero_in_shape (env_render mode s').1 = true) ->
   result o = inr Py.IndexError /\
   Forall (fun e => file_event e = false) (trace o)).
Proof.
  cbv zeta. split; [split|split].
  - intros Hres. split.
    + pose proof (evaluate_returns_found _ _ _ _ _ Hres) as E. rewrite E in Hres.
      unfold Helper.every_episode_buffers.
      destruct (buffers_dec Img (buffered (Z.to_nat n) L (Some rate) s)) as [H|H];
        [exact H|].
      rewrite <- range_length in H.
      destruct (episodes_fail Obs Act Aux Rew Done Info Img Rate Env env_reset
                  model_predict env_step env_render img_shape rzero radd str_rew
                  cvtColor_RGB2BGR path_div n L rate prefix "videos/" (Py.range n)
                  [] s H)
        as (s' & before & i & obs & tr & Hrun & _).
      rewrite (unfolded (fun _ _ => true)), Hrun in Hres. discriminate Hres.
    + revert Hres. rewrite (unfolded readable). unfold Py.range.
      destruct (for_in (map Z.of_nat (seq 0 (Z.to_nat n))) _ [] s)
        as [[[rews|e] s'] tr] eqn:E; [|discriminate].
      intros _. exact (episodes_return_all_found _ _ _ _ _ _ _ _ _ _ _ E).
  - intros [Hb Hf]. rewrite evaluate_found_same by now right.
    exact (proj1 (evaluate_found_straightline Obs Act Aux Rew Done Info Img Rate Mean
                    Env env_reset model_predict env_step env_render img_shape rzero
                    radd np_mean str_rew str_mean cvtColor_RGB2BGR path_div n L
                    (Some rate) prefix s (or_intror Hb))).
  - intros e. rewrite (unfolded readable).
    pose proof (episodes_raise n L (Some rate) prefix (Py.range n) [] s e) as H.
    destruct (for_in (Py.range n) _ [] s) as [[[rews|e'] s'] tr];
      unfold result in *; cbn [fst] in *; [discriminate|].
    intros [= ->]. exact (H eq_refl).
  - intros Hn Hc. rewrite (unfolded readable). unfold Py.range.
    destruct (Z.to_nat n) as [|k] eqn:Ek; [lia|].
    cbn [seq map for_in]. unfold bind.
    destruct (run_episode_no_frames Obs Act Aux Rew Done Info Img Rate Env env_reset
                model_predict env_step env_render img_shape rzero radd L (Some rate)
                s Hc) as (r0 & s0 & tr0 & Hrun0).
    destruct (run_episode_run Obs Act Aux Rew Done Info Img Rate Env env_reset
                model_predict env_step env_render img_shape rzero radd L (Some rate) s)
      as (obs & frames & s1 & tr1 & Hrun1 & _ & Hev & _).
    rewrite (pass_eq readable), Hrun1. rewrite Hrun1 in Hrun0.
    injection Hrun0 as _ -> _ _.
    rewrite (video_run readable). cbn [last].
    unfold result, trace. cbn [fst snd]. split; [reflexivity|].
    repeat (apply Forall_cons; split; [reflexivity|]).
    apply Forall_app. split; [now apply loop_event_no_file|].
    now repeat constructor.
Qed.

End EvaluateMore.

(** ** The theorems at concrete inputs *)

Section Concrete.
Import Helper Examples.

(** On Colab without eagerx_gui, with every command succeeding, the
    bootstrap is achieved. *)
Lemma setup_notebook_bootstraps_witness :
  commands_succeed (trace (colab_setup spawn_ok fresh)) /\ colab_bootstraps spawn_ok.
Proof.
  assert (H : commands_succeed (trace (colab_setup spawn_ok fresh))).
  { vm_compute. repeat constructor. }
  split; [exact H|].
  exact (proj1 (setup_notebook_bootstraps unit spawn_ok unchanged on_colab
                  not_importable unchanged fresh) H).
Defined.

(** On Colab without eagerx_gui, when apt-get exits with status 100,
    [setup_notebook] raises after the first command: Xvfb is not started and
    EAGERX_RELOAD is not set, so the bootstrap is not achieved. *)
Lemma setup_notebook_failing_command_raises :
  result (colab_setup spawn_failing fresh) =
    inr (Py.CalledProcessError 100 [cmd_display] "E: Unable to locate package xvfb") /\
  environ (final (colab_setup spawn_failing fresh)) !! "EAGERX_RELOAD" = None /\
  ~ colab_bootstraps spawn_failing.
Proof.
  split; [reflexivity|]. split; [reflexivity|].
  intros (_ & _ & H & _). vm_compute in H. discriminate H.
Qed.

(** A failing command whose output is text makes [run_command] raise its
    [CalledProcessError]. *)
Lemma run_command_reraises_failure_witness :
  Py.has_nul "apt-get install xvfb" = false /\
  decode_ascii [69; 58; 32; 120] = Some "E: x" /\
  100 <> 0 /\
  run_command unit (list Z) spawn_text_bytes decode_ascii "apt-get install xvfb"
    STDOUT fresh =
    (inr (Py.CalledProcessError 100 ["apt-get install xvfb"] "E: x"), fresh,
     [CheckOutput ["apt-get install xvfb"] STDOUT 100 "E: x";
      PrintTo Stderr (error_message 100 "apt-get install xvfb" "E: x")]).
Proof.
  assert (Hn : Py.has_nul "apt-get install xvfb" = false) by reflexivity.
  assert (Hd : decode_ascii [69; 58; 32; 120] = Some "E: x") by reflexivity.
  assert (Hr : 100 <> 0) by discriminate.
  split; [exact Hn|]. split; [exact Hd|]. split; [exact Hr|].
  destruct (run_command_reraises_failure unit (list Z) spawn_text_bytes decode_ascii
              "apt-get install xvfb" STDOUT fresh) as (_ & _ & _ & H & _).
  exact (proj1 (proj1 (H Hn "E: x" Hd) Hr)).
Defined.

(** A command that exits with status 0 after printing a byte that is not
    text makes [run_command] raise all the same: [UnicodeDecodeError], which
    its [except] clause does not catch; and so does a command that holds a
    NUL character, which is never run. *)
Lemma run_command_undecodable_output_raises :
  (spawn_bytes ["cat blob"] STDOUT tt).1.1 = 0 /\
  run_command unit (list Z) spawn_bytes decode_ascii "cat blob" STDOUT fresh =
    (inr Py.UnicodeDecodeError, fresh, [Undecodable ["cat blob"] STDOUT]) /\
  run_command unit (list Z) spawn_bytes decode_ascii
    (String zero "true") STDOUT fresh =
    (inr (Py.ValueError "embedded null byte"), fresh, []).
Proof. repeat split. Qed.

(** A recorder that reports nothing but the observation is driven through
    the same calls. *)
Lemma record_video_drives_recorder_witness :
  (forall a s, obs_and_state (toy_step a s) = obs_and_state (toy_silent_step a s)) /\
  map rv_forget (trace (toy_record_video 3 0)) =
    map rv_forget (trace (toy_silent_record_video 3 0)).
Proof.
  assert (H : forall a s,
             obs_and_state (toy_step a s) = obs_and_state (toy_silent_step a s))
    by reflexivity.
  split; [exact H|].
  destruct (record_video_drives_recorder Z Z unit Z bool unit Z toy_wrap toy_recorder
              toy_reset toy_predict toy_step toy_wrap 3 "demo" "videos/" 0)
    as (_ & _ & _ & Hd).
  exact (proj1 (Hd unit unit unit toy_silent_step H)).
Defined.

Example record_video_three_steps :
  toy_record_video 3 0 =
    (inl tt, 3,
     [RvDummyVecEnv;
      RvVecVideoRecorder
        (RecorderConfig "videos/" (fun step => bool_decide (step = 0)) 3 "demo");
      RvReset 0;
      RvPredict 0 true 1 tt; RvStep 1 1 1 false tt;
      RvPredict 1 true 2 tt; RvStep 2 2 2 false tt;
      RvPredict 2 true 3 tt; RvStep 3 3 3 false tt;
      RvClose]).
Proof. reflexivity. Qed.




(** The toy render leaves the state as it is, so video mode prints the same
    mean as the other mode. *)
Lemma evaluate_video_gating_witness :
  (forall mode s, (toy_render mode s).2 = s) /\
  result (toy_evaluate 2 2 (Some 30) "demo" 0) = inl tt /\
  last (trace (toy_evaluate 2 2 (Some 30) "demo" 0)) =
    last (trace (toy_evaluate 2 2 None "demo" 0)).
Proof.
  assert (Hpure : forall mode s, (toy_render mode s).2 = s) by reflexivity.
  assert (Hres : result (toy_evaluate 2 2 (Some 30) "demo" 0) = inl tt) by reflexivity.
  split; [exact Hpure|]. split; [exact Hres|].
  destruct (evaluate_video_gating Z Z unit Z bool unit (Z * Z * Z) Z Z Z
              toy_reset toy_predict toy_step toy_render toy_shape 0 Z.add toy_mean
              Py.str_int Py.str_int id toy_path_div toy_there 2 2 "demo" 0)
    as (_ & _ & _ & _ & H).
  exact (proj2 (proj2 (H Hpure 30 Hres))).
Defined.

(** What the model computes on two episodes of two steps. *)
Example evaluate_two_episodes :
  toy_evaluate 2 2 None "" 0 =
    (inl tt, 2,
     [Makedirs "videos/" true; EvPrint "Start evaluation episode 0 of 2";
      EnvReset 0; Tqdm 2; Predict 0 true 1 tt; Step 1 1 1 false tt;
      Predict 1 true 2 tt; Step 2 2 2 false tt;
      EvPrint "Start evaluation episode 1 of 2";
      EnvReset 0; Tqdm 2; Predict 0 true 1 tt; Step 1 1 1 false tt;
      Predict 1 true 2 tt; Step 2 2 2 false tt;
      EvPrint "Finished evaluation with mean episodic reward: 3"]).
Proof. reflexivity. Qed.

Example evaluate_one_video :
  trace (toy_evaluate 1 1 (Some 30) "demo" 0) =
    [Makedirs "videos/" true; EvPrint "Start evaluation episode 0 of 1";
     EnvReset 0; Tqdm 1; Predict 0 true 1 tt; Step 1 1 1 false tt;
     Render "rgb_array" (64, 48, 3);
     EvPrint "Start video writer";
     VideoWriter "videos//temp.mp4" "mp4v" 30 (48, 64);
     WriterWrite (64, 48, 3); WriterRelease;
     EvOsSystem
       "ffmpeg -y -i videos//temp.mp4 -vcodec libx264 -f mp4 videos/demo_0.mp4 >> /tmp/ffmpeg_demo_0.txt 2>&1";
     EvPrint "Showing episode 0 with episodic reward: 1";
     ShowVideo "demo_0" "videos/"; OsRemove "videos//temp.mp4";
     EvPrint "Finished evaluation with mean episodic reward: 1"].
Proof. reflexivity. Qed.

Example py_contains_colab : Py.contains "google.colab" colab_shell = true.
Proof. reflexivity. Qed.

Example py_range_3 : Py.range 3 = [0; 1; 2] /\ Py.range (-2) = [].
Proof. split; reflexivity. Qed.

End Concrete.

(** ** Pendulum: the spec and the bridge together *)

Section PendulumMore.
Import Pendulum.

(** [spec] overwrites all that it sets: a spec object that went through
    [spec] before comes out as one that did not. *)
Theorem spec_last_call_wins (s : ObjectSpec) (name1 name2 : string)
    (acts1 sens1 sts1 acts2 sens2 sts2 : option (list string))
    (r1 r2 : option number) (shape1 shape2 : option (list Z)) :
  spec (spec s name1 acts1 sens1 sts1 r1 shape1) name2 acts2 sens2 sts2 r2 shape2 =
  spec s name2 acts2 sens2 sts2 r2 shape2.
Proof.
  cbv [spec agnostic initialize_spec on_config on_angle_sensor on_image on_voltage
       on_model_state set_rate set_window set_space_converter config sensors actuators
       states OdeBridge angle_sensor image voltage model_state rate window
       space_converter config_name config_sensors config_actuators config_states
       render_shape].
  reflexivity.
Qed.

(** [agnostic] overwrites all that it sets, so that of two calls the rate of
    the second holds, and it leaves the OdeBridge part of the spec as it
    is. *)
Theorem agnostic_last_rate_wins (s : ObjectSpec) (r1 r2 : number) :
  agnostic (agnostic s r1) r2 = agnostic s r2 /\
  OdeBridge (agnostic s r1) = OdeBridge s.
Proof.
  cbv [agnostic on_angle_sensor on_image on_voltage on_model_state set_rate set_window
       set_space_converter config sensors actuators states OdeBridge angle_sensor
       image voltage model_state rate window space_converter render_shape].
  split; reflexivity.
Qed.

Lemma ode_bridge_run (s : ObjectSpec) :
  ode_bridge s =
    (inl tt,
     on_bridge (fun _ => Bridge (Some ode_file) (Some pendulum_ode_params)
                           (Some "OdeEngineState")) s,
     GraphAdd
       [EngineNode "OdeOutput" "angle_sensor" (rate (angle_sensor (sensors s))) 2 [];
        EngineNode "OdeRender" "image" (rate (image (sensors s))) 2 [RenderFn render_file];
        EngineNode "OdeInput" "pendulum_actuator" (rate (voltage (actuators s))) 2
          [DefaultAction [0]]]
     :: map GraphConnect ode_bridge_connections).
Proof. reflexivity. Qed.

(** [ode_bridge] writes to the OdeBridge part of the spec only: the
    configuration, the sensors, the actuators and the states are as before.
    What it adds to the graph does not depend on what the OdeBridge part
    held; a second run adds the same and leaves the spec as the first left
    it; and it makes no difference to the spec whether [agnostic] runs before
    or after it. *)
Theorem ode_bridge_frame (s : ObjectSpec) (r : number) :
  let s' := final (ode_bridge s) in
  config s' = config s /\ sensors s' = sensors s /\
  actuators s' = actuators s /\ states s' = states s /\
  (forall b, trace (ode_bridge (on_bridge (fun _ => b) s)) = trace (ode_bridge s)) /\
  ode_bridge s' = (inl tt, s', trace (ode_bridge s)) /\
  final (ode_bridge (agnostic s r)) = agnostic s' r.
Proof.
  cbv zeta. rewrite !ode_bridge_run. unfold final, trace. cbn [fst snd].
  split; [reflexivity|]. split; [reflexivity|]. split; [reflexivity|].
  split; [reflexivity|]. split; [intros b; rewrite ode_bridge_run; reflexivity|].
  split; reflexivity.
Qed.

(** On a spec made by [spec], [ode_bridge] adds an OdeOutput node and an
    OdeInput node that run at the rate given to [spec], 30. when none was
    given, and an OdeRender node that runs at 15 whatever rate was given; the
    configuration that [spec] made is as it was. *)
Theorem spec_then_ode_bridge (s : ObjectSpec) (name : string)
    (acts sens sts : option (list string)) (r : option number)
    (shape : option (list Z)) :
  let given := match r with Some x => x | None => default_rate end in
  let o := ode_bridge (spec s name acts sens sts r shape) in
  exists obs image action calls,
    trace o = GraphAdd [obs; image; action] :: calls /\
    (node_id obs, node_rate obs) = ("OdeOutput", Some given) /\
    (node_id image, node_rate image) = ("OdeRender", Some (Int 15)) /\
    (node_id action, node_rate action) = ("OdeInput", Some given) /\
    config (final o) = config (spec s name acts sens sts r shape) /\
    result o = inl tt.
Proof.
  cbv zeta. rewrite ode_bridge_run. unfold trace, final, result. cbn [fst snd].
  do 4 eexists. split; [reflexivity|].
  destruct r; cbn; repeat split.
Qed.

End PendulumMore.


(** ** setup_notebook: what it runs and what it leaves alone *)

Section NotebookMore.
Import Helper Observe.
Variable Sys : Type.
Variable spawn : list string -> stderr_dest -> Sys -> Z * string * Sys.
Variable os_system : string -> Sys -> Sys.
Variable get_ipython : Sys -> string.
Variable importable : string -> Sys -> bool.
Variable reload : string -> Sys -> Sys.

Abbreviation setup_notebook :=
  (Helper.setup_notebook Sys spawn os_system get_ipython importable reload).
Abbreviation colab := (Helper.colab Sys get_ipython).
Abbreviation gui_importable := (Helper.gui_importable Sys get_ipython importable reload).

(** Every path of [setup_notebook], with the exit status of each command. *)
Ltac bootstrap_paths :=
  unfold Helper.gui_importable, Helper.colab;
  unfold Helper.setup_notebook, try_import, setenv, on_sys, print, emit, modify, get,
    mbind, M_bind, mret, M_ret, bind, ret;
  destruct (Py.contains "google.colab" _); cbn [sys environ];
  destruct (importable _ _);
  repeat (rewrite (run_command_run Sys spawn) by reflexivity; cbn [sys environ];
          destruct (spawn _ _ _) as [[? ?] ?]; destruct (decide (_ = 0)));
  cbn; unfold result, final, trace; cbn.

(** The commands that [setup_notebook] runs are an initial part of the
    script of its branch, in order; a command that fails is the last one
    run; and when the function raises, the last command run has failed. *)
Theorem setup_notebook_fails_fast (w : world Sys) :
  let o := setup_notebook w in
  let cs := commands (trace o) in
  map fst cs `prefix_of` (if colab w then colab_script else local_script) /\
  (forall i args rc, cs !! i = Some (args, rc) -> rc <> 0 -> S i = length cs) /\
  (forall e, result o = inr e -> exists args rc, last cs = Some (args, rc) /\ rc <> 0).
Proof.
  cbv zeta. bootstrap_paths.
  all: split; [eexists; reflexivity|].
  all: split;
    [ intros i args status Hi Hrc;
      repeat (destruct i as [|i];
              [injection Hi as <- <-; first [reflexivity | contradiction]|]);
      discriminate Hi
    | intros exc He;
      first [ discriminate He
            | do 2 eexists; split; [reflexivity|assumption] ] ].
Qed.

Ltac absent H :=
  repeat (apply elem_of_cons in H; destruct H as [H|H]; [discriminate H|]);
  apply elem_of_nil in H; destruct H.

(** When eagerx_gui can be imported, [setup_notebook] installs nothing:
    it runs no command, starts no Xvfb, leaves DISPLAY as it was, and
    returns. *)
Theorem setup_notebook_with_gui (w : world Sys) :
  gui_importable w = true ->
  let o := setup_notebook w in
  commands (trace o) = [] /\
  (forall cmd, OsSystem cmd ∉ trace o) /\
  environ (final o) !! "DISPLAY" = environ w !! "DISPLAY" /\
  result o = inl tt.
Proof.
  cbv zeta. bootstrap_paths.
  all: intros Hgui; try discriminate Hgui.
  all: split; [reflexivity|].
  all: split; [intros cmd H; absent H|].
  all: split; [|reflexivity].
  all: now simplify_map_eq.
Qed.

(** [setup_notebook] assigns to no variable of [os.environ] other than
    EAGERX_COLAB, DISPLAY and EAGERX_RELOAD, whether it returns or raises;
    off Colab it assigns to EAGERX_RELOAD alone, and with eagerx_gui
    importable never to DISPLAY. *)
Theorem setup_notebook_environ_frame (w : world Sys) (key : string) :
  let o := setup_notebook w in
  (key <> "EAGERX_COLAB" -> key <> "DISPLAY" -> key <> "EAGERX_RELOAD" ->
   environ (final o) !! key = environ w !! key) /\
  (colab w = false -> key <> "EAGERX_RELOAD" ->
   environ (final o) !! key = environ w !! key) /\
  (forall k v, SetEnv k v ∈ trace o ->
     (k, v) = ("EAGERX_COLAB", "1") \/ (k, v) = ("DISPLAY", ":1") \/
     (k, v) = ("EAGERX_RELOAD", "1")).
Proof.
  cbv zeta. bootstrap_paths.
  all: split; [intros H1 H2 H3; now rewrite ?lookup_insert_ne by congruence|].
  all: split;
    [ intros Hc H3; first [discriminate Hc | now rewrite ?lookup_insert_ne by congruence]|].
  all: intros k v H.
  all: repeat (apply elem_of_cons in H;
               destruct H as [H|H];
               [first [discriminate H | injection H as -> ->; tauto]|]).
  all: apply elem_of_nil in H; destruct H.
Qed.

End NotebookMore.

(** ** record_video without steps *)

Section RecorderMore.
Import Helper.
Variables Obs Act Aux Rew Done Info : Type.
Variable Env : Type.
Variable dummy_vec_env : Env -> Env.
Variable vec_video_recorder : recorder_config -> Env -> Env.
Variable eval_env_reset : Env -> Obs * Env.
Variable model_predict : Obs -> bool -> Env -> Act * Aux * Env.
Variable eval_env_step : Act -> Env -> Obs * Rew * Done * Info * Env.
Variable eval_env_close : Env -> Env.

Abbreviation record_video :=
  (Helper.record_video Obs Act Aux Rew Done Info Env dummy_vec_env vec_video_recorder
     eval_env_reset model_predict eval_env_step eval_env_close).

(** With [video_length <= 0], [record_video] still wraps the environment,
    resets the recorder and closes it, and asks the model nothing; the
    recorder is configured with the length as given. *)
Theorem record_video_no_steps (N : Z) (prefix folder : string) (s : Env) :
  N <= 0 ->
  let config := RecorderConfig folder (fun step => bool_decide (step = 0)) N prefix in
  let wrapped := eval_env_reset (vec_video_recorder config (dummy_vec_env s)) in
  record_video N prefix folder s =
    (inl tt, eval_env_close wrapped.2,
     [RvDummyVecEnv; RvVecVideoRecorder config; RvReset wrapped.1; RvClose]).
Proof.
  intros HN. cbv zeta.
  unfold Helper.record_video, rv_reset, mbind, M_bind, bind, modify, emit, Py.range.
  replace (Z.to_nat N) with 0%nat by lia.
  destruct (eval_env_reset _) as [obs0 s0]. reflexivity.
Qed.

End RecorderMore.



(** ** deprecated_setup_notebook *)

Section DeprecatedFacts.
Import Helper Str Deprecated.
Variables Sys Proc : Type.
Variable get_ipython : Sys -> string.
Variable importable : string -> Sys -> bool.
Variable addsitedir : string -> Sys -> Sys.
Variable get_path : string -> Sys -> option string.
Variable strftime : string -> Sys -> string.
Variable terminate : Proc -> Sys -> Sys.
Variable popen : list string -> Sys -> Proc * Sys.

Abbreviation deprecated_setup_notebook :=
  (Deprecated.deprecated_setup_notebook Sys Proc get_ipython importable addsitedir
     get_path strftime terminate popen).
Abbreviation sys_at_second_check :=
  (Deprecated.sys_at_second_check Sys get_ipython addsitedir).
Abbreviation ros_importable := (Deprecated.ros_importable Sys importable).
Abbreviation ros_version := (Deprecated.ros_version Sys importable get_path).
Abbreviation colab := (Helper.colab Sys get_ipython).

Abbreviation find_ros := (Deprecated.find_ros Sys Proc importable get_path).
Abbreviation start_roscore := (Deprecated.start_roscore Sys Proc strftime terminate popen).
Abbreviation import_module := (Deprecated.import_module Sys Proc importable).
Abbreviation pkg_get_path := (Deprecated.pkg_get_path Sys Proc get_path).
Abbreviation Ros := (R (ros_event Proc) (world Sys)).

(** A computation whose run is known, followed by another. *)
Lemma bind_run {A B} (m : Ros A) (k : A -> Ros B) (w w1 : world Sys)
    (r : A + exn) (t : list (ros_event Proc)) :
  m w = (r, w1, t) ->
  Deprecated.bind m k w =
    match r with
    | inl a => (outcome (k a w1), after (k a w1), t ++ events (k a w1))
    | inr e => (inr e, w1, t)
    end.
Proof.
  intros H. unfold Deprecated.bind. rewrite H. destruct r as [a|e]; [|reflexivity].
  destruct (k a w1) as [[r2 s2] t2]. reflexivity.
Qed.

Lemma import_module_run (module : string) (w : world Sys) :
  import_module module w =
    (if importable module (sys w) then inl tt
     else inr (ModuleNotFoundError ("No module named '" +:+ module +:+ "'")),
     w, [Sh (TryImport module (importable module (sys w)))]).
Proof.
  unfold Deprecated.import_module, mbind, R_bind, mret, R_ret, Deprecated.bind,
    Deprecated.get, Deprecated.emit, Deprecated.raise, Deprecated.ret.
  destruct (importable module (sys w)); reflexivity.
Qed.

Lemma pkg_get_path_run (name : string) (w : world Sys) :
  pkg_get_path name w =
    (match get_path name (sys w) with
     | Some p => inl p
     | None => inr (ResourceNotFound name)
     end, w, [GetPath name (get_path name (sys w))]).
Proof.
  unfold Deprecated.pkg_get_path, mbind, R_bind, mret, R_ret, Deprecated.bind,
    Deprecated.get, Deprecated.emit, Deprecated.raise, Deprecated.ret.
  destruct (get_path name (sys w)); reflexivity.
Qed.

(** Lines 101-110 leave the state as it is, print the version they find and
    touch no process. *)
Lemma find_ros_run (w : world Sys) :
  exists r tr,
    find_ros w = (r, w, tr) /\
    (ros_importable (sys w) = false -> exists msg, r = inr (ModuleNotFoundError msg)) /\
    (ros_importable (sys w) = true ->
     r = match get_path "ros" (sys w) with
         | Some p =>
             if Py.contains "noetic" p || Py.contains "melodic" p then inl tt
             else inr (ModuleNotFoundError no_ros_message)
         | None => inr (ResourceNotFound "ros")
         end) /\
    printed tr =
      match ros_version (sys w) with
      | Some v => ["ROS " +:+ v +:+ " available."]
      | None => []
      end /\
    List.filter on_process tr = [].
Proof.
  unfold Deprecated.find_ros, Deprecated.ros_version, Deprecated.ros_importable,
    mbind, R_bind.
  rewrite (bind_run _ _ _ _ _ _ (import_module_run "rospy" w)).
  destruct (importable "rospy" (sys w)); cbn [andb];
    [|eexists _, _; split; [reflexivity|]; split; [eauto|]; split; [discriminate|];
      split; reflexivity].
  rewrite (bind_run _ _ _ _ _ _ (import_module_run "roslaunch" w)).
  destruct (importable "roslaunch" (sys w)); cbn [andb];
    [|eexists _, _; split; [reflexivity|]; split; [eauto|]; split; [discriminate|];
      split; reflexivity].
  rewrite (bind_run _ _ _ _ _ _ (import_module_run "rosparam" w)).
  destruct (importable "rosparam" (sys w)); cbn [andb];
    [|eexists _, _; split; [reflexivity|]; split; [eauto|]; split; [discriminate|];
      split; reflexivity].
  rewrite (bind_run _ _ _ _ _ _ (import_module_run "rospkg" w)).
  destruct (importable "rospkg" (sys w)); cbn [andb];
    [|eexists _, _; split; [reflexivity|]; split; [eauto|]; split; [discriminate|];
      split; reflexivity].
  rewrite (bind_run _ _ _ _ _ _ (pkg_get_path_run "ros" w)).
  destruct (get_path "ros" (sys w)) as [path|] eqn:Ep;
    [|eexists _, _; split; [reflexivity|]; split; [discriminate|];
      split; [reflexivity|]; split; reflexivity].
  destruct (Py.contains "noetic" path) eqn:En.
  { unfold mret, R_ret, Deprecated.print, Deprecated.bind, Deprecated.ret,
      Deprecated.emit, outcome, after, events. cbn [fst snd app orb].
    eexists _, _. split; [reflexivity|]. split; [discriminate|].
    split; [reflexivity|]. split; reflexivity. }
  unfold Deprecated.bind. rewrite pkg_get_path_run, Ep.
  destruct (Py.contains "melodic" path) eqn:Em;
    unfold mret, R_ret, Deprecated.print, Deprecated.bind, Deprecated.ret,
      Deprecated.raise, Deprecated.emit, outcome, after, events; cbn [fst snd app orb];
    eexists _, _; (split; [reflexivity|]); (split; [discriminate|]);
    (split; [reflexivity|]); split; reflexivity.
Qed.

(** Lines 115-124 when [roscore] is unbound: the [NameError] is caught,
    nothing is terminated, and the roscore is started. *)
Lemma start_roscore_run (w : world Sys) :
  start_roscore None w =
    (inl (Some (popen ["bash"; "/root/roscore"] (sys w)).1),
     World (environ w) (popen ["bash"; "/root/roscore"] (sys w)).2,
     [Strftime "%H:%M:%S" (strftime "%H:%M:%S" (sys w));
      Sh (PrintTo Stdout ("Roscore started: " +:+ strftime "%H:%M:%S" (sys w) +:+ "."));
      Popen ["bash"; "/root/roscore"] (popen ["bash"; "/root/roscore"] (sys w)).1]).
Proof.
  unfold Deprecated.start_roscore, local_variable, Deprecated.try_except,
    Deprecated.print, Deprecated.on_sys, mbind, R_bind, mret, R_ret, Deprecated.bind,
    Deprecated.get, Deprecated.emit, Deprecated.raise, Deprecated.ret,
    Deprecated.modify.
  cbn [fst snd app sys environ].
  destruct (popen ["bash"; "/root/roscore"] (sys w)) as [process s]. reflexivity.
Qed.

(** The events of lines 86-98. *)
Abbreviation prologue c :=
  ((if c
    then [Sh (PrintTo Stdout "Running on CoLab."); Sh (SetEnv "EAGERX_COLAB" "1");
          AddSiteDir "/opt/ros/melodic/lib/python2.7/dist-packages";
          AddSiteDir "/usr/lib/python2.7/dist-packages";
          Sh (SetEnv "ROS_PACKAGE_PATH" "/opt/ros/melodic/share/")]
    else [Sh (PrintTo Stdout "Not running on CoLab.");
          Sh (PrintTo Stdout
                ("Execute ROS commands as " +:+ quote +:+ "!..." +:+ quote +:+ "."))])
   ++ [Sh (SetEnv "EAGERX_RELOAD" "1")] : list (ros_event Proc)).

(** The run of [deprecated_setup_notebook] in terms of the run of lines
    101-110. *)
Lemma deprecated_run (w : world Sys) :
  let w1 :=
    World
      (<["EAGERX_RELOAD" := "1"]>
         (if colab w
          then <["ROS_PACKAGE_PATH" := "/opt/ros/melodic/share/"]>
                 (<["EAGERX_COLAB" := "1"]> (environ w))
          else environ w))
      (sys_at_second_check w) in
  let t := strftime "%H:%M:%S" (sys w1) in
  let p := popen ["bash"; "/root/roscore"] (sys w1) in
  exists r tr,
    find_ros w1 = (r, w1, tr) /\
    deprecated_setup_notebook w =
      match r with
      | inr (ResourceNotFound name) =>
          (inr (ResourceNotFound name), w1, prologue (colab w) ++ tr)
      | inr (NameError name) => (inr (NameError name), w1, prologue (colab w) ++ tr)
      | _ =>
          if Py.contains "google.colab" (get_ipython (sys w1))
          then (inl tt, World (environ w1) p.2,
                prologue (colab w) ++ tr ++
                [Strftime "%H:%M:%S" t;
                 Sh (PrintTo Stdout ("Roscore started: " +:+ t +:+ "."));
                 Popen ["bash"; "/root/roscore"] p.1])
          else (inl tt, w1, prologue (colab w) ++ tr)
      end.
Proof.
  cbv zeta.
  set (w1 := World _ (sys_at_second_check w)).
  destruct (find_ros_run w1) as (r & tr & Hrun & _). exists r, tr.
  split; [exact Hrun|]. revert Hrun. subst w1.
  unfold Deprecated.sys_at_second_check, Helper.colab,
    Deprecated.deprecated_setup_notebook.
  unfold site_addsitedir, Deprecated.setenv, Deprecated.print, Deprecated.on_sys,
    Deprecated.try_except, mbind, R_bind, mret, R_ret, Deprecated.bind, Deprecated.get,
    Deprecated.emit, Deprecated.ret, Deprecated.modify, Deprecated.raise.
  destruct (Py.contains "google.colab" (get_ipython (sys w)));
    cbn [fst snd app sys environ]; intros ->;
    destruct r as [[]|[msg|name|name]]; cbn [fst snd app sys environ];
    rewrite ?app_nil_r; try reflexivity;
    (destruct (Py.contains "google.colab" (get_ipython _));
     [rewrite start_roscore_run; cbn [fst snd app sys environ];
      rewrite ?app_nil_r, <- ?app_assoc; reflexivity
     |rewrite ?app_nil_r; reflexivity]).
Qed.

Ltac ros_cases w :=
  let r := fresh "r" in
  let tr := fresh "tr" in
  let r' := fresh "r" in
  let tr' := fresh "tr" in
  let Hrun := fresh "Hrun" in
  let Hrun' := fresh "Hrun" in
  let Hno := fresh "Hno" in
  let Hyes := fresh "Hyes" in
  let Hpr := fresh "Hpr" in
  let Hproc := fresh "Hproc" in
  destruct (deprecated_run w) as (r & tr & Hrun & ->);
  match type of Hrun with
  | Deprecated.find_ros _ _ _ _ ?w1 = _ =>
      destruct (find_ros_run w1) as (r' & tr' & Hrun' & Hno & Hyes & Hpr & Hproc);
      rewrite Hrun in Hrun'; injection Hrun' as <- <-
  end;
  cbn [sys environ] in *.

(** The environment that [deprecated_setup_notebook] leaves, whether it
    returns or raises: EAGERX_RELOAD is "1"; on Colab EAGERX_COLAB is "1"
    and ROS_PACKAGE_PATH is the share folder of melodic; every other variable
    is as it was. *)
Theorem deprecated_setup_notebook_environ (w : world Sys) :
  environ (after (deprecated_setup_notebook w)) =
    <["EAGERX_RELOAD" := "1"]>
      (if colab w
       then <["ROS_PACKAGE_PATH" := "/opt/ros/melodic/share/"]>
              (<["EAGERX_COLAB" := "1"]> (environ w))
       else environ w).
Proof.
  destruct (deprecated_run w) as (r & tr & _ & ->).
  destruct r as [[]|[msg|name|name]];
    try destruct (Py.contains "google.colab" (get_ipython _)); reflexivity.
Qed.

(** [deprecated_setup_notebook] lets no ModuleNotFoundError and no NameError
    escape: a missing ROS module, and a path of the stack ros that names
    neither noetic nor melodic, are swallowed. It returns unless the four ROS
    modules import and [rospkg] cannot find the stack ros, whose exception
    propagates. *)
Theorem deprecated_setup_notebook_returns (w : world Sys) :
  let s := sys_at_second_check w in
  outcome (deprecated_setup_notebook w) =
    if ros_importable s
    then match get_path "ros" s with
         | Some _ => inl tt
         | None => inr (ResourceNotFound "ros")
         end
    else inl tt.
Proof.
  cbv zeta. ros_cases w.
  destruct (ros_importable (sys_at_second_check w)).
  - rewrite (Hyes eq_refl).
    destruct (get_path "ros" (sys_at_second_check w)) as [path|]; [|reflexivity].
    destruct (Py.contains "noetic" path || Py.contains "melodic" path);
      destruct (Py.contains "google.colab" (get_ipython _)); reflexivity.
  - destruct (Hno eq_refl) as [msg ->].
    destruct (Py.contains "google.colab" (get_ipython _)); reflexivity.
Qed.

(** What [deprecated_setup_notebook] prints: where it runs; then the ROS
    version, when the four modules import and the path of the stack ros names
    noetic, or else melodic; then, when it is on Colab and has not raised,
    that the roscore is started, with the time. It never prints that the
    roscore is restarted, and never that no ROS version is available. *)
Theorem deprecated_setup_notebook_prints (w : world Sys) :
  let o := deprecated_setup_notebook w in
  let s := sys_at_second_check w in
  printed (events o) =
    (if colab w then ["Running on CoLab."]
     else ["Not running on CoLab.";
           "Execute ROS commands as " +:+ quote +:+ "!..." +:+ quote +:+ "."]) ++
    match ros_version s with
    | Some v => ["ROS " +:+ v +:+ " available."]
    | None => []
    end ++
    match outcome o with
    | inl _ =>
        if Py.contains "google.colab" (get_ipython s)
        then ["Roscore started: " +:+ strftime "%H:%M:%S" s +:+ "."]
        else []
    | inr _ => []
    end.
Proof.
  cbv zeta. ros_cases w. unfold printed in *.
  destruct r as [[]|[msg|name|name]];
    try destruct (Py.contains "google.colab" (get_ipython (sys_at_second_check w)));
    unfold events, outcome; cbn [fst snd]; rewrite !omap_app, Hpr;
    destruct (Helper.colab Sys get_ipython w); cbn; rewrite ?app_nil_r; reflexivity.
Qed.

(** [deprecated_setup_notebook] never terminates a process. On Colab, when
    it has not raised, it starts bash on /root/roscore once, as its last
    action; otherwise it starts nothing. *)
Theorem deprecated_setup_notebook_roscore (w : world Sys) :
  let o := deprecated_setup_notebook w in
  let s := sys_at_second_check w in
  let started := popen ["bash"; "/root/roscore"] s in
  match outcome o with
  | inl _ =>
      if Py.contains "google.colab" (get_ipython s)
      then List.filter on_process (events o) =
             [Popen ["bash"; "/root/roscore"] started.1] /\
           last (events o) = Some (Popen ["bash"; "/root/roscore"] started.1) /\
           sys (after o) = started.2
      else List.filter on_process (events o) = [] /\ sys (after o) = s
  | inr _ => List.filter on_process (events o) = [] /\ sys (after o) = s
  end.
Proof.
  cbv zeta. ros_cases w.
  destruct r as [[]|[msg|name|name]];
    try destruct (Py.contains "google.colab" (get_ipython (sys_at_second_check w)));
    unfold events, outcome, after; cbn [fst snd sys];
    repeat split;
    try (rewrite !List.filter_app, Hproc;
         destruct (Helper.colab Sys get_ipython w); reflexivity);
    match goal with
    | |- last (?a ++ ?b ++ [?x; ?y; ?z]) = _ =>
        change (a ++ b ++ [x; y; z]) with (a ++ b ++ [x; y] ++ [z]);
        rewrite !app_assoc; apply last_snoc
    end.
Qed.

End DeprecatedFacts.

(** ** show_svg *)

Section DisplayFacts.
Import Str Display.

Lemma length_append (a b : string) :
  String.length (a +:+ b) = (String.length a + String.length b)%nat.
Proof. induction a as [|c a IH]; [reflexivity|]. simpl. f_equal. exact IH. Qed.

Lemma substring_all (b : string) : substring 0 (String.length b) b = b.
Proof. induction b as [|c b IH]; [reflexivity|]. simpl. f_equal. exact IH. Qed.

Lemma substring_end (a b : string) :
  substring (String.length a) (String.length b) (a +:+ b) = b.
Proof. induction a as [|c a IH]; [apply substring_all | exact IH]. Qed.

Lemma endswith_append (a b : string) : endswith (a +:+ b) b = true.
Proof.
  unfold endswith. rewrite length_append.
  replace (String.length a + String.length b - String.length b)%nat
    with (String.length a) by lia.
  rewrite substring_end, String.eqb_refl, andb_true_r.
  apply Nat.leb_le. lia.
Qed.

Lemma lower_append (a b : string) : lower (a +:+ b) = lower a +:+ lower b.
Proof.
  induction a as [|c a IH]; [reflexivity|].
  simpl. change (String ?x ?y +:+ ?z) with (String x (y +:+ z)). now rewrite IH.
Qed.

Lemma svg_name_ends (svg_file : string) :
  endswith (lower (svg_name svg_file)) ".svg" = true.
Proof.
  unfold svg_name. destruct (endswith (lower svg_file) ".svg") eqn:E; [exact E|].
  rewrite lower_append. apply endswith_append.
Qed.

Lemma svg_name_idem (svg_file : string) :
  svg_name (svg_name svg_file) = svg_name svg_file.
Proof. unfold svg_name at 1. now rewrite svg_name_ends. Qed.

(** The name that [show_svg] opens ends in .svg, in some case of letters; a
    name that does so is kept as it is, in particular with its own upper
    case letters, and any other gets .svg appended. Normalising twice is
    normalising once. *)
Theorem svg_name_extension (svg_file : string) :
  endswith (lower (svg_name svg_file)) ".svg" = true /\
  (endswith (lower svg_file) ".svg" = true -> svg_name svg_file = svg_file) /\
  (endswith (lower svg_file) ".svg" = false ->
   svg_name svg_file = svg_file +:+ ".svg") /\
  svg_name (svg_name svg_file) = svg_name svg_file /\
  svg_name (svg_file +:+ ".SVG") = svg_file +:+ ".SVG".
Proof.
  split; [apply svg_name_ends|].
  split; [intros E; unfold svg_name; now rewrite E|].
  split; [intros E; unfold svg_name; now rewrite E|].
  split; [apply svg_name_idem|].
  unfold svg_name. rewrite lower_append.
  change (lower ".SVG") with ".svg". now rewrite endswith_append.
Qed.

Section Shown.
Variables Bytes St : Type.
Variable svg_data : string -> St -> string * St.
Variable b64encode : Bytes -> Bytes.
Variable encode : string -> Bytes.
Variable decode : string -> Bytes -> string.

Abbreviation show_svg := (Display.show_svg Bytes St svg_data b64encode encode decode).

(** [show_svg] on a name without the extension is [show_svg] on the name
    with it: both read the same file and return the same HTML. It reads one
    file, leaves the notebook to whoever gets the HTML, and never raises by
    itself. *)
Theorem show_svg_extension_optional (svg_file width : string) (s : St) :
  show_svg svg_file width s = show_svg (svg_name svg_file) width s /\
  result (show_svg svg_file width s) =
    inl (HTML (img_tag width
                 (decode "utf=8"
                    (b64encode (encode (svg_data (svg_name svg_file) s).1))))) /\
  trace (show_svg svg_file width s) =
    [SvgData (svg_name svg_file) (svg_data (svg_name svg_file) s).1].
Proof.
  unfold Display.show_svg.
  rewrite svg_name_idem.
  split; [reflexivity|].
  unfold mbind, M_bind, mret, M_ret, bind, ret, result, trace.
  destruct (svg_data (svg_name svg_file) s) as [data s']. split; reflexivity.
Qed.

End Shown.

End DisplayFacts.

(** ** More theorems at concrete inputs *)

Section Scenes.
Import Helper Examples Observe Frames Str Deprecated Display Scenarios.

(** On Colab with eagerx_gui installed nothing is run, although every
    command would fail. *)
Lemma setup_notebook_with_gui_witness :
  gui_importable unit on_colab importable_all unchanged fresh = true /\
  commands (trace (gui_setup fresh)) = [] /\
  result (gui_setup fresh) = inl tt.
Proof.
  assert (H : gui_importable unit on_colab importable_all unchanged fresh = true)
    by reflexivity.
  split; [exact H|].
  pose proof (setup_notebook_with_gui unit spawn_failing unchanged on_colab
                importable_all unchanged fresh H) as X.
  cbv zeta in X. destruct X as (Hc & _ & _ & Hr). exact (conj Hc Hr).
Defined.

(** A recording of negative length. *)
Lemma record_video_no_steps_witness :
  -2 <= 0 /\
  toy_record_video (-2) 5 =
    (inl tt, 0,
     [RvDummyVecEnv;
      RvVecVideoRecorder
        (RecorderConfig "videos/" (fun step => bool_decide (step = 0)) (-2) "demo");
      RvReset 0; RvClose]).
Proof.
  assert (H : -2 <= 0) by lia.
  split; [exact H|].
  exact (record_video_no_steps Z Z unit Z bool unit Z toy_wrap toy_recorder toy_reset
           toy_predict toy_step toy_wrap (-2) "demo" "videos/" 5 H).
Defined.

(** An evaluation of no episode leaves the environment in its state 7. *)
Lemma evaluate_no_episodes_witness :
  0 <= 0 /\
  toy_evaluate 0 5 (Some 30) "demo" 7 =
    (inl tt, 7,
     [Makedirs "videos/" true;
      EvPrint (finished_message Z Z toy_mean Py.str_int [])]).
Proof.
  assert (H : 0 <= 0) by lia.
  split; [exact H|].
  exact (evaluate_no_episodes Z Z unit Z bool unit (Z * Z * Z) Z Z Z toy_reset
           toy_predict toy_step toy_render toy_shape 0 Z.add toy_mean Py.str_int
           Py.str_int id toy_path_div toy_there 0 5 (Some 30) "demo" 7 H).
Defined.

(** The command of the one episode names videos/demo_0.mp4 as its output,
    the path that [show_video] opens, whether the file is then there or
    not. *)
Lemma evaluate_shows_encoded_video_witness :
  (forall i,
     toy_path_div "videos/" (("demo" +:+ "_" +:+ Py.str_int i) +:+ ".mp4") =
     toy_path_div "videos/" ("demo" +:+ "_" +:+ Py.str_int i) +:+ ".mp4") /\
  ShowVideo "demo_0" "videos/" ∈ trace (toy_evaluate 1 1 (Some 30) "demo" 0) /\
  (exists before text after,
     trace (toy_evaluate 1 1 (Some 30) "demo" 0) =
       before ++
       [EvOsSystem
          (encode_command "videos//temp.mp4" "videos/demo_0.mp4"
             "/tmp/ffmpeg_demo_0.txt");
        EvPrint text;
        ShowVideo "demo_0" "videos/"] ++ after) /\
  result (toy_evaluate_missing 1 1 (Some 30) "demo" 0) =
    inr (Py.FileNotFoundError "videos/demo_0.mp4") /\
  (exists before file text,
     "videos/demo_0.mp4" = toy_path_div "videos/" (file +:+ ".mp4") /\
     trace (toy_evaluate_missing 1 1 (Some 30) "demo" 0) =
       before ++
       [EvOsSystem
          (encode_command "videos//temp.mp4" "videos/demo_0.mp4"
             ("/tmp/ffmpeg_" +:+ file +:+ ".txt"));
        EvPrint text]).
Proof.
  assert (Hp : forall i,
             toy_path_div "videos/" (("demo" +:+ "_" +:+ Py.str_int i) +:+ ".mp4") =
             toy_path_div "videos/" ("demo" +:+ "_" +:+ Py.str_int i) +:+ ".mp4")
    by reflexivity.
  assert (Hin : ShowVideo "demo_0" "videos/" ∈
                trace (toy_evaluate 1 1 (Some 30) "demo" 0)).
  { vm_compute. repeat constructor. }
  assert (Hres : result (toy_evaluate_missing 1 1 (Some 30) "demo" 0) =
                 inr (Py.FileNotFoundError "videos/demo_0.mp4")) by reflexivity.
  split; [exact Hp|]. split; [exact Hin|]. split; [|split; [exact Hres|]].
  - exact (proj1 (evaluate_shows_encoded_video Z Z unit Z bool unit (Z * Z * Z) Z Z Z
                    toy_reset toy_predict toy_step toy_render toy_shape 0 Z.add
                    toy_mean Py.str_int Py.str_int id toy_path_div toy_there 1 1
                    (Some 30) "demo" 0 Hp) "demo_0" "videos/" Hin).
  - exact (proj2 (evaluate_shows_encoded_video Z Z unit Z bool unit (Z * Z * Z) Z Z Z
                    toy_reset toy_predict toy_step toy_render toy_shape 0 Z.add
                    toy_mean Py.str_int Py.str_int id toy_path_div toy_missing 1 1
                    (Some 30) "demo" 0 Hp) "videos/demo_0.mp4" Hres).
Defined.

(** [deprecated_setup_notebook] on Colab with ROS noetic. *)
Example deprecated_setup_on_colab :
  outcome (toy_deprecated_setup on_colab importable_all noetic_path fresh) = inl tt /\
  events (toy_deprecated_setup on_colab importable_all noetic_path fresh) =
    [Sh (PrintTo Stdout "Running on CoLab."); Sh (SetEnv "EAGERX_COLAB" "1");
     AddSiteDir "/opt/ros/melodic/lib/python2.7/dist-packages";
     AddSiteDir "/usr/lib/python2.7/dist-packages";
     Sh (SetEnv "ROS_PACKAGE_PATH" "/opt/ros/melodic/share/");
     Sh (SetEnv "EAGERX_RELOAD" "1");
     Sh (TryImport "rospy" true); Sh (TryImport "roslaunch" true);
     Sh (TryImport "rosparam" true); Sh (TryImport "rospkg" true);
     GetPath "ros" (Some "/opt/ros/noetic/share/ros");
     Sh (PrintTo Stdout "ROS noetic available.");
     Strftime "%H:%M:%S" "12:00:00";
     Sh (PrintTo Stdout "Roscore started: 12:00:00.");
     Popen ["bash"; "/root/roscore"] 4242].
Proof. split; reflexivity. Qed.

(** Off Colab without ROS: the failed import is swallowed. *)
Example deprecated_setup_without_ros :
  outcome (toy_deprecated_setup off_colab not_importable noetic_path fresh) = inl tt /\
  events (toy_deprecated_setup off_colab not_importable noetic_path fresh) =
    [Sh (PrintTo Stdout "Not running on CoLab.");
     Sh (PrintTo Stdout ("Execute ROS commands as " +:+ quote +:+ "!..." +:+ quote +:+ "."));
     Sh (SetEnv "EAGERX_RELOAD" "1");
     Sh (TryImport "rospy" false)].
Proof. split; reflexivity. Qed.

(** With the modules but without the stack, the exception of [rospkg]
    escapes and no roscore is started, also on Colab. *)
Example deprecated_setup_without_stack :
  outcome (toy_deprecated_setup on_colab importable_all no_stack fresh) =
    inr (ResourceNotFound "ros") /\
  last (events (toy_deprecated_setup on_colab importable_all no_stack fresh)) =
    Some (GetPath "ros" None).
Proof. split; reflexivity. Qed.

Example show_svg_names :
  svg_name "graph" = "graph.svg" /\ svg_name "graph.svg" = "graph.svg" /\
  svg_name "GRAPH.SVG" = "GRAPH.SVG" /\ svg_name "graph.svg.png" = "graph.svg.png.svg" /\
  svg_name ".svg" = ".svg" /\ svg_name "svg" = "svg.svg".
Proof. repeat split. Qed.

Example show_svg_reads_named_file :
  toy_show_svg "graph" "50%" tt =
    (inl (HTML ("<img width=" +:+ quote +:+ "50%" +:+ quote +:+ " src=" +:+ quote +:+
                "data:image/svg+xml;base64,graph.svg" +:+ quote +:+ " >")),
     tt, [SvgData "graph.svg" "graph.svg"]).
Proof. reflexivity. Qed.

End Scenes.
